(** * extract_msg: property and stream resolution of [MSGFile] and [Recipient]

    A shallow embedding of [extract_msg/msg_classes/msg.py] and
    [extract_msg/recipient.py].  Methods of an instance are computations in
    a state-and-exception monad: the state holds the private attributes of
    the instance (with the cells of its [functools.cached_property]
    attributes), the records sent to the module's logger and the calls made
    on the OLE container handle. *)

From Stdlib Require Import ZArith Ascii String List Bool Lia.
From stdpp Require Import base gmap strings list.

Set Warnings "-register-all".

Open Scope string_scope.
Open Scope list_scope.

(** ** Python strings and bytes *)

Definition bytes := list Byte.byte.

(** Decoded text ([str] values produced by [bytes.decode]): code points. *)
Definition text := list N.

Module Py.

(** [x.startswith(p)] *)
Definition startswith (x p : string) : bool := String.prefix p x.

(** [c in x] for a one-character string [c] *)
Fixpoint contains_char (c : ascii) (x : string) : bool :=
  match x with
  | EmptyString => false
  | String d r => if Ascii.eqb c d then true else contains_char c r
  end.

(** [x[-n:]]: the whole string when it is shorter than [n] *)
Definition last_n (n : nat) (x : string) : string :=
  String.substring (String.length x - n) n x.

(** [x[-n]]: [None] stands for IndexError *)
Definition index_neg (n : nat) (x : string) : option ascii :=
  if (String.length x <? n)%nat then None else String.get (String.length x - n) x.

(** [sep.join(l)] *)
Fixpoint join (sep : string) (l : list string) : string :=
  match l with
  | [] => ""
  | [a] => a
  | a :: r => a +:+ sep +:+ join sep r
  end.

(** [x.split(sep)] for a one-character separator *)
Fixpoint split_aux (sep : ascii) (x : string) (cur : string) : list string :=
  match x with
  | EmptyString => [cur]
  | String c r =>
      if Ascii.eqb c sep then cur :: split_aux sep r ""
      else split_aux sep r (cur +:+ String c "")
  end.

Definition split (sep : ascii) (x : string) : list string := split_aux sep x "".

(** [x.upper()] on ASCII letters *)
Definition upper_char (c : ascii) : ascii :=
  let n := nat_of_ascii c in
  if ((97 <=? n) && (n <=? 122))%nat then ascii_of_nat (n - 32) else c.

Fixpoint upper (x : string) : string :=
  match x with
  | EmptyString => EmptyString
  | String c r => String (upper_char c) (upper r)
  end.

Definition hex_digit (d : N) : ascii :=
  match String.get (N.to_nat d) "0123456789ABCDEF" with
  | Some c => c
  | None => "0"%char
  end.

Fixpoint hex_aux (fuel : nat) (n : N) (acc : string) : string :=
  match fuel with
  | O => acc
  | S f =>
      if (n =? 0)%N then acc
      else hex_aux f (n / 16)%N (String (hex_digit (n mod 16)%N) acc)
  end.

Fixpoint zeros (k : nat) : string :=
  match k with
  | O => ""
  | S k' => String "0"%char (zeros k')
  end.

(** [f'{y:08X}'] *)
Definition format_08X (y : nat) : string :=
  let digits := hex_aux (N.size_nat (N.of_nat y)) (N.of_nat y) "" in
  zeros (8 - String.length digits) +:+ digits.

(** [range(n)] *)
Definition range (n : nat) : list nat := seq 0 n.

End Py.

(** ** Values, exceptions, log records *)

(** The Python values that property records and decoded streams carry. *)
Inductive PyVal :=
| PyNone
| PyInt (z : Z)
| PyBytes (b : bytes)
| PyStr (s : text)
| PyList (l : list PyVal)
| PyOther (repr : string).

Inductive exn :=
| StandardViolationError
| ReferenceError
| NotImplementedError
| OSError
| TypeError
| ValueError
| IndexError
| LookupError
| OtherError (name : string).

Inductive result (A : Type) :=
| Ok (a : A)
| Raise (e : exn).
Arguments Ok {A} a.
Arguments Raise {A} e.

(** One constructor per call on [logger] in the two modules. *)
Inductive LogRecord :=
| info_stream_not_found (filename : string)
| error_no_property_stream
| error_multiple_binary_incomplete
| error_multiple_string_incomplete
| error_no_VariableLengthProp (stream : string)
| warning_encoding_default.

Inductive Level := INFO | WARNING | ERROR.

Definition levelno (r : LogRecord) : Level :=
  match r with
  | info_stream_not_found _ => INFO
  | warning_encoding_default => WARNING
  | _ => ERROR
  end.

(** ** The container handle ([olefile.OleFileIO])

    The compound-file reader is an external collaborator; the instance uses
    three of its methods.  [ole_openstream p = None] stands for the
    exception that [openstream] raises when [p] is not a stream. *)
Record OleFileIO := {
  ole_exists : string -> bool;
  ole_openstream : string -> option bytes;
  ole_listdir : bool -> bool -> list (list string)
}.

Inductive OleCall :=
| call_exists (p : string)
| call_openstream (p : string)
| call_listdir (streams storages : bool).

(** ** Paths: a string, or a list or tuple of segments *)
Inductive MsgPath :=
| PStr (s : string)
| PList (l : list string).

(** Modelled from the spec: [utils.msgPathToString] is not among the
    sources.  A path is an ordered sequence of segments; as a string the
    segments are joined by the path separator. *)
Definition msgPathToString (inp : MsgPath) : string :=
  match inp with
  | PStr s => s
  | PList l => Py.join "/" l
  end.

(** ** The property store *)

Inductive PropertiesType := MESSAGE | MESSAGE_EMBED | RECIPIENT.

(** Modelled from the spec: [enums.ErrorBehavior] is not among the sources.
    The spec gives [errorBehavior] two values; [TOLERANT] stands for the
    behaviours that contain the flag [STANDARDS_VIOLATION]. *)
Inductive ErrorBehavior := THROW | TOLERANT.

Definition STANDARDS_VIOLATION_in (e : ErrorBehavior) : bool :=
  match e with
  | TOLERANT => true
  | THROW => false
  end.

(** A record of the store: an inline fixed-length value, or the size
    metadata of a value kept in a sibling stream. *)
Inductive PropBase :=
| FixedLengthProp (value : PyVal)
| VariableLengthProp (realLength : nat).

Module PropertiesStore.

(** Modelled from the spec: the class [PropertiesStore]
    ([properties/properties_store.py]) is not among the sources.  The
    store maps 8-hex-character tags to records, in slot order. *)
Definition t := list (string * PropBase).

(** Modelled from the spec: [getValue(tag, default)]; a record matches
    when its tag starts with the given id or tag, and only an inline
    record carries a value.  [None] stands for the default. *)
Fixpoint getValue (ps : t) (name : string) : option PyVal :=
  match ps with
  | [] => None
  | (k, FixedLengthProp v) :: r =>
      if Py.startswith k name then Some v else getValue r name
  | (_, VariableLengthProp _) :: r => getValue r name
  end.

(** Modelled from the spec: [contains(idPrefix)], the [in] operator. *)
Definition contains (ps : t) (name : string) : bool :=
  existsb (fun kv => Py.startswith (fst kv) name) ps.

(** Modelled from the spec: [props[tag]]; [None] stands for KeyError. *)
Fixpoint getitem (ps : t) (name : string) : option PropBase :=
  match ps with
  | [] => None
  | (k, p) :: r => if String.eqb k name then Some p else getitem r name
  end.

End PropertiesStore.

(** ** Functions of the package that the two modules import

    [utils], [encoding], [constants] and [properties] are not among the
    sources: what the methods below call from them is taken as a
    parameter. *)
Class Externals := {
  (** the slot decoder of [PropertiesStore.__init__] *)
  parseProperties : PropertiesType -> bytes -> PropertiesStore.t;
  (** [bytes.decode(encoding)] *)
  decode : string -> bytes -> result text;
  (** [encoding.lookupCodePage] *)
  lookupCodePage : PyVal -> result string;
  (** [utils.verifyPropertyId] and [utils.verifyType] *)
  verifyPropertyId : string -> result unit;
  verifyType : option string -> result unit;
  (** [int(_type, 16)] *)
  int16 : string -> result Z;
  (** [utils.parseType]; the second argument is the stream or, for the
      packed multiple types, the number of elements *)
  parseType : Z -> bytes + nat -> string -> list (option bytes) -> result PyVal;
  (** [utils.divide] *)
  divide : bytes -> nat -> list bytes;
  (** [constants.MULTIPLE_2_BYTES] and its siblings *)
  MULTIPLE_2_BYTES : list string;
  MULTIPLE_4_BYTES : list string;
  MULTIPLE_8_BYTES : list string
}.

(** Modelled from the spec: the constructor of [PropertiesStore]; without
    a stream the store has zero records. *)
Definition PropertiesStore_init {ext : Externals} (data : option bytes) (ty : PropertiesType)
  : PropertiesStore.t :=
  match data with
  | None => []
  | Some b => parseProperties ty b
  end.

(** Modelled from the spec: [utils.windowsUnicode]; a unicode-suffixed
    stream decodes as UTF-16LE, an absent stream gives none. *)
Definition windowsUnicode {ext : Externals} (s : option bytes) : result (option text) :=
  match s with
  | None => Ok None
  | Some b =>
      match decode "utf-16-le" b with
      | Ok t => Ok (Some t)
      | Raise e => Raise e
      end
  end.

(** ** The instance and the monad of its methods *)

(** Private attributes of an [MSGFile] set by [__init__], and the cells of
    the cached properties ([None]: not computed yet). *)
Record MSGFile := {
  msg_prefix : string;
  msg_prefixList : list string;
  msg_prefixLen : nat;
  msg_errorBehavior : ErrorBehavior;
  msg_stringEncoding : option string;
  msg_listDirRes : gmap (bool * bool * bool) (list (list string));
  cached_props : option PropertiesStore.t;
  cached_areStringsUnicode : option bool
}.

Record World := {
  self : MSGFile;
  log : list LogRecord;
  calls : list OleCall
}.

(** The world after further calls on the container, or further records
    sent to the logger *)
Definition with_calls (w : World) (cs : list OleCall) : World :=
  {| self := self w; log := log w; calls := calls w ++ cs |}.

Definition with_log (w : World) (rs : list LogRecord) : World :=
  {| self := self w; log := log w ++ rs; calls := calls w |}.

Definition with_self (w : World) (m : MSGFile) : World :=
  {| self := m; log := log w; calls := calls w |}.

Definition M (A : Type) : Type := OleFileIO -> World -> result A * World.

Definition ret {A} (a : A) : M A := fun _ w => (Ok a, w).

Definition raise {A} (e : exn) : M A := fun _ w => (Raise e, w).

Definition bind {A B} (c : M A) (k : A -> M B) : M B :=
  fun o w =>
    match c o w with
    | (Ok a, w') => k a o w'
    | (Raise e, w') => (Raise e, w')
    end.

Notation "x <- c ;; k" := (bind c (fun x => k))
  (at level 100, c at next level, right associativity).
Notation "c ;;; k" := (bind c (fun _ => k))
  (at level 100, right associativity).

Definition lift {A} (r : result A) : M A := fun _ w => (r, w).

Definition get_self : M MSGFile := fun _ w => (Ok (self w), w).

Definition set_self (f : MSGFile -> MSGFile) : M unit :=
  fun _ w => (Ok tt, with_self w (f (self w))).

Definition logger (r : LogRecord) : M unit :=
  fun _ w => (Ok tt, with_log w [r]).

Definition called (c : OleCall) : M unit :=
  fun _ w => (Ok tt, with_calls w [c]).

(** [self.__ole.exists(p)] *)
Definition ole_exists_ (p : string) : M bool :=
  fun o w => (called (call_exists p) ;;; ret (ole_exists o p)) o w.

(** [self.__ole.openstream(p).read() or b''] *)
Definition ole_read (p : string) : M bytes :=
  fun o w =>
    (called (call_openstream p) ;;;
     match ole_openstream o p with
     | Some b => ret b
     | None => raise OSError
     end) o w.

(** [self.__ole.listdir(streams, storages)] *)
Definition ole_listdir_ (streams storages : bool) : M (list (list string)) :=
  fun o w => (called (call_listdir streams storages) ;;; ret (ole_listdir o streams storages)) o w.

(** [functools.cached_property]: the body runs when the cell is empty and
    its value is stored when it returns. *)
Definition cached_property {A} (cell : MSGFile -> option A)
    (store : A -> MSGFile -> MSGFile) (body : M A) : M A :=
  m <- get_self ;;
  match cell m with
  | Some a => ret a
  | None => a <- body ;; set_self (store a) ;;; ret a
  end.

Definition set_cached_props (ps : PropertiesStore.t) (m : MSGFile) : MSGFile :=
  {| msg_prefix := msg_prefix m; msg_prefixList := msg_prefixList m;
     msg_prefixLen := msg_prefixLen m; msg_errorBehavior := msg_errorBehavior m;
     msg_stringEncoding := msg_stringEncoding m; msg_listDirRes := msg_listDirRes m;
     cached_props := Some ps; cached_areStringsUnicode := cached_areStringsUnicode m |}.

Definition set_cached_areStringsUnicode (b : bool) (m : MSGFile) : MSGFile :=
  {| msg_prefix := msg_prefix m; msg_prefixList := msg_prefixList m;
     msg_prefixLen := msg_prefixLen m; msg_errorBehavior := msg_errorBehavior m;
     msg_stringEncoding := msg_stringEncoding m; msg_listDirRes := msg_listDirRes m;
     cached_props := cached_props m; cached_areStringsUnicode := Some b |}.

Definition set_stringEncoding (e : string) (m : MSGFile) : MSGFile :=
  {| msg_prefix := msg_prefix m; msg_prefixList := msg_prefixList m;
     msg_prefixLen := msg_prefixLen m; msg_errorBehavior := msg_errorBehavior m;
     msg_stringEncoding := Some e; msg_listDirRes := msg_listDirRes m;
     cached_props := cached_props m; cached_areStringsUnicode := cached_areStringsUnicode m |}.

Definition set_listDirRes (k : bool * bool * bool) (v : list (list string)) (m : MSGFile) : MSGFile :=
  {| msg_prefix := msg_prefix m; msg_prefixList := msg_prefixList m;
     msg_prefixLen := msg_prefixLen m; msg_errorBehavior := msg_errorBehavior m;
     msg_stringEncoding := msg_stringEncoding m; msg_listDirRes := <[k := v]> (msg_listDirRes m);
     cached_props := cached_props m; cached_areStringsUnicode := cached_areStringsUnicode m |}.

(** The attributes that [__init__] sets: [prefixl] is the prefix as
    [inputToMsgPath] converts it ([None] when no prefix is given), and
    [__stringEncoding] is set only by an encoding override. *)
Definition MSGFile_new (prefixl : option (list string)) (errorBehavior : ErrorBehavior)
    (overrideEncoding : option string) : MSGFile := {|
  msg_prefix := match prefixl with
                | Some l => Py.join "/" l +:+ "/"
                | None => ""
                end;
  msg_prefixList := default [] prefixl;
  msg_prefixLen := length (default [] prefixl);
  msg_errorBehavior := errorBehavior;
  msg_stringEncoding := overrideEncoding;
  msg_listDirRes := ∅;
  cached_props := None;
  cached_areStringsUnicode := None
|}.

(** The value bound to [index] by
    [next((x for x in ret if x is None), -1)] *)
Inductive NextIndex :=
| next_item (x : option bytes)
| next_default (d : Z).

(** What a single-or-multiple getter returns *)
Inductive SingleOrMultiple (S L : Type) :=
| Single (s : S)
| Multiple (l : L).
Arguments Single {S L} s.
Arguments Multiple {S L} l.

(** ** Methods of [MSGFile] *)

Section MSGFile_methods.
Context {ext : Externals}.

(** [MSGFile.fixPath], as a function of the instance *)
Definition fixed (m : MSGFile) (inp : MsgPath) (prefix : bool) : string :=
  let inp := msgPathToString inp in
  if prefix then msg_prefix m +:+ inp else inp.

Definition fixPath (inp : MsgPath) (prefix : bool) : M string :=
  m <- get_self ;;
  ret (fixed m inp prefix).

(** [MSGFile.exists] *)
Definition exists_ (inp : MsgPath) (prefix : bool) : M bool :=
  inp <- fixPath inp prefix ;;
  ole_exists_ inp.

(** [MSGFile.getStream] *)
Definition getStream (filename : MsgPath) (prefix : bool) : M (option bytes) :=
  filename <- fixPath filename prefix ;;
  found <- exists_ (PStr filename) false ;;
  if found then
    b <- ole_read filename ;; ret (Some b)
  else
    logger (info_stream_not_found filename) ;;; ret None.

(** [not stream] for an optional bytes object *)
Definition falsy (stream : option bytes) : bool :=
  match stream with
  | None => true
  | Some [] => true
  | Some _ => false
  end.

(** [MSGFile.props] *)
Definition props : M PropertiesStore.t :=
  cached_property cached_props set_cached_props
    (stream <- getStream (PStr "__properties_version1.0") true ;;
     m <- get_self ;;
     (if falsy stream then
        if STANDARDS_VIOLATION_in (msg_errorBehavior m)
        then logger error_no_property_stream
        else raise StandardViolationError
      else ret tt) ;;;
     ret (PropertiesStore_init stream
            (if String.eqb (msg_prefix m) "" then MESSAGE else MESSAGE_EMBED))).

(** [MSGFile.getPropertyVal]; [None] stands for the caller's default *)
Definition getPropertyVal (name : string) : M (option PyVal) :=
  ps <- props ;;
  ret (PropertiesStore.getValue ps name).


(** [MSGFile.areStringsUnicode]: [getPropertyVal('340D0003', 0) & 0x40000] *)
Definition areStringsUnicode : M bool :=
  cached_property cached_areStringsUnicode set_cached_areStringsUnicode
    (v <- getPropertyVal "340D0003" ;;
     match v with
     | None => ret (negb (Z.land 0 0x40000 =? 0)%Z)
     | Some (PyInt z) => ret (negb (Z.land z 0x40000 =? 0)%Z)
     | Some _ => raise TypeError
     end).

(** [MSGFile.stringEncoding]: the attribute [__stringEncoding] when it is
    set (by [overrideEncoding] or by an earlier call), else computed. *)
Definition stringEncoding : M string :=
  m <- get_self ;;
  match msg_stringEncoding m with
  | Some e => ret e
  | None =>
      u <- areStringsUnicode ;;
      if u then
        set_self (set_stringEncoding "utf-16-le") ;;; ret "utf-16-le"
      else
        ps <- props ;;
        if negb (PropertiesStore.contains ps "3FFD0003") then
          logger warning_encoding_default ;;;
          set_self (set_stringEncoding "iso-8859-15") ;;; ret "iso-8859-15"
        else
          enc <- getPropertyVal "3FFD0003" ;;
          e <- lift (lookupCodePage (default PyNone enc)) ;;
          set_self (set_stringEncoding e) ;;; ret e
  end.

(** [MSGFile.getStringStream] *)
Definition getStringStream (filename : MsgPath) (prefix : bool) : M (option text) :=
  filename <- fixPath filename prefix ;;
  u <- areStringsUnicode ;;
  if u then
    s <- getStream (PStr (filename +:+ "001F")) false ;;
    lift (windowsUnicode s)
  else
    tmp <- getStream (PStr (filename +:+ "001E")) false ;;
    match tmp with
    | None => ret None
    | Some b =>
        enc <- stringEncoding ;;
        t <- lift (decode enc b) ;;
        ret (Some t)
    end.

(** A list comprehension [[f(x) for x in xs]] with an effectful [f] *)
Fixpoint comprehension {A B} (f : A -> M B) (xs : list A) : M (list B) :=
  match xs with
  | [] => ret []
  | x :: r => b <- f x ;; bs <- comprehension f r ;; ret (b :: bs)
  end.

(** [next((x for x in ret if x is None), -1)]: the first item that is
    [None], itself, else the default *)
Definition next_None (ret_ : list (option bytes)) : NextIndex :=
  match List.find (fun x => match x with None => true | Some _ => false end) ret_ with
  | Some x => next_item x
  | None => next_default (-1)
  end.

(** [index != -1] *)
Definition ne_minus_one (i : NextIndex) : bool :=
  match i with
  | next_default d => negb (d =? -1)%Z
  | next_item _ => true
  end.

(** [ret[:index]]; a slice bound that is [None] is no bound, one that is
    a bytes object is a TypeError *)
Definition slice_to {A} (l : list A) (i : NextIndex) : result (list A) :=
  match i with
  | next_item None => Ok l
  | next_item (Some _) => Raise TypeError
  | next_default d =>
      if (d <? 0)%Z then Ok (firstn (length l - Z.to_nat (- d)) l)
      else Ok (firstn (Z.to_nat d) l)
  end.

(** [MSGFile.getMultipleBinary] *)
Definition getMultipleBinary (filename : MsgPath) (prefix : bool)
  : M (option (list (option bytes))) :=
  filename <- fixPath filename prefix ;;
  let filename := filename +:+ "1102" in
  multStream <- getStream (PStr filename) true ;;
  match multStream with
  | None => ret None
  | Some multStream =>
      if (length multStream =? 0)%nat then ret (Some [])
      else if negb (Z.land (Z.of_nat (length multStream)) 7 =? 0)%Z then
        raise StandardViolationError
      else
        ret_ <- comprehension
                  (fun x => getStream (PStr (filename +:+ "-" +:+ Py.format_08X x)) true)
                  (Py.range (length multStream / 8)) ;;
        let index := next_None ret_ in
        if ne_minus_one index then
          logger error_multiple_binary_incomplete ;;;
          r <- lift (slice_to ret_ index) ;;
          ret (Some r)
        else ret (Some ret_)
  end.

(** The loop of [getMultipleString] over [enumerate(ret)]; [done] holds
    the items already replaced by their decoded text. *)
Fixpoint decode_items (items : list (option bytes)) (done : list text) : M (list text) :=
  match items with
  | [] => ret done
  | None :: _ =>
      logger error_multiple_string_incomplete ;;; ret done
  | Some item :: r =>
      enc <- stringEncoding ;;
      t <- lift (decode enc item) ;;
      decode_items r (done ++ [removelast t])
  end.

(** [MSGFile.getMultipleString]; the first statement is the conditional
    expression [(fixPath(filename, prefix) + '101F') if areStringsUnicode
    else '101E'] *)
Definition getMultipleString (filename : MsgPath) (prefix : bool) : M (list text) :=
  u <- areStringsUnicode ;;
  filename <- (if u then f <- fixPath filename prefix ;; ret (f +:+ "101F")
               else ret "101E") ;;
  multStream <- getStream (PStr filename) true ;;
  match multStream with
  | None => ret []
  | Some multStream =>
      if (length multStream =? 0)%nat then ret []
      else if negb (Z.land (Z.of_nat (length multStream)) 3 =? 0)%Z then
        raise StandardViolationError
      else
        ret_ <- comprehension
                  (fun x => getStream (PStr (filename +:+ "-" +:+ Py.format_08X x)) true)
                  (Py.range (length multStream / 4)) ;;
        decode_items ret_ []
  end.

(** [MSGFile.getSingleOrMultipleBinary] *)
Definition getSingleOrMultipleBinary (filename : MsgPath) (prefix : bool)
  : M (SingleOrMultiple bytes (option (list (option bytes)))) :=
  filename <- fixPath filename prefix ;;
  r <- getStream (PStr (filename +:+ "0102")) false ;;
  match r with
  | Some b => ret (Single b)
  | None => l <- getMultipleBinary (PStr filename) false ;; ret (Multiple l)
  end.

(** [MSGFile.getSingleOrMultipleString] *)
Definition getSingleOrMultipleString (filename : MsgPath) (prefix : bool)
  : M (SingleOrMultiple text (list text)) :=
  filename <- fixPath filename prefix ;;
  r <- getStringStream (PStr filename) false ;;
  match r with
  | Some t => ret (Single t)
  | None => l <- getMultipleString (PStr filename) false ;; ret (Multiple l)
  end.


(** [prefix = self.__prefix.split('/')], without its last segment when
    that one is empty *)
Definition split_prefix (p : string) : list string :=
  let prefix := Py.split "/" p in
  if String.eqb (List.last prefix "") "" then removelast prefix else prefix.

(** The test of the comprehension of [listDir]:
    [len(x) > prefixLength and x[:prefixLength] == prefix] *)
Definition below_prefix (prefix : list string) (prefixLength : nat) (x : list string) : bool :=
  (prefixLength <? length x)%nat && bool_decide (take prefixLength x = prefix).

(** [MSGFile.listDir] *)
Definition listDir (streams storages includePrefix : bool) : M (list (list string)) :=
  m <- get_self ;;
  match msg_listDirRes m !! (streams, storages, includePrefix) with
  | Some entries => ret entries
  | None =>
      entries <- ole_listdir_ streams storages ;;
      if String.eqb (msg_prefix m) "" then ret entries
      else
        let prefix := split_prefix (msg_prefix m) in
        let prefixLength := msg_prefixLen m in
        let entries := List.filter (below_prefix prefix prefixLength) entries in
        let entries := if includePrefix then entries else List.map (drop prefixLength) entries in
        set_self (set_listDirRes (streams, storages, includePrefix) entries) ;;;
        ret entries
  end.

(** [MSGFile.slistDir] *)
Definition slistDir (streams storages includePrefix : bool) : M (list string) :=
  entries <- listDir streams storages includePrefix ;;
  ret (List.map (fun x => msgPathToString (PList x)) entries).

(** [MSGFile._getTypedProperty]; the value is [PyNone] when nothing is
    found *)
Definition _getTypedProperty (propertyID : string) (_type : option string) : M (bool * PyVal) :=
  lift (verifyPropertyId propertyID) ;;;
  propertyID <- match _type with
                | Some (String c t) =>
                    lift (verifyType _type) ;;; ret (propertyID +:+ String c t)
                | _ => ret propertyID
                end ;;
  ret_ <- getPropertyVal propertyID ;;
  match ret_ with
  | None => ret (false, PyNone)
  | Some v => ret (true, v)
  end.

(** [try: body  except Exception: handler] *)
Definition try_except {A} (body handler : M A) : M A :=
  fun o w =>
    match body o w with
    | (Ok a, w') => (Ok a, w')
    | (Raise _, w') => handler o w'
    end.

Definition str_in (x : string) (l : list string) : bool :=
  existsb (String.eqb x) l.

(** [2 if _type in MULTIPLE_2_BYTES else 4 if _type in MULTIPLE_4_BYTES else
    8 if _type in MULTIPLE_8_BYTES else 16] *)
Definition element_width (_type : string) : nat :=
  if str_in _type MULTIPLE_2_BYTES then 2
  else if str_in _type MULTIPLE_4_BYTES then 4
  else if str_in _type MULTIPLE_8_BYTES then 8
  else 16.

Definition packed_types : list string :=
  ["1002"; "1003"; "1004"; "1005"; "1007"; "1014"; "1040"; "1048"].

Definition indexed_types : list string := ["101F"; "101E"; "1102"].

(** The loop [for y in range(streams)] of [_getTypedStream] that gathers
    the indexed sibling streams into [extras] *)
Fixpoint gather_extras (x : string) (ys : list nat) (extras : list (option bytes))
  : M (list (option bytes)) :=
  match ys with
  | [] => ret extras
  | y :: r =>
      let name := x +:+ "-" +:+ Py.format_08X y in
      found <- exists_ (PStr name) false ;;
      if found then
        e <- getStream (PStr name) false ;;
        gather_extras x r (extras ++ [e])
      else gather_extras x r extras
  end.

(** The body of the loop of [_getTypedStream] from [extras = []] on: the
    stream [x] was found with the non-empty [contents]. *)
Definition decode_typed_stream (x : string) (contents : bytes) : M (bool * PyVal) :=
  let _type := Py.last_n 4 x in
  c <- match Py.index_neg 4 x with
       | Some c => ret c
       | None => raise IndexError
       end ;;
  if Ascii.eqb c "1" then
    streams <-
      (if str_in _type ["101F"; "101E"] then ret (length contents / 4)
       else if String.eqb _type "1102" then ret (length contents / 8)
       else if str_in _type packed_types then
         try_except
           (ps <- props ;;
            match PropertiesStore.getitem ps (Py.last_n 8 x) with
            | Some (VariableLengthProp n) => ret n
            | _ => raise LookupError
            end)
           (logger (error_no_VariableLengthProp x) ;;;
            ret (length contents / element_width _type))
       else raise NotImplementedError) ;;
    if str_in _type indexed_types then
      found <- exists_ (PStr (x +:+ "-00000000")) false ;;
      extras <- (if found then gather_extras x (Py.range streams) [] else ret []) ;;
      t <- lift (int16 _type) ;;
      enc <- stringEncoding ;;
      v <- lift (parseType t (inl contents) enc extras) ;;
      ret (true, v)
    else if str_in _type packed_types then
      let extras := List.map Some (divide contents (element_width _type)) in
      t <- lift (int16 _type) ;;
      enc <- stringEncoding ;;
      v <- lift (parseType t (inr streams) enc extras) ;;
      ret (true, v)
    else
      t <- lift (int16 _type) ;;
      enc <- stringEncoding ;;
      v <- lift (parseType t (inl contents) enc []) ;;
      ret (true, v)
  else
    t <- lift (int16 _type) ;;
    enc <- stringEncoding ;;
    v <- lift (parseType t (inl contents) enc []) ;;
    ret (true, v).

(** The test of the loop of [_getTypedStream] on a candidate:
    [x.startswith(filename) and '-' not in x] *)
Definition name_matches (filename x : string) : bool :=
  Py.startswith x filename && negb (Py.contains_char "-" x).

(** The body of that loop once the stream [x] has been read *)
Definition typed_stream_body (x : string) (contents : bytes) : M (bool * PyVal) :=
  if (length contents =? 0)%nat then ret (true, PyNone)
  else decode_typed_stream x contents.

(** The loop [for x in ...] of [_getTypedStream] *)
Fixpoint typed_stream_loop (filename : string) (xs : list string) : M (bool * PyVal) :=
  match xs with
  | [] => ret (false, PyNone)
  | x :: r =>
      if name_matches filename x then
        contents <- getStream (PStr x) false ;;
        match contents with
        | None => typed_stream_loop filename r
        | Some contents => typed_stream_body x contents
        end
      else typed_stream_loop filename r
  end.

(** The iterable of that loop:
    [(filename + _type,) if _type is not None else self.slistDir()] *)
Definition candidates (filename : string) (_type : option string) : M (list string) :=
  match _type with
  | Some t => ret [filename +:+ t]
  | None => slistDir true false true
  end.

(** [MSGFile._getTypedStream] *)
Definition _getTypedStream (filename : MsgPath) (prefix : bool) (_type : option string)
  : M (bool * PyVal) :=
  lift (verifyType _type) ;;;
  filename <- fixPath filename prefix ;;
  xs <- candidates filename _type ;;
  typed_stream_loop filename xs.

(** [MSGFile._getTypedData] *)
Definition _getTypedData (_id : string) (_type : option string) (prefix : bool) : M PyVal :=
  lift (verifyPropertyId _id) ;;;
  let _id := Py.upper _id in
  fr <- _getTypedStream (PStr ("__substg1.0_" +:+ _id)) prefix _type ;;
  if fst fr then ret (snd fr)
  else
    fr <- _getTypedProperty _id _type ;;
    ret (if fst fr then snd fr else PyNone).


(** [MSGFile.sExists] *)
Definition sExists (inp : MsgPath) (prefix : bool) : M bool :=
  inp <- fixPath inp prefix ;;
  u <- exists_ (PStr (inp +:+ "001F")) true ;;
  if u then ret true else exists_ (PStr (inp +:+ "001E")) true.

End MSGFile_methods.

(** ** Weak references, [Recipient] and [MSGFile.named] *)

(** A [weakref.ref]: calling it gives the referent, or [None] once the
    referent has been garbage collected. *)
Inductive weakref (A : Type) :=
| live (referent : A)
| dead.
Arguments live {A} referent.
Arguments dead {A}.

(** The attributes of a [Recipient] besides [__msg]. *)
Record Recipient := {
  rcp_dir : string;
  rcp_props : PropertiesStore.t
}.

(** Methods of a [Recipient] run on the state of the referent of
    [self.__msg]. *)
Definition R (A : Type) : Type := OleFileIO -> weakref World -> result A * weakref World.

(** [if (msg := self.__msg()) is None: raise ReferenceError(...)] followed
    by a call on [msg] *)
Definition through_msg {A} (call : M A) : R A :=
  fun o r =>
    match r with
    | dead => (Raise ReferenceError, dead)
    | live w => let (a, w') := call o w in (a, live w')
    end.

Section Recipient_methods.
Context {ext : Externals}.
Variable rcp : Recipient.

Definition in_dir (filename : MsgPath) : MsgPath :=
  PList [rcp_dir rcp; msgPathToString filename].

(** [Recipient._getTypedStream]: the call on [msg] passes [self] as an
    extra positional argument, one more than the method accepts *)
Definition Recipient_getTypedStream (filename : MsgPath) (_type : option string)
  : R (bool * PyVal) :=
  through_msg (raise TypeError).

(** [Recipient.exists] *)
Definition Recipient_exists (filename : MsgPath) : R bool :=
  through_msg (exists_ (in_dir filename) true).

(** [Recipient.sExists] *)
Definition Recipient_sExists (filename : MsgPath) : R bool :=
  through_msg (sExists (in_dir filename) true).

(** [Recipient.getMultipleBinary] *)
Definition Recipient_getMultipleBinary (filename : MsgPath)
  : R (option (list (option bytes))) :=
  through_msg (getMultipleBinary (in_dir filename) true).

(** [Recipient.getMultipleString] *)
Definition Recipient_getMultipleString (filename : MsgPath) : R (list text) :=
  through_msg (getMultipleString (in_dir filename) true).

(** [Recipient.getSingleOrMultipleBinary] *)
Definition Recipient_getSingleOrMultipleBinary (filename : MsgPath)
  : R (SingleOrMultiple bytes (option (list (option bytes)))) :=
  through_msg (getSingleOrMultipleBinary (in_dir filename) true).

(** [Recipient.getSingleOrMultipleString] *)
Definition Recipient_getSingleOrMultipleString (filename : MsgPath)
  : R (SingleOrMultiple text (list text)) :=
  through_msg (getSingleOrMultipleString (in_dir filename) true).

(** [Recipient.getStream] *)
Definition Recipient_getStream (filename : MsgPath) : R (option bytes) :=
  through_msg (getStream (in_dir filename) true).

(** [Recipient.getStringStream] *)
Definition Recipient_getStringStream (filename : MsgPath) : R (option text) :=
  through_msg (getStringStream (in_dir filename) true).

(** [Recipient.getPropertyVal] reads the recipient's own store. *)
Definition Recipient_getPropertyVal (name : string) : R (option PyVal) :=
  fun _ r => (Ok (PropertiesStore.getValue (rcp_props rcp) name), r).

End Recipient_methods.

Section Named_property.
(** The class [Named] of [properties/named.py] is not among the sources:
    its instances and its constructor, which reads the container through
    the instance it is given, are parameters. *)
Variable Named : Type.
Variable Named_new : M Named.

(** An [MSGFile] with its attribute [__parentMsg] ([None] when it has no
    parent, else a weak reference) and the cell of its cached property
    [named]. *)
Inductive MsgObject :=
| mkObj (obj_world : World) (cached_named : option Named)
        (parentMsg : option (weakref MsgObject)).

(** [MSGFile.named] *)
Fixpoint named (x : MsgObject) (o : OleFileIO) : result Named * MsgObject :=
  match x with
  | mkObj w (Some n) p => (Ok n, x)
  | mkObj w None (Some dead) => (Raise ReferenceError, x)
  | mkObj w None (Some (live msg)) =>
      match named msg o with
      | (Ok n, msg') => (Ok n, mkObj w (Some n) (Some (live msg')))
      | (Raise e, msg') => (Raise e, mkObj w None (Some (live msg')))
      end
  | mkObj w None None =>
      match Named_new o w with
      | (Ok n, w') => (Ok n, mkObj w' (Some n) None)
      | (Raise e, w') => (Raise e, mkObj w' None None)
      end
  end.

End Named_property.

(** ** Notions used in the statements *)

(** The value of the Unicode bit, 0x40000, of the store support mask
    [340D0003]; the mask defaults to 0. *)
Definition unicode_bit (ps : PropertiesStore.t) : result bool :=
  match PropertiesStore.getValue ps "340D0003" with
  | None => Ok false
  | Some (PyInt z) => Ok (negb (Z.land z 0x40000 =? 0)%Z)
  | Some _ => Raise TypeError
  end.

(** Two containers agree below the prefix of an instance: the same answers
    on every path that starts with the prefix, and the same listed entries
    among those that [listDir] keeps for this prefix. *)
Record agree_below (m : MSGFile) (o1 o2 : OleFileIO) : Prop := {
  agree_exists : forall p,
    Py.startswith p (msg_prefix m) = true -> ole_exists o1 p = ole_exists o2 p;
  agree_openstream : forall p,
    Py.startswith p (msg_prefix m) = true -> ole_openstream o1 p = ole_openstream o2 p;
  agree_listdir : forall streams storages,
    List.filter (below_prefix (split_prefix (msg_prefix m)) (msg_prefixLen m))
      (ole_listdir o1 streams storages)
    = List.filter (below_prefix (split_prefix (msg_prefix m)) (msg_prefixLen m))
        (ole_listdir o2 streams storages)
}.

(** A world of an instance that has the prefix of [m0]. *)
Definition same_scope (m0 : MSGFile) (w : World) : Prop :=
  msg_prefix (self w) = msg_prefix m0 /\ msg_prefixLen (self w) = msg_prefixLen m0.

(** A computation runs alike on the containers [o1] and [o2] from every
    world in the scope of [m0], stays in that scope, and its value, when it
    returns, satisfies [Q]. *)
Definition isolated {A : Type} (m0 : MSGFile) (o1 o2 : OleFileIO) (c : M A)
    (Q : A -> Prop) : Prop :=
  forall w, same_scope m0 w ->
    c o1 w = c o2 w /\
    same_scope m0 (snd (c o1 w)) /\
    forall a, fst (c o1 w) = Ok a -> Q a.

(** An entry lies strictly below the prefix [pl]. *)
Definition strictly_below (pl : list string) (x : list string) : Prop :=
  exists rest, rest <> [] /\ x = pl ++ rest.

(** What [listDir] may return for the prefix [pl]: entries strictly below
    it or, without the prefix, their non-empty remainders. *)
Definition listing_ok (pl : list string) (includePrefix : bool) (entries : list (list string))
  : Prop :=
  if includePrefix then Forall (strictly_below pl) entries
  else Forall (fun r => r <> []) entries.

(** An embedded instance as [__init__] leaves it and [listDir] keeps it:
    a non-empty prefix whose segments are the prefix list, and memoized
    listings that are listings for the prefix. *)
Record embedded_ok (m : MSGFile) : Prop := {
  ok_embedded : msg_prefix m <> "";
  ok_split : split_prefix (msg_prefix m) = msg_prefixList m;
  ok_len : msg_prefixLen m = length (msg_prefixList m);
  ok_cache : forall streams storages includePrefix entries,
    msg_listDirRes m !! (streams, storages, includePrefix) = Some entries ->
    listing_ok (msg_prefixList m) includePrefix entries
}.

(** The loop of [_getTypedStream] passes over a candidate whose name does
    not match or that the container does not hold. *)
Definition passed_over (o : OleFileIO) (filename x : string) : Prop :=
  name_matches filename x = false \/ ole_exists o x = false.

(** [id + type] when the type is given, [id] else *)
Definition with_type (_id : string) (_type : option string) : string :=
  match _type with
  | Some t => _id +:+ t
  | None => _id
  end.

(** The run of a computation with its value, when it returns, mapped. *)
Definition map_run {A B : Type} (f : A -> B) (run : result A * World) : result B * World :=
  match run with
  | (Ok a, w) => (Ok (f a), w)
  | (Raise e, w) => (Raise e, w)
  end.

(** ** A concrete container and concrete collaborators

    Used to run the methods on explicit inputs. *)

Module Fixture.

(** A container that holds the given streams, by full path. *)
Definition ole_of_streams (streams : list (string * bytes)) : OleFileIO := {|
  ole_exists p := existsb (fun kv => String.eqb (fst kv) p) streams;
  ole_openstream p :=
    match List.find (fun kv => String.eqb (fst kv) p) streams with
    | Some kv => Some (snd kv)
    | None => None
    end;
  ole_listdir streams_ storages :=
    if streams_ then List.map (fun kv => Py.split "/" (fst kv)) streams else []
|}.

Definition hex_value (c : ascii) : option Z :=
  let n := Z.of_nat (nat_of_ascii c) in
  if ((48 <=? n) && (n <=? 57))%Z then Some (n - 48)%Z
  else if ((65 <=? n) && (n <=? 70))%Z then Some (n - 55)%Z
  else if ((97 <=? n) && (n <=? 102))%Z then Some (n - 87)%Z
  else None.

Fixpoint parse_hex (x : string) (acc : Z) : result Z :=
  match x with
  | EmptyString => Ok acc
  | String c r =>
      match hex_value c with
      | Some d => parse_hex r (16 * acc + d)%Z
      | None => Raise ValueError
      end
  end.

Fixpoint chunks (fuel : nat) (b : bytes) (n : nat) : list bytes :=
  match fuel with
  | O => []
  | S f =>
      match b with
      | [] => []
      | _ => take n b :: chunks f (drop n b) n
      end
  end.

Definition externals : Externals := {|
  parseProperties _ _ := [];
  decode _ b := Ok (List.map Byte.to_N b);
  lookupCodePage v :=
    match v with
    | PyInt 1252 => Ok "cp1252"
    | _ => Raise (OtherError "UnsupportedEncodingError")
    end;
  verifyPropertyId x :=
    if (String.length x =? 4)%nat then Ok tt else Raise (OtherError "InvalidPropertyIdError");
  verifyType _ := Ok tt;
  int16 x := parse_hex x 0;
  parseType t c enc extras :=
    match c with
    | inl b =>
        match extras with
        | [] => Ok (PyBytes b)
        | _ => Ok (PyList (List.map (fun e => match e with
                                              | Some e => PyBytes e
                                              | None => PyNone end) extras))
        end
    | inr n => Ok (PyList (List.map (fun e => match e with
                                              | Some e => PyBytes e
                                              | None => PyNone end) extras))
    end;
  divide b n := chunks (length b) b n;
  MULTIPLE_2_BYTES := ["1002"];
  MULTIPLE_4_BYTES := ["1003"; "1004"];
  MULTIPLE_8_BYTES := ["1005"; "1007"; "1014"; "1040"]
|}.

(** A freshly initialised instance: nothing cached, no override. *)
Definition new_msg (prefix : list string) (eb : ErrorBehavior) : MSGFile :=
  MSGFile_new (match prefix with [] => None | _ => Some prefix end) eb None.

Definition new_world (m : MSGFile) : World := {| self := m; log := []; calls := [] |}.

Definition with_props (ps : PropertiesStore.t) (m : MSGFile) : MSGFile :=
  set_cached_props ps m.

Definition b5 : bytes := [Byte.x01; Byte.x02; Byte.x03; Byte.x04; Byte.x05].
Definition b3 : bytes := [Byte.x0a; Byte.x0b; Byte.x0c].
Definition zeros (n : nat) : bytes := repeat Byte.x00 n.


(** The prefix of an embedded message, and a property of the tests. *)
Definition embedded : list string := ["__attach_1"; "__substg1.0_3701000D"].
Definition P : string := "__attach_1/__substg1.0_3701000D/".
Definition X : string := "__substg1.0_1234".

(** A multiple binary property: two size records, two element streams. *)
Definition binary_set (dir : string) : list (string * bytes) :=
  [(dir +:+ X +:+ "1102", zeros 16);
   (dir +:+ X +:+ "1102-00000000", b5);
   (dir +:+ X +:+ "1102-00000001", b3)].

(** The same property without its second element stream. *)
Definition binary_set_partial (dir : string) : list (string * bytes) :=
  [(dir +:+ X +:+ "1102", zeros 16);
   (dir +:+ X +:+ "1102-00000000", b5)].

Definition legacy_store : PropertiesStore.t :=
  [("340D0003", FixedLengthProp (PyInt 0)); ("3FFD0003", FixedLengthProp (PyInt 1252))].

Definition unicode_store : PropertiesStore.t :=
  [("340D0003", FixedLengthProp (PyInt 0x40000))].

End Fixture.

(** ** Sequences of accesses

    What a caller can do with an instance between two reads: any of the
    read methods, with any arguments, on the container as it is then; an
    exception is the caller's to catch. *)

(** The world of an instance at a later time: the attributes set by
    [__init__] unchanged, every cell and attribute that was set still
    holding its value, the log and the calls on the container longer. *)
Record extends (w w' : World) : Prop := {
  keeps_prefix : msg_prefix (self w') = msg_prefix (self w);
  keeps_prefixList : msg_prefixList (self w') = msg_prefixList (self w);
  keeps_prefixLen : msg_prefixLen (self w') = msg_prefixLen (self w);
  keeps_errorBehavior : msg_errorBehavior (self w') = msg_errorBehavior (self w);
  keeps_props : forall ps,
    cached_props (self w) = Some ps -> cached_props (self w') = Some ps;
  keeps_areStringsUnicode : forall u,
    cached_areStringsUnicode (self w) = Some u -> cached_areStringsUnicode (self w') = Some u;
  keeps_stringEncoding : forall e,
    msg_stringEncoding (self w) = Some e -> msg_stringEncoding (self w') = Some e;
  keeps_listDirRes : forall k entries,
    msg_listDirRes (self w) !! k = Some entries ->
    msg_listDirRes (self w') !! k = Some entries;
  extends_log : exists rs, log w' = log w ++ rs;
  extends_calls : exists cs, calls w' = calls w ++ cs
}.

(** One call of a read method of [MSGFile] *)
Inductive Access :=
| acc_exists (inp : MsgPath) (prefix : bool)
| acc_sExists (inp : MsgPath) (prefix : bool)
| acc_getStream (filename : MsgPath) (prefix : bool)
| acc_getStringStream (filename : MsgPath) (prefix : bool)
| acc_getMultipleBinary (filename : MsgPath) (prefix : bool)
| acc_getMultipleString (filename : MsgPath) (prefix : bool)
| acc_getSingleOrMultipleBinary (filename : MsgPath) (prefix : bool)
| acc_getSingleOrMultipleString (filename : MsgPath) (prefix : bool)
| acc_listDir (streams storages includePrefix : bool)
| acc_slistDir (streams storages includePrefix : bool)
| acc_props
| acc_getPropertyVal (name : string)
| acc_areStringsUnicode
| acc_stringEncoding
| acc_getTypedProperty (propertyID : string) (_type : option string)
| acc_getTypedStream (filename : MsgPath) (prefix : bool) (_type : option string)
| acc_getTypedData (_id : string) (_type : option string) (prefix : bool).

(** The world after a call, whether it returned or raised *)
Definition world_after {A : Type} (c : M A) (o : OleFileIO) (w : World) : World :=
  snd (c o w).

Definition perform {ext : Externals} (a : Access) : OleFileIO -> World -> World :=
  match a with
  | acc_exists inp prefix => world_after (exists_ inp prefix)
  | acc_sExists inp prefix => world_after (sExists inp prefix)
  | acc_getStream filename prefix => world_after (getStream filename prefix)
  | acc_getStringStream filename prefix => world_after (getStringStream filename prefix)
  | acc_getMultipleBinary filename prefix => world_after (getMultipleBinary filename prefix)
  | acc_getMultipleString filename prefix => world_after (getMultipleString filename prefix)
  | acc_getSingleOrMultipleBinary filename prefix =>
      world_after (getSingleOrMultipleBinary filename prefix)
  | acc_getSingleOrMultipleString filename prefix =>
      world_after (getSingleOrMultipleString filename prefix)
  | acc_listDir streams storages includePrefix =>
      world_after (listDir streams storages includePrefix)
  | acc_slistDir streams storages includePrefix =>
      world_after (slistDir streams storages includePrefix)
  | acc_props => world_after props
  | acc_getPropertyVal name => world_after (getPropertyVal name)
  | acc_areStringsUnicode => world_after areStringsUnicode
  | acc_stringEncoding => world_after stringEncoding
  | acc_getTypedProperty propertyID _type => world_after (_getTypedProperty propertyID _type)
  | acc_getTypedStream filename prefix _type =>
      world_after (_getTypedStream filename prefix _type)
  | acc_getTypedData _id _type prefix => world_after (_getTypedData _id _type prefix)
  end.

(** The world after a sequence of calls, each on the container as it is
    at the time of the call *)
Definition after {ext : Externals} (accesses : list (OleFileIO * Access)) (w : World) : World :=
  fold_left (fun w oa => perform (snd oa) (fst oa) w) accesses w.

(** A computation leaves a world that extends the one it started from. *)
Definition grows {A : Type} (c : M A) : Prop :=
  forall o w, extends w (world_after c o w).

(** Every entry that the container holds can be read as a stream. *)
Definition readable (o : OleFileIO) : Prop :=
  forall p, ole_exists o p = true -> ole_openstream o p <> None.

(** The stream at the full path [p], when the container holds it *)
Definition held (o : OleFileIO) (p : string) : option bytes :=
  if ole_exists o p then ole_openstream o p else None.

(** The run of a computation with its value, when it returns, mapped. *)
Definition map_result {A B : Type} (f : A -> B) (r : result A) : result B :=
  match r with
  | Ok a => Ok (f a)
  | Raise e => Raise e
  end.

(** ** Further concrete collaborators *)

Module Examples.

(** The collaborators of [Fixture], with a slot decoder that gives every
    non-empty property stream the records of [Fixture.legacy_store]. *)
Definition externals : Externals := {|
  parseProperties _ b := match b with [] => [] | _ => Fixture.legacy_store end;
  decode := @decode Fixture.externals;
  lookupCodePage := @lookupCodePage Fixture.externals;
  verifyPropertyId := @verifyPropertyId Fixture.externals;
  verifyType := @verifyType Fixture.externals;
  int16 := @int16 Fixture.externals;
  parseType := @parseType Fixture.externals;
  divide := @divide Fixture.externals;
  MULTIPLE_2_BYTES := @MULTIPLE_2_BYTES Fixture.externals;
  MULTIPLE_4_BYTES := @MULTIPLE_4_BYTES Fixture.externals;
  MULTIPLE_8_BYTES := @MULTIPLE_8_BYTES Fixture.externals
|}.

(** A top-level instance whose encoding is overridden. *)
Definition overridden (enc : string) : World :=
  Fixture.new_world (MSGFile_new None THROW (Some enc)).

(** A top-level instance whose strings are known to be Unicode. *)
Definition unicode_world : World :=
  Fixture.new_world
    (set_cached_areStringsUnicode true (MSGFile_new None THROW (Some "utf-16-le"))).

End Examples.

(** ** More methods of [MSGFile] *)

Section MSGFile_getters_as.

(** [MSGFile.getStreamAs]; [overrideClass] is a callable, which may read
    the instance and may raise *)
Definition getStreamAs {T : Type} (streamID : MsgPath) (overrideClass : bytes -> M T)
  : M (option T) :=
  value <- getStream streamID true ;;
  match value with
  | Some b => t <- overrideClass b ;; ret (Some t)
  | None => ret None
  end.

(** [MSGFile.getStringStreamAs]: the value is read with [getStream] *)
Definition getStringStreamAs {T : Type} (streamID : MsgPath) (overrideClass : bytes -> M T)
  : M (option T) :=
  value <- getStream streamID true ;;
  match value with
  | Some b => t <- overrideClass b ;; ret (Some t)
  | None => ret None
  end.

End MSGFile_getters_as.

Section MSGFile_existsTypedProperty.
Context {ext : Externals}.

(** [utils.inputToMsgPath] is not among the sources: it is a parameter.
    Its argument here is a list whose items are the segments of the prefix
    and the location as it was given. *)
Variable inputToMsgPath : list MsgPath -> result (list string).

(** What iterating over a [PropertiesStore] yields is not among the
    sources either. *)
Variable store_iter : PropertiesStore.t -> list string.

(** [x.endswith(y)] *)
Definition endswith (x y : string) : bool :=
  (String.length y <=? String.length x)%nat
  && String.eqb (Py.last_n (String.length y) x) y.

(** The first loop of [existsTypedProperty], over [self.listDir()];
    [item[self.__prefixLen]] is in range by the test before it *)
Fixpoint count_streams (prefixLen : nat) (usableId : string) (items : list (list string))
    (foundNumber : nat) (foundStreams : list string) : nat * list string :=
  match items with
  | [] => (foundNumber, foundStreams)
  | item :: rest =>
      if (prefixLen <? length item)%nat then
        let name := nth prefixLen item "" in
        if Py.startswith name ("__substg1.0_" +:+ usableId) && negb (str_in name foundStreams)
        then count_streams prefixLen usableId rest (S foundNumber) (foundStreams ++ [name])
        else count_streams prefixLen usableId rest foundNumber foundStreams
      else count_streams prefixLen usableId rest foundNumber foundStreams
  end.

(** The second loop, over the store: a record counts when no stream that
    was found ends with its name *)
Fixpoint count_properties (usableId : string) (xs : list string) (foundStreams : list string)
    (foundNumber : nat) : nat :=
  match xs with
  | [] => foundNumber
  | x :: rest =>
      if Py.startswith x usableId && negb (existsb (fun y => endswith y x) foundStreams)
      then count_properties usableId rest foundStreams (S foundNumber)
      else count_properties usableId rest foundStreams foundNumber
  end.

(** [not _type] for an optional string *)
Definition no_type (_type : option string) : bool :=
  match _type with
  | Some (String _ _) => false
  | _ => true
  end.

(** [MSGFile.existsTypedProperty] *)
Definition existsTypedProperty (_id : string) (location : option MsgPath)
    (_type : option string) (prefix : bool) (propertiesInstance : option PropertiesStore.t)
  : M (bool * nat) :=
  lift (verifyPropertyId _id) ;;;
  lift (verifyType _type) ;;;
  let _id := Py.upper _id in
  propertiesInstance <- match propertiesInstance with
                        | None => props
                        | Some ps => ret ps
                        end ;;
  m <- get_self ;;
  let prefixList := if prefix then List.map PStr (msg_prefixList m) else [] in
  let prefixList := match location with
                    | Some l => prefixList ++ [l]
                    | None => prefixList
                    end in
  _ <- lift (inputToMsgPath prefixList) ;;
  let usableId := if no_type _type then _id else _id +:+ default "" _type in
  items <- listDir true false true ;;
  let '(foundNumber, foundStreams) := count_streams (msg_prefixLen m) usableId items 0 [] in
  let foundNumber :=
    count_properties usableId (store_iter propertiesInstance) foundStreams foundNumber in
  ret ((0 <? foundNumber)%nat, foundNumber).

(** [Recipient.existsTypedProperty] *)
Definition Recipient_existsTypedProperty (rcp : Recipient) (id : string)
    (_type : option string) : R (bool * nat) :=
  through_msg (existsTypedProperty id (Some (PStr (rcp_dir rcp))) _type true
                 (Some (rcp_props rcp))).

End MSGFile_existsTypedProperty.

Definition AttributeError : exn := OtherError "AttributeError".

Section MSGFile_attachments.

(** The attachment classes are not among the sources.  An attachment is
    what the injected factory [initAttachmentFunc] returns, a call that
    reads the instance it is given and may raise; of an attachment the
    instance uses the test [attachment.type == 'msg'] and the call
    [attachment.data.close()], which may raise. *)
Variable Attachment : Type.
Variable initAttachmentFunc : string -> M Attachment.
Variable type_is_msg : Attachment -> bool.
Variable data_close : Attachment -> result unit.

(** The calls that [close] makes on other objects *)
Inductive TeardownCall :=
| call_data_close (attachment : Attachment)
| call_ole_close.

(** An instance with the attributes that [attachments] and [close] use,
    the cell of the cached property [attachments], and the calls made by
    [close].  The attribute [__open] is not set until the end of
    [__init__]: [None] is the attribute that is not set. *)
Record Instance := {
  inst_world : World;
  inst_open : option bool;
  inst_oleOwner : bool;
  inst_attachmentsReady : bool;
  cached_attachments : option (list Attachment);
  teardown : list TeardownCall
}.

Definition OnInstance (A : Type) : Type := OleFileIO -> Instance -> result A * Instance.

Definition with_world (s : Instance) (w : World) : Instance :=
  {| inst_world := w; inst_open := inst_open s; inst_oleOwner := inst_oleOwner s;
     inst_attachmentsReady := inst_attachmentsReady s;
     cached_attachments := cached_attachments s; teardown := teardown s |}.

Definition with_attachments (s : Instance) (w : World) (attachments : list Attachment)
  : Instance :=
  {| inst_world := w; inst_open := inst_open s; inst_oleOwner := inst_oleOwner s;
     inst_attachmentsReady := true;
     cached_attachments := Some attachments; teardown := teardown s |}.

Definition with_teardown (s : Instance) (cs : list TeardownCall) : Instance :=
  {| inst_world := inst_world s; inst_open := inst_open s; inst_oleOwner := inst_oleOwner s;
     inst_attachmentsReady := inst_attachmentsReady s;
     cached_attachments := cached_attachments s; teardown := teardown s ++ cs |}.

Definition closed (s : Instance) : Instance :=
  {| inst_world := inst_world s; inst_open := Some false; inst_oleOwner := inst_oleOwner s;
     inst_attachmentsReady := inst_attachmentsReady s;
     cached_attachments := cached_attachments s; teardown := teardown s |}.

(** The first loop of [attachments]; [dir_[0]] of an empty entry is an
    IndexError *)
Fixpoint collect_attachmentDirs (entries : list (list string)) (attachmentDirs : list string)
  : result (list string) :=
  match entries with
  | [] => Ok attachmentDirs
  | [] :: _ => Raise IndexError
  | (d :: _) :: rest =>
      if Py.startswith d "__attach" && negb (str_in d attachmentDirs)
      then collect_attachmentDirs rest (attachmentDirs ++ [d])
      else collect_attachmentDirs rest attachmentDirs
  end.

(** The body of [attachments] up to the assignment of
    [__attachmentsReady] *)
Definition discover : M (list Attachment) :=
  entries <- listDir false true false ;;
  attachmentDirs <- lift (collect_attachmentDirs entries []) ;;
  comprehension initAttachmentFunc attachmentDirs.

(** [MSGFile.attachments], a cached property *)
Definition attachments : OnInstance (list Attachment) :=
  fun o s =>
    match cached_attachments s with
    | Some l => (Ok l, s)
    | None =>
        match discover o (inst_world s) with
        | (Ok l, w) => (Ok l, with_attachments s w l)
        | (Raise e, w) => (Raise e, with_world s w)
        end
    end.

(** The loop of [close] over the attachments *)
Fixpoint close_data (l : list Attachment) (s : Instance) : result unit * Instance :=
  match l with
  | [] => (Ok tt, s)
  | a :: rest =>
      if type_is_msg a then
        match data_close a with
        | Ok _ => close_data rest (with_teardown s [call_data_close a])
        | Raise e => (Raise e, with_teardown s [call_data_close a])
        end
      else close_data rest s
  end.

(** [MSGFile.close]; reading [__open] when it is not set is an
    AttributeError *)
Definition close : OnInstance unit :=
  fun o s =>
    match inst_open s with
    | None => (Raise AttributeError, s)
    | Some false => (Ok tt, s)
    | Some true =>
        let '(r, s) :=
          if inst_attachmentsReady s then
            match attachments o s with
            | (Ok l, s) => close_data l s
            | (Raise e, s) => (Raise e, s)
            end
          else (Ok tt, s) in
        match r with
        | Ok _ =>
            let s := if inst_oleOwner s then with_teardown s [call_ole_close] else s in
            (Ok tt, closed s)
        | Raise e => (Raise e, s)
        end
    end.

End MSGFile_attachments.


(** ** Concrete containers with storages, attachments and paths *)

Module Samples.

(** A container that holds the given streams, by full path, and the given
    storages, by segments. *)
Definition ole_of (streams : list (string * bytes)) (storages : list (list string))
  : OleFileIO := {|
  ole_exists p :=
    existsb (fun kv => String.eqb (fst kv) p) streams
    || existsb (fun s => String.eqb (Py.join "/" s) p) storages;
  ole_openstream := ole_openstream (Fixture.ole_of_streams streams);
  ole_listdir streams_ storages_ :=
    (if streams_ then List.map (fun kv => Py.split "/" (fst kv)) streams else [])
    ++ (if storages_ then storages else [])
|}.

(** A path conversion that takes every item as it is. *)
Definition inputToMsgPath (l : list MsgPath) : result (list string) :=
  Ok (flat_map (fun p => match p with PStr s => [s] | PList l => l end) l).

(** Iteration over the tags of the records. *)
Definition store_iter (ps : PropertiesStore.t) : list string := List.map fst ps.

(** An attachment: its directory and its data stream, when it has one.
    It is of type [msg] when it has none. *)
Definition Attachment : Type := string * option bytes.

Definition initAttachmentFunc (dir_ : string) : M Attachment :=
  if String.eqb dir_ "__attach_version1.0_#0000000F" then raise ValueError
  else
    data <- getStream (PList [dir_; "__substg1.0_37010102"]) true ;;
    ret (dir_, data).

Definition type_is_msg (a : Attachment) : bool :=
  match snd a with
  | None => true
  | Some _ => false
  end.

(** Closing the embedded message of the attachment numbered 2 fails. *)
Definition data_close (a : Attachment) : result unit :=
  if String.eqb (fst a) "__attach_version1.0_#00000002" then Raise OSError else Ok tt.

Definition att (n : string) : string := "__attach_version1.0_#0000000" +:+ n.

(** A message with three attachments, the first with a data stream, and
    one recipient. *)
Definition storages : list (list string) :=
  [[att "0"]; ["__recip_version1.0_#00000000"]; [att "1"];
   [att "1"; "__substg1.0_3701000D"]; [att "2"]].

Definition streams : list (string * bytes) :=
  [(att "0" +:+ "/__substg1.0_37010102", Fixture.b5);
   ("__recip_version1.0_#00000000/__substg1.0_0FF60102", Fixture.b3);
   ("__substg1.0_0FF60102", Fixture.b3);
   ("__substg1.0_0FF6001F", Fixture.b3)].

(** An open instance that owns its container and has not discovered its
    attachments. *)
Definition fresh (w : World) : Instance Attachment := {|
  inst_world := w; inst_open := Some true; inst_oleOwner := true;
  inst_attachmentsReady := false; cached_attachments := None; teardown := []
|}.

(** The same instance with its attachments discovered. *)
Definition discovered (w : World) (l : list Attachment) : Instance Attachment := {|
  inst_world := w; inst_open := Some true; inst_oleOwner := true;
  inst_attachmentsReady := true; cached_attachments := Some l; teardown := []
|}.

End Samples.

(** ** The constructor and the typed getters of [Recipient] *)

(** The record that [recipient.py] sends to its own logger *)
Inductive RecipientLogRecord :=
| error_recipient_no_property_stream.

(** The attributes that [Recipient.__init__] sets, besides [__msg]; the
    type is a member of one of two enumerations. *)
Record RecipientAttrs (RT MT : Type) := {
  attr_dir : string;
  attr_props : PropertiesStore.t;
  attr_email : option text;
  attr_name : option text;
  attr_typeFlags : Z;
  attr_type : RT + MT;
  attr_formatted : text
}.
Arguments attr_dir {RT MT} _.
Arguments attr_props {RT MT} _.
Arguments attr_email {RT MT} _.
Arguments attr_name {RT MT} _.
Arguments attr_typeFlags {RT MT} _.
Arguments attr_type {RT MT} _.
Arguments attr_formatted {RT MT} _.

(** The code points of an ASCII literal *)
Definition text_of (s : string) : text :=
  List.map (fun c => N.of_nat (nat_of_ascii c)) (list_ascii_of_string s).

(** [f'{x}'] for an optional string *)
Definition format_str (x : option text) : text :=
  match x with
  | Some t => t
  | None => text_of "None"
  end.

Section Recipient_constructor.
Context {ext : Externals}.

(** The enumerations [RecipientType] and [MeetingRecipientType] of
    [enums.py] are not among the sources: their members and their
    constructors, which raise for a value that is no member, are
    parameters; so is the test [isinstance(msg, CalendarBase)]. *)
Variables RT MT : Type.
Variable RecipientType : Z -> result RT.
Variable MeetingRecipientType : Z -> result MT.

(** [[self.__dir, msgPathToString(filename)]] *)
Definition in_dir_of (_dir : string) (filename : string) : MsgPath :=
  PList [_dir; msgPathToString (PStr filename)].

(** [not self.__email] *)
Definition no_text (x : option text) : bool :=
  match x with
  | None => true
  | Some [] => true
  | Some _ => false
  end.

(** [Recipient.__init__] from the construction of the store on.  The
    argument [msg] keeps the referent of [self.__msg] alive, so the
    methods of the recipient that go through the weak reference are calls
    on [msg]. *)
Definition Recipient_init_attrs (_dir : string) (is_calendar : bool)
  : M (RecipientAttrs RT MT) :=
  stream <- getStream (in_dir_of _dir "__properties_version1.0") true ;;
  let props_ := PropertiesStore_init stream RECIPIENT in
  email <- getStringStream (in_dir_of _dir "__substg1.0_39FE") true ;;
  email <- (if no_text email then getStringStream (in_dir_of _dir "__substg1.0_3003") true
            else ret email) ;;
  name <- getStringStream (in_dir_of _dir "__substg1.0_3001") true ;;
  typeFlags <- match default (PyInt 0) (PropertiesStore.getValue props_ "0C150003") with
               | PyInt z => ret z
               | _ => raise TypeError
               end ;;
  type <- (if is_calendar
           then t <- lift (MeetingRecipientType (Z.land 0xF typeFlags)) ;; ret (inr t)
           else t <- lift (RecipientType (Z.land 0xF typeFlags)) ;; ret (inl t)) ;;
  ret {| attr_dir := _dir; attr_props := props_; attr_email := email; attr_name := name;
         attr_typeFlags := typeFlags; attr_type := type;
         attr_formatted := format_str name ++ text_of " <" ++ format_str email ++ text_of ">" |}.

(** [Recipient.__init__]: the attributes, the state of [msg] and what was
    sent to the logger of [recipient.py] *)
Definition Recipient_init (_dir : string) (is_calendar : bool) (o : OleFileIO) (w : World)
  : result (RecipientAttrs RT MT) * World * list RecipientLogRecord :=
  match exists_ (in_dir_of _dir "__properties_version1.0") true o w with
  | (Raise e, w) => (Raise e, w, [])
  | (Ok true, w) =>
      let (r, w) := Recipient_init_attrs _dir is_calendar o w in (r, w, [])
  | (Ok false, w) =>
      if STANDARDS_VIOLATION_in (msg_errorBehavior (self w)) then
        let (r, w) := Recipient_init_attrs _dir is_calendar o w in
        (r, w, [error_recipient_no_property_stream])
      else (Raise StandardViolationError, w, [])
  end.

End Recipient_constructor.

Section Recipient_typed_getters.
Context {ext : Externals}.
Variable rcp : Recipient.

(** [verifyPropertyId(id)] in [Recipient._getTypedData] is applied to the
    builtin [id], not to the argument [_id]; what [utils.verifyPropertyId]
    does with it is a parameter.  So are the methods [get] and
    [getProperties] of the store. *)
Variable verifyPropertyId_of_builtin_id : result unit.
Variable props_get : PropertiesStore.t -> string -> option PropBase.
Variable props_getProperties : PropertiesStore.t -> string -> list PropBase.

(** The loop of [Recipient._getTypedProperty] over the records *)
Fixpoint first_fixed (props_ : list PropBase) : bool * PyVal :=
  match props_ with
  | [] => (false, PyNone)
  | FixedLengthProp v :: _ => (true, v)
  | VariableLengthProp _ :: rest => first_fixed rest
  end.

(** [Recipient._getTypedProperty] *)
Definition Recipient_getTypedProperty (propertyID : string) (_type : option string)
  : R (bool * PyVal) :=
  fun _ r =>
    match verifyPropertyId propertyID with
    | Raise e => (Raise e, r)
    | Ok _ =>
        match _type with
        | Some (String c t) =>
            match verifyType _type with
            | Raise e => (Raise e, r)
            | Ok _ =>
                match props_get (rcp_props rcp) (propertyID +:+ String c t) with
                | Some (FixedLengthProp v) => (Ok (true, v), r)
                | _ => (Ok (false, PyNone), r)
                end
            end
        | _ => (Ok (first_fixed (props_getProperties (rcp_props rcp) propertyID)), r)
        end
    end.

(** [Recipient._getTypedData] *)
Definition Recipient_getTypedData (_id : string) (_type : option string) : R PyVal :=
  fun o r =>
    match verifyPropertyId_of_builtin_id with
    | Raise e => (Raise e, r)
    | Ok _ =>
        let _id := Py.upper _id in
        match Recipient_getTypedStream (PStr ("__substg1.0_" +:+ _id)) _type o r with
        | (Raise e, r) => (Raise e, r)
        | (Ok (true, result_), r) => (Ok result_, r)
        | (Ok (false, _), r) =>
            match Recipient_getTypedProperty _id _type o r with
            | (Raise e, r) => (Raise e, r)
            | (Ok (found, result_), r) => (Ok (if found then result_ else PyNone), r)
            end
        end
    end.

(** [Recipient._getTypedAs] *)
Definition Recipient_getTypedAs (_id : string) (overrideClass : option (PyVal -> result PyVal))
    (preserveNone : bool) : R PyVal :=
  fun o r =>
    match Recipient_getTypedData _id None o r with
    | (Raise e, r) => (Raise e, r)
    | (Ok value, r) =>
        match overrideClass with
        | Some f =>
            if negb (match value with PyNone => true | _ => false end) || negb preserveNone
            then (f value, r)
            else (Ok value, r)
        | None => (Ok value, r)
        end
    end.

End Recipient_typed_getters.


(** ** A concrete recipient *)

Module People.

(** The members that the documentation of [Recipient.type] names. *)
Inductive RecipientType := SENDER | TO | CC | BCC.

Definition RecipientType_new (z : Z) : result RecipientType :=
  match z with
  | 0%Z => Ok SENDER
  | 1%Z => Ok TO
  | 2%Z => Ok CC
  | 3%Z => Ok BCC
  | _ => Raise ValueError
  end.

(** An enumeration of two members for the recipients of a meeting. *)
Inductive MeetingRecipientType := ORGANIZER | ATTENDEE.

Definition MeetingRecipientType_new (z : Z) : result MeetingRecipientType :=
  match z with
  | 0%Z => Ok ORGANIZER
  | 1%Z => Ok ATTENDEE
  | _ => Raise ValueError
  end.

(** The collaborators of [Fixture], with a slot decoder that gives a
    recipient the type flags 0x10000001 and a message the Unicode mask. *)
Definition externals : Externals := {|
  parseProperties ty _ :=
    match ty with
    | RECIPIENT => [("0C150003", FixedLengthProp (PyInt 0x10000001))]
    | _ => Fixture.unicode_store
    end;
  decode := @decode Fixture.externals;
  lookupCodePage := @lookupCodePage Fixture.externals;
  verifyPropertyId := @verifyPropertyId Fixture.externals;
  verifyType := @verifyType Fixture.externals;
  int16 := @int16 Fixture.externals;
  parseType := @parseType Fixture.externals;
  divide := @divide Fixture.externals;
  MULTIPLE_2_BYTES := @MULTIPLE_2_BYTES Fixture.externals;
  MULTIPLE_4_BYTES := @MULTIPLE_4_BYTES Fixture.externals;
  MULTIPLE_8_BYTES := @MULTIPLE_8_BYTES Fixture.externals
|}.

Definition dir : string := "__recip_version1.0_#00000000".

(** A message with its property stream and one recipient, which has a
    property stream, empty, and an address in [3003]. *)
Definition streams : list (string * bytes) :=
  [("__properties_version1.0", Fixture.b5);
   (dir +:+ "/__properties_version1.0", []);
   (dir +:+ "/__substg1.0_3003001F", Fixture.b3)].

(** The same message, the recipient without its property stream. *)
Definition streams_bare : list (string * bytes) :=
  [("__properties_version1.0", Fixture.b5);
   (dir +:+ "/__substg1.0_3003001F", Fixture.b3)].

End People.

(** ** [attachments/custom_att_handler]: the registry of handlers

    The module keeps the handlers in the list [_knownHandlers];
    [registerHandler] appends to it and [getHandler] searches it.  The
    list is the state here. *)

Section Custom_attachment_handlers.

(** The attachment classes and the class [CustomAttachmentHandler] are
    not among the sources.  A handler class is used through its class
    method [isCorrectHandler] and through its constructor, and both may
    raise. *)
Variable Attachment : Type.
Variable Handler : Type.

Record HandlerClass := {
  isCorrectHandler : Attachment -> result bool;
  construct : Attachment -> result Handler
}.

(** What a caller may hand to [registerHandler]: something that is not a
    class, a class that is no subclass of [CustomAttachmentHandler], or
    such a subclass. *)
Inductive HandlerArgument :=
| an_instance
| another_class
| a_handler_class (handler : HandlerClass).

(** [registerHandler] *)
Definition registerHandler (handler : HandlerArgument) (_knownHandlers : list HandlerClass)
  : result unit * list HandlerClass :=
  match handler with
  | an_instance => (Raise ValueError, _knownHandlers)
  | another_class => (Raise ValueError, _knownHandlers)
  | a_handler_class h => (Ok tt, _knownHandlers ++ [h])
  end.

(** [getHandler] *)
Fixpoint getHandler (attachment : Attachment) (_knownHandlers : list HandlerClass)
  : result Handler :=
  match _knownHandlers with
  | [] => Raise NotImplementedError
  | handler :: rest =>
      match isCorrectHandler handler attachment with
      | Raise e => Raise e
      | Ok true => construct handler attachment
      | Ok false => getHandler attachment rest
      end
  end.

End Custom_attachment_handlers.
Arguments isCorrectHandler {Attachment Handler} _ _.
Arguments construct {Attachment Handler} _ _.
Arguments an_instance {Attachment Handler}.
Arguments another_class {Attachment Handler}.
Arguments a_handler_class {Attachment Handler} handler.
Arguments registerHandler {Attachment Handler} handler _knownHandlers.
Arguments getHandler {Attachment Handler} attachment _knownHandlers.

(** ** [attachments/custom_att.py]: the file name of a custom attachment *)

(** [string.ascii_uppercase + string.digits] *)
Definition name_alphabet : string := "ABCDEFGHIJKLMNOPQRSTUVWXYZ0123456789".

Section Custom_attachment_filename.

(** The generator of the module [random] is a parameter: [randbelow n]
    is the index that [random.choice] draws for a sequence of length
    [n]. *)
Variable Rng : Type.
Variable randbelow : nat -> Rng -> nat * Rng.

(** [constants.RE_INVALID_FILENAME_CHARACTERS.search(name)] is a
    parameter. *)
Variable invalid_filename : string -> bool.

(** A custom attachment as [getFilename] sees it: what the properties
    [cid] and [name] of the attachment and the property [name] of its
    handler give, each of which may raise, and the attribute
    [__randomName], unset at first. *)
Record CustomAttachment := {
  att_cid : result (option string);
  att_handler_name : result (option string);
  att_name : result (option string);
  randomName : option string
}.

Definition set_randomName (a : CustomAttachment) (n : string) : CustomAttachment :=
  {| att_cid := att_cid a; att_handler_name := att_handler_name a; att_name := att_name a;
     randomName := Some n |}.


(** [random.choice(seq)]: [seq[randbelow(len(seq))]] *)
Definition choice (seq : string) (g : Rng) : result ascii * Rng :=
  let (i, g) := randbelow (String.length seq) g in
  match String.get i seq with
  | Some c => (Ok c, g)
  | None => (Raise IndexError, g)
  end.

(** [''.join(random.choice(alphabet) for _ in range(n))] *)
Fixpoint choices (n : nat) (g : Rng) : result string * Rng :=
  match n with
  | O => (Ok "", g)
  | S n =>
      match choice name_alphabet g with
      | (Ok c, g) =>
          match choices n g with
          | (Ok r, g) => (Ok (String c r), g)
          | (Raise e, g) => (Raise e, g)
          end
      | (Raise e, g) => (Raise e, g)
      end
  end.

(** [CustomAttachment.regenerateRandomName] *)
Definition regenerateRandomName (a : CustomAttachment) (g : Rng)
  : result unit * CustomAttachment * Rng :=
  match choices 5 g with
  | (Ok r, g) => (Ok tt, set_randomName a ("UnknownFilename " +:+ r +:+ ".bin"), g)
  | (Raise e, g) => (Raise e, a, g)
  end.

(** [CustomAttachment.randomFilename] *)
Definition randomFilename (a : CustomAttachment) (g : Rng)
  : result string * CustomAttachment * Rng :=
  match randomName a with
  | Some n => (Ok n, a, g)
  | None =>
      match regenerateRandomName a g with
      | (Ok _, a, g) =>
          match randomName a with
          | Some n => (Ok n, a, g)
          | None => (Raise (OtherError "AttributeError"), a, g)
          end
      | (Raise e, a, g) => (Raise e, a, g)
      end
  end.



End Custom_attachment_filename.


(** ** Concrete handlers, names and a generator *)

Module Handlers.

(** Attachments are told apart by a word, handlers by their name. *)
Definition dib : HandlerClass string string := {|
  isCorrectHandler a := Ok (String.eqb a "dib");
  construct _ := Ok "OutlookImageDIB"
|}.

Definition catch_all : HandlerClass string string := {|
  isCorrectHandler _ := Ok true;
  construct _ := Ok "CatchAll"
|}.

(** A handler whose test raises for one attachment. *)
Definition picky : HandlerClass string string := {|
  isCorrectHandler a := if String.eqb a "odd" then Raise ValueError else Ok false;
  construct _ := Ok "Picky"
|}.


(** A generator that counts. *)
Definition randbelow (k : nat) (g : nat) : nat * nat := (g mod k, S g).

Definition unnamed : CustomAttachment := {|
  att_cid := Ok (Some "image001@example");
  att_handler_name := Ok None;
  att_name := Ok (Some "");
  randomName := None
|}.

Definition named : CustomAttachment := {|
  att_cid := Raise OSError;
  att_handler_name := Ok (Some "picture.bmp");
  att_name := Ok (Some "other.bin");
  randomName := None
|}.

End Handlers.

(** ** [structures/ole_pres.py] *)

(** [structures/_helpers.BytesReader], [constants.st.ST_LE_UI32] and the
    enumeration [ClipboardFormat] of [enums.py] are not among the sources:
    what [ole_pres.py] uses of them is a parameter.  A reader is the bytes
    it has not read yet: a read gives a value and the reader after it, or
    raises. *)
Class Helpers := {
  (** [reader.readUnsignedInt()] *)
  readUnsignedInt : bytes -> result (Z * bytes);
  (** [reader.read(n)] *)
  read : nat -> bytes -> result (bytes * bytes);
  (** [constants.st.ST_LE_UI32.pack(n)] *)
  pack_UI32 : Z -> result bytes;
  (** the members of [ClipboardFormat], the lookup [ClipboardFormat(n)],
      [ST_LE_UI32.pack(member)] and [bool(member)] *)
  ClipboardFormat : Type;
  ClipboardFormat_new : Z -> result ClipboardFormat;
  pack_ClipboardFormat : ClipboardFormat -> result bytes;
  ClipboardFormat_bool : ClipboardFormat -> bool;
  CF_BITMAP : ClipboardFormat;
  CF_METAFILEPICT : ClipboardFormat;
  (** [x is y] on members *)
  ClipboardFormat_is : ClipboardFormat -> ClipboardFormat -> bool
}.

Section Ole_pres.
Context {hlp : Helpers}.

(** A value that an attribute of [ClipboardFormatOrAnsiString] may be
    given *)
Inductive Val :=
| VNone
| VInt (z : Z)
| VBytes (b : bytes)
| VFormat (c : ClipboardFormat).

(** [not val] *)
Definition not_ (val : Val) : bool :=
  match val with
  | VNone => true
  | VInt z => (z =? 0)%Z
  | VBytes b => (length b =? 0)%nat
  | VFormat c => negb (ClipboardFormat_bool c)
  end.

(** The private attributes of a [ClipboardFormatOrAnsiString] *)
Record ClipboardFormatOrAnsiString := {
  markerOrLength : Z;
  ansiString : Val;
  clipboardFormat : Val
}.

(** [ClipboardFormatOrAnsiString.__init__]: the object and the reader
    after it *)
Definition ClipboardFormatOrAnsiString_init (reader : bytes)
  : result (ClipboardFormatOrAnsiString * bytes) :=
  match readUnsignedInt reader with
  | Raise e => Raise e
  | Ok (marker, reader) =>
      if (0xFFFFFFFD <? marker)%Z then
        match readUnsignedInt reader with
        | Raise e => Raise e
        | Ok (n, reader) =>
            match ClipboardFormat_new n with
            | Raise e => Raise e
            | Ok c =>
                Ok ({| markerOrLength := marker; ansiString := VNone;
                       clipboardFormat := VFormat c |}, reader)
            end
        end
      else if (0 <? marker)%Z then
        match read (Z.to_nat marker) reader with
        | Raise e => Raise e
        | Ok (b, reader) =>
            Ok ({| markerOrLength := marker; ansiString := VBytes b;
                   clipboardFormat := VNone |}, reader)
        end
      else
        Ok ({| markerOrLength := marker; ansiString := VNone; clipboardFormat := VNone |},
            reader)
  end.

(** [ST_LE_UI32.pack(v)] for the value of an attribute *)
Definition pack_val (v : Val) : result bytes :=
  match v with
  | VInt z => pack_UI32 z
  | VFormat c => pack_ClipboardFormat c
  | _ => Raise (OtherError "struct.error")
  end.

(** [ClipboardFormatOrAnsiString.toBytes] *)
Definition toBytes (self : ClipboardFormatOrAnsiString) : result bytes :=
  match pack_UI32 (markerOrLength self) with
  | Raise e => Raise e
  | Ok ret_ =>
      if (0xFFFFFFFD <? markerOrLength self)%Z then
        match pack_val (clipboardFormat self) with
        | Raise e => Raise e
        | Ok p => Ok (ret_ ++ p)
        end
      else if (0 <? markerOrLength self)%Z then
        match ansiString self with
        | VBytes b => Ok (ret_ ++ b)
        | _ => Raise TypeError
        end
      else Ok ret_
  end.

(** The function under [@ansiString.setter] *)
Definition ansiString_fset (self : ClipboardFormatOrAnsiString) (val : Val)
  : result ClipboardFormatOrAnsiString :=
  if not_ val then Raise ValueError
  else Ok {| markerOrLength := markerOrLength self; ansiString := val;
             clipboardFormat := clipboardFormat self |}.

(** The function under [@clipboardFormat.setter] *)
Definition clipboardFormat_fset (self : ClipboardFormatOrAnsiString) (val : Val)
  : result ClipboardFormatOrAnsiString :=
  if not_ val then Raise ValueError
  else if (markerOrLength self <? 0xFFFFFFFE)%Z then Raise ValueError
  else Ok {| markerOrLength := markerOrLength self; ansiString := ansiString self;
             clipboardFormat := val |}.

(** The function under [@markerOrLength.setter]; comparing something that
    is not a number with 0 is a TypeError *)
Definition markerOrLength_fset (self : ClipboardFormatOrAnsiString) (val : Val)
  : result ClipboardFormatOrAnsiString :=
  match val with
  | VInt val =>
      if (val <? 0)%Z then Raise ValueError
      else if (0xFFFFFFFF <? val)%Z then Raise ValueError
      else if (val =? 0)%Z then
        Ok {| markerOrLength := val; ansiString := VNone; clipboardFormat := VNone |}
      else if (0xFFFFFFFD <? val)%Z then
        Ok {| markerOrLength := val; ansiString := VNone;
              clipboardFormat := VFormat CF_BITMAP |}
      else Raise ValueError
  | _ => Raise TypeError
  end.

(** A [property] object: its getter and, when it has one, its setter *)
Record Property := {
  fget : ClipboardFormatOrAnsiString -> Val;
  fset : option (ClipboardFormatOrAnsiString -> Val -> result ClipboardFormatOrAnsiString)
}.

(** The names that the body of the class binds to properties, in the order
    of the source.  [@property def x] binds [x] to a property with a
    getter; [@x.setter def setter] binds the name of the function it
    decorates, [setter], to a copy of the property [x] with that function
    as its setter. *)
Definition class_body : list (string * Property) :=
  [("ansiString", {| fget := ansiString; fset := None |});
   ("setter", {| fget := ansiString; fset := Some ansiString_fset |});
   ("clipboardFormat", {| fget := clipboardFormat; fset := None |});
   ("setter", {| fget := clipboardFormat; fset := Some clipboardFormat_fset |});
   ("markerOrLength", {| fget := fun self => VInt (markerOrLength self); fset := None |});
   ("setter", {| fget := fun self => VInt (markerOrLength self);
                 fset := Some markerOrLength_fset |})].

(** The attribute of the class under a name: its last binding *)
Definition class_attribute (name : string) : option Property :=
  match List.find (fun kv => String.eqb (fst kv) name) (rev class_body) with
  | Some kv => Some (snd kv)
  | None => None
  end.

(** [self.<name> = val], for the names that the class binds; [None] when
    the class does not bind the name *)
Definition setattr (self : ClipboardFormatOrAnsiString) (name : string) (val : Val)
  : option (result ClipboardFormatOrAnsiString) :=
  match class_attribute name with
  | Some p =>
      match fset p with
      | Some f => Some (f self val)
      | None => Some (Raise AttributeError)
      end
  | None => None
  end.

(** [class DVTargetDevice: pass]: the class has no fields, and calling it
    with an argument raises TypeError. *)
Inductive DVTargetDevice := mkDVTargetDevice.

Definition DVTargetDevice_new (reader : bytes) : result DVTargetDevice := Raise TypeError.

(** [TOCEntry.__init__] sets nothing and reads nothing. *)
Inductive TOCEntry := mkTOCEntry.

Definition TOCEntry_new (reader : bytes) : result (TOCEntry * bytes) :=
  Ok (mkTOCEntry, reader).

(** The instance attributes of an [OLEPresentationStream]; [None] is an
    attribute that is not set.  The annotations in the body of the class
    give the class no attribute. *)
Record OLEPresentationStream := {
  ansiClipboardFormat : option ClipboardFormatOrAnsiString;
  targetDeviceSize : option Z;
  targetDevice : option (option DVTargetDevice);
  aspect : option Z;
  lindex : option Z;
  advf : option Z;
  width : option Z;
  height : option Z;
  data : option bytes;
  reserved2 : option (option bytes);
  tocSignature : option Z;
  tocEntries : option (list TOCEntry)
}.

Definition new_object : OLEPresentationStream := {|
  ansiClipboardFormat := None; targetDeviceSize := None; targetDevice := None;
  aspect := None; lindex := None; advf := None; width := None; height := None;
  data := None; reserved2 := None; tocSignature := None; tocEntries := None
|}.

(** [self.targetDevice < n] and [self.targetDevice > n]: the attribute
    when set is [None] or a [DVTargetDevice], which are not ordered with a
    number *)
Definition targetDevice_compare (self : OLEPresentationStream) : result bool :=
  match targetDevice self with
  | None => Raise AttributeError
  | Some _ => Raise TypeError
  end.

(** [x is y] for the clipboard format of the header *)
Definition format_is (v : Val) (c : ClipboardFormat) : bool :=
  match v with
  | VFormat c' => ClipboardFormat_is c' c
  | _ => false
  end.

(** The loop [for x in range(n): self.tocEntries.append(TOCEntry(reader))] *)
Fixpoint read_tocEntries (n : nat) (reader : bytes) (entries : list TOCEntry)
  : result (list TOCEntry * bytes) :=
  match n with
  | O => Ok (entries, reader)
  | S n =>
      match TOCEntry_new reader with
      | Raise e => Raise e
      | Ok (t, reader) => read_tocEntries n reader (entries ++ [t])
      end
  end.

(** [OLEPresentationStream.__init__] from the read of [aspect] on *)
Definition OLEPresentationStream_init_tail (header : ClipboardFormatOrAnsiString)
    (size : Z) (device : option DVTargetDevice) (reader : bytes)
  : result OLEPresentationStream :=
  match readUnsignedInt reader with Raise e => Raise e | Ok (aspect_, reader) =>
  match readUnsignedInt reader with Raise e => Raise e | Ok (lindex_, reader) =>
  match readUnsignedInt reader with Raise e => Raise e | Ok (advf_, reader) =>
  match readUnsignedInt reader with Raise e => Raise e | Ok (_, reader) =>
  match readUnsignedInt reader with Raise e => Raise e | Ok (width_, reader) =>
  match readUnsignedInt reader with Raise e => Raise e | Ok (height_, reader) =>
  match readUnsignedInt reader with Raise e => Raise e | Ok (size_, reader) =>
  match read (Z.to_nat size_) reader with Raise e => Raise e | Ok (data_, reader) =>
  match (if format_is (clipboardFormat header) CF_METAFILEPICT
         then match read 18 reader with
              | Raise e => Raise e
              | Ok (b, reader) => Ok (Some b, reader)
              end
         else Ok (None, reader)) with Raise e => Raise e | Ok (reserved2_, reader) =>
  match readUnsignedInt reader with Raise e => Raise e | Ok (tocSignature_, reader) =>
  match (if (tocSignature_ =? 0x494E414E)%Z
         then match readUnsignedInt reader with
              | Raise e => Raise e
              | Ok (n, reader) => read_tocEntries (Z.to_nat n) reader []
              end
         else Ok ([], reader)) with Raise e => Raise e | Ok (tocEntries_, _) =>
  Ok {| ansiClipboardFormat := Some header; targetDeviceSize := Some size;
        targetDevice := Some device; aspect := Some aspect_; lindex := Some lindex_;
        advf := Some advf_; width := Some width_; height := Some height_;
        data := Some data_; reserved2 := Some reserved2_;
        tocSignature := Some tocSignature_; tocEntries := Some tocEntries_ |}
  end end end end end end end end end end end.

(** [OLEPresentationStream.__init__] *)
Definition OLEPresentationStream_init (data_ : bytes) : result OLEPresentationStream :=
  match ClipboardFormatOrAnsiString_init data_ with
  | Raise e => Raise e
  | Ok (header, reader) =>
      let self := {| ansiClipboardFormat := Some header; targetDeviceSize := None;
                     targetDevice := None; aspect := None; lindex := None; advf := None;
                     width := None; height := None; data := None; reserved2 := None;
                     tocSignature := None; tocEntries := None |} in
      if (markerOrLength header =? 0)%Z then Raise ValueError
      else if format_is (clipboardFormat header) CF_BITMAP then Raise ValueError
      else if (0x201 <? markerOrLength header)%Z && (markerOrLength header <? 0xFFFFFFFE)%Z
      then Raise ValueError
      else
        match readUnsignedInt reader with
        | Raise e => Raise e
        | Ok (size, reader) =>
            let self := {| ansiClipboardFormat := ansiClipboardFormat self;
                           targetDeviceSize := Some size;
                           targetDevice := targetDevice self; aspect := None;
                           lindex := None; advf := None; width := None; height := None;
                           data := None; reserved2 := None; tocSignature := None;
                           tocEntries := None |} in
            match targetDevice_compare self with
            | Raise e => Raise e
            | Ok true => Raise ValueError
            | Ok false =>
                match targetDevice_compare self with
                | Raise e => Raise e
                | Ok true =>
                    match DVTargetDevice_new reader with
                    | Raise e => Raise e
                    | Ok d => OLEPresentationStream_init_tail header size (Some d) reader
                    end
                | Ok false => OLEPresentationStream_init_tail header size None reader
                end
            end
        end
  end.

End Ole_pres.


(** ** A little-endian reader and packer *)

Module LittleEndian.

Definition to_Z (b : Byte.byte) : Z := Z.of_N (Byte.to_N b).

Definition byte_of (z : Z) : Byte.byte :=
  default Byte.x00 (Byte.of_N (Z.to_N (z mod 256))).

Definition struct_error : exn := OtherError "struct.error".

Definition read_UI32 (bs : bytes) : result (Z * bytes) :=
  match bs with
  | b0 :: b1 :: b2 :: b3 :: rest =>
      Ok ((to_Z b0 + 256 * (to_Z b1 + 256 * (to_Z b2 + 256 * to_Z b3)))%Z, rest)
  | _ => Raise struct_error
  end.

Definition pack (z : Z) : result bytes :=
  if ((0 <=? z) && (z <? 4294967296))%Z
  then Ok [byte_of z; byte_of (z / 256); byte_of (z / 256 / 256); byte_of (z / 256 / 256 / 256)]
  else Raise struct_error.

(** A read gives the bytes that are left when there are fewer than
    asked for. *)
Definition read_bytes (n : nat) (bs : bytes) : result (bytes * bytes) :=
  Ok (take n bs, drop n bs).

(** Three clipboard formats *)
Inductive Format := BITMAP | METAFILEPICT | DIB.

Definition Format_value (c : Format) : Z :=
  match c with
  | BITMAP => 2
  | METAFILEPICT => 3
  | DIB => 8
  end.

Definition Format_new (z : Z) : result Format :=
  match z with
  | 2%Z => Ok BITMAP
  | 3%Z => Ok METAFILEPICT
  | 8%Z => Ok DIB
  | _ => Raise ValueError
  end.

Definition Format_is (x y : Format) : bool :=
  (Format_value x =? Format_value y)%Z.

Definition helpers : Helpers := {|
  readUnsignedInt := read_UI32;
  read := read_bytes;
  pack_UI32 := pack;
  ClipboardFormat := Format;
  ClipboardFormat_new := Format_new;
  pack_ClipboardFormat c := pack (Format_value c);
  ClipboardFormat_bool _ := true;
  CF_BITMAP := BITMAP;
  CF_METAFILEPICT := METAFILEPICT;
  ClipboardFormat_is := Format_is
|}.

(** A header with the name [abc], the size of a target device and one
    more byte. *)
Definition named_header : bytes :=
  [Byte.x03; Byte.x00; Byte.x00; Byte.x00; Byte.x61; Byte.x62; Byte.x63;
   Byte.x04; Byte.x00; Byte.x00; Byte.x00; Byte.xff].

(** A header with the marker 0xFFFFFFFF and the format 8, and one more
    byte. *)
Definition format_header : bytes :=
  [Byte.xff; Byte.xff; Byte.xff; Byte.xff; Byte.x08; Byte.x00; Byte.x00; Byte.x00; Byte.xff].

End LittleEndian.

(** ** The end of [MSGFile.__init__] *)

Definition ConversionError : exn := OtherError "ConversionError".
Definition PrefixError : exn := OtherError "PrefixError".

Section MSGFile_constructor.
Context {ext : Externals}.
Variable Attachment : Type.
Variable initAttachmentFunc : string -> M Attachment.
Variable type_is_msg : Attachment -> bool.
Variable data_close : Attachment -> result unit.

(** The keyword argument [prefix] when it is given and true, and its
    conversion by [utils.inputToMsgPath], are parameters. *)
Variable Prefix : Type.
Variable inputToMsgPath : Prefix -> result (list string).

(** What the block reads of the arguments of [__init__].  [arg_prefix] is
    [None] for a prefix that is not given, that is the empty string.
    [arg_path_filename] is what the branches on [path] make of it: its
    [str], or nothing. *)
Record InitArgs := {
  arg_prefix : option Prefix;
  arg_filename : option text;
  arg_delayAttachments : bool;
  arg_errorBehavior : ErrorBehavior;
  arg_overrideEncoding : option string;
  arg_path_filename : option text
}.

(** The instance when the block is entered: the container is open, this
    instance owns it or not, and [__open] is not set yet.  The attributes
    of the prefix are set by the block, before any method is called. *)
Definition entering (args : InitArgs) (oleOwner : bool) (log0 : list LogRecord)
    (prefixl : option (list string)) : Instance Attachment := {|
  inst_world := {| self := MSGFile_new prefixl (arg_errorBehavior args)
                             (arg_overrideEncoding args);
                   log := log0; calls := [] |};
  inst_open := None;
  inst_oleOwner := oleOwner;
  inst_attachmentsReady := false;
  cached_attachments := None;
  teardown := []
|}.

Definition opened (s : Instance Attachment) (w : World) : Instance Attachment :=
  {| inst_world := w; inst_open := Some true; inst_oleOwner := inst_oleOwner _ s;
     inst_attachmentsReady := inst_attachmentsReady _ s;
     cached_attachments := cached_attachments _ s; teardown := teardown _ s |}.

(** [except ConversionError: raise PrefixError(...)] *)
Definition as_PrefixError (e : exn) : exn :=
  match e with
  | OtherError name => if String.eqb name "ConversionError" then PrefixError else e
  | _ => e
  end.

(** The statements of the block that convert the prefix: [None] when no
    prefix is given *)
Definition convert_prefix (args : InitArgs) : result (option (list string)) :=
  match arg_prefix args with
  | Some prefix =>
      match inputToMsgPath prefix with
      | Ok prefixl => Ok (Some prefixl)
      | Raise e => Raise (as_PrefixError e)
      end
  | None => Ok None
  end.

(** [if prefix and not filename:
       filename = self.getStringStream(prefixl[:-1] + ['__substg1.0_3001'], prefix = False)] *)
Definition read_filename (args : InitArgs) (prefixl : option (list string))
  : M (option text) :=
  match prefixl with
  | Some l =>
      if no_text (arg_filename args)
      then getStringStream (PList (removelast l ++ ["__substg1.0_3001"])) false
      else ret (arg_filename args)
  | None => ret (arg_filename args)
  end.

(** The body of the [try] statement that ends [MSGFile.__init__]: the
    value is the attribute [filename]. *)
Definition init_body (args : InitArgs) (oleOwner : bool) (log0 : list LogRecord)
    (o : OleFileIO) : result (option text) * Instance Attachment :=
  match convert_prefix args with
  | Raise e => (Raise e, entering args oleOwner log0 None)
  | Ok prefixl =>
      let s := entering args oleOwner log0 prefixl in
      match read_filename args prefixl o (inst_world _ s) with
      | (Raise e, w) => (Raise e, with_world _ s w)
      | (Ok filename, w) =>
          let filename := if no_text filename then arg_path_filename args else filename in
          let s := opened s w in
          if arg_delayAttachments args then (Ok filename, s)
          else
            match attachments _ initAttachmentFunc o s with
            | (Ok _, s) => (Ok filename, s)
            | (Raise e, s) => (Raise e, s)
            end
      end
  end.

(** The [try] statement with its handler:
    [except: try: self.close() except: pass; raise] *)
Definition init_guarded (args : InitArgs) (oleOwner : bool) (log0 : list LogRecord)
    (o : OleFileIO) : result (option text) * Instance Attachment :=
  match init_body args oleOwner log0 o with
  | (Ok filename, s) => (Ok filename, s)
  | (Raise e, s) =>
      (Raise e, snd (close _ initAttachmentFunc type_is_msg data_close o s))
  end.

End MSGFile_constructor.

(** * Properties of the methods *)

Section Stream_facts.
Context {ext : Externals}.

Lemma with_calls_calls (w : World) (cs ds : list OleCall) :
  with_calls (with_calls w cs) ds = with_calls w (cs ++ ds).
Proof. unfold with_calls; simpl. by rewrite <- app_assoc. Qed.

Lemma with_calls_nil (w : World) : with_calls w [] = w.
Proof. destruct w; unfold with_calls; simpl. by rewrite app_nil_r. Qed.

(** [getStream] on a stream that the container holds: two calls on the
    container, nothing logged. *)
Lemma getStream_found (o : OleFileIO) (w : World) (filename : MsgPath) (prefix : bool)
    (b : bytes) :
  ole_exists o (fixed (self w) filename prefix) = true ->
  ole_openstream o (fixed (self w) filename prefix) = Some b ->
  getStream filename prefix o w
  = (Ok (Some b),
     with_calls w [call_exists (fixed (self w) filename prefix);
                   call_openstream (fixed (self w) filename prefix)]).
Proof.
  intros He Ho. unfold getStream, exists_, fixPath, ole_exists_, ole_read, bind, get_self, ret,
    called. simpl. rewrite He. simpl. rewrite Ho. by rewrite with_calls_calls.
Qed.

(** [getStream] on a path that the container does not hold: [None], and
    one record at level INFO. *)
Lemma getStream_absent (o : OleFileIO) (w : World) (filename : MsgPath) (prefix : bool) :
  ole_exists o (fixed (self w) filename prefix) = false ->
  getStream filename prefix o w
  = (Ok None,
     with_log (with_calls w [call_exists (fixed (self w) filename prefix)])
              [info_stream_not_found (fixed (self w) filename prefix)]).
Proof.
  intros He. unfold getStream, exists_, fixPath, ole_exists_, bind, get_self, ret, called,
    logger. simpl. by rewrite He.
Qed.

End Stream_facts.

Section Property_store_facts.
Context {ext : Externals}.

Lemma props_cached (o : OleFileIO) (w : World) (ps : PropertiesStore.t) :
  cached_props (self w) = Some ps -> props o w = (Ok ps, w).
Proof.
  intros Hc. unfold props, cached_property, bind, get_self. simpl. by rewrite Hc.
Qed.

Lemma getPropertyVal_cached (o : OleFileIO) (w : World) (ps : PropertiesStore.t)
    (name : string) :
  cached_props (self w) = Some ps ->
  getPropertyVal name o w = (Ok (PropertiesStore.getValue ps name), w).
Proof.
  intros Hc. unfold getPropertyVal, bind. by rewrite (props_cached o w ps Hc).
Qed.

Lemma getPropertyVals_cached (o : OleFileIO) (w : World) (ps : PropertiesStore.t)
    (names : list string) :
  cached_props (self w) = Some ps ->
  comprehension getPropertyVal names o w
  = (Ok (List.map (PropertiesStore.getValue ps) names), w).
Proof.
  intros Hc. induction names as [|n names IH]; simpl; [done|].
  unfold bind. rewrite (getPropertyVal_cached o w ps n Hc). fold (@bind (list (option PyVal))).
  unfold bind in *. by rewrite IH.
Qed.

(** The run of [props] when the property stream is absent and nothing is
    cached, under each error behaviour. *)
Lemma props_absent_THROW (o : OleFileIO) (w : World) :
  cached_props (self w) = None ->
  ole_exists o (msg_prefix (self w) +:+ "__properties_version1.0") = false ->
  msg_errorBehavior (self w) = THROW ->
  props o w
  = (Raise StandardViolationError,
     with_log (with_calls w [call_exists (msg_prefix (self w) +:+ "__properties_version1.0")])
       [info_stream_not_found (msg_prefix (self w) +:+ "__properties_version1.0")]).
Proof.
  intros Hc He Hb. unfold props, cached_property, bind, get_self at 1. simpl. rewrite Hc.
  rewrite getStream_absent by exact He. simpl. by rewrite Hb.
Qed.

Lemma props_absent_TOLERANT (o : OleFileIO) (w : World) :
  cached_props (self w) = None ->
  ole_exists o (msg_prefix (self w) +:+ "__properties_version1.0") = false ->
  msg_errorBehavior (self w) = TOLERANT ->
  props o w
  = (Ok [],
     with_self
       (with_log (with_calls w [call_exists (msg_prefix (self w) +:+ "__properties_version1.0")])
          [info_stream_not_found (msg_prefix (self w) +:+ "__properties_version1.0");
           error_no_property_stream])
       (set_cached_props [] (self w))).
Proof.
  intros Hc He Hb. unfold props, cached_property, bind, get_self at 1. simpl. rewrite Hc.
  rewrite getStream_absent by exact He. simpl. rewrite Hb. simpl.
  unfold with_self, with_log, with_calls. simpl. by rewrite <- app_assoc.
Qed.

(** C1: for a container without the property stream
    [__properties_version1.0], on an instance whose store is not built
    yet: under THROW building the store and every [getPropertyVal] raise
    StandardViolationError (and nothing is cached, so every later access
    raises again); under TOLERANT the store is built with zero records, an
    error is logged, and every call of [getPropertyVal], in any sequence of
    calls, returns the default. *)
Theorem props_without_property_stream (o : OleFileIO) (w : World) :
  cached_props (self w) = None ->
  ole_exists o (msg_prefix (self w) +:+ "__properties_version1.0") = false ->
  match msg_errorBehavior (self w) with
  | THROW =>
      fst (props o w) = Raise StandardViolationError /\
      cached_props (self (snd (props o w))) = None /\
      forall name names,
        fst (comprehension getPropertyVal (name :: names) o w) = Raise StandardViolationError
  | TOLERANT =>
      fst (props o w) = Ok [] /\
      In error_no_property_stream (log (snd (props o w))) /\
      forall names,
        fst (comprehension getPropertyVal names o w) = Ok (List.map (fun _ => None) names)
  end.
Proof.
  intros Hc He. destruct (msg_errorBehavior (self w)) eqn:Hb.
  - rewrite (props_absent_THROW o w Hc He Hb). simpl. repeat split; [done|].
    intros name names. simpl. unfold bind, getPropertyVal, bind.
    by rewrite (props_absent_THROW o w Hc He Hb).
  - rewrite (props_absent_TOLERANT o w Hc He Hb). simpl. repeat split.
    + apply in_or_app. right. simpl. tauto.
    + intros [|name names]; [done|]. simpl. unfold bind at 1. unfold getPropertyVal at 1.
      unfold bind at 1. rewrite (props_absent_TOLERANT o w Hc He Hb). unfold ret at 1.
      unfold bind at 1.
      by rewrite (getPropertyVals_cached o _ [] names).
Qed.

End Property_store_facts.

(** C1 on a container that holds one unrelated stream, under each error
    behaviour. *)
Lemma props_without_property_stream_witness :
  let o := Fixture.ole_of_streams [("__substg1.0_0037001F", Fixture.b3)] in
  let w := Fixture.new_world (Fixture.new_msg [] TOLERANT) in
  let w' := Fixture.new_world (Fixture.new_msg [] THROW) in
  let ext := Fixture.externals in
  (fst (props o w) = Ok [] /\
   In error_no_property_stream (log (snd (props o w))) /\
   forall names,
     fst (comprehension getPropertyVal names o w) = Ok (List.map (fun _ => None) names)) /\
  (fst (props o w') = Raise StandardViolationError /\
   cached_props (self (snd (props o w'))) = None /\
   forall name names,
     fst (comprehension getPropertyVal (name :: names) o w') = Raise StandardViolationError).
Proof.
  intros o w w' ext. split.
  - exact (props_without_property_stream o w eq_refl eq_refl).
  - exact (props_without_property_stream o w' eq_refl eq_refl).
Defined.

Section Encoding_facts.
Context {ext : Externals}.

(** A cached property that returns has its value in the cell. *)
Lemma cached_property_stored {A : Type} (cell : MSGFile -> option A)
    (store : A -> MSGFile -> MSGFile) (body : M A) (o : OleFileIO) (w w' : World) (a : A) :
  (forall a m, cell (store a m) = Some a) ->
  cached_property cell store body o w = (Ok a, w') ->
  cell (self w') = Some a.
Proof.
  intros Hstore. unfold cached_property, bind, get_self, ret, set_self. simpl.
  destruct (cell (self w)) as [a0|] eqn:Hc.
  - intros [= <- <-]. exact Hc.
  - destruct (body o w) as [[b|e] w1]; [|done].
    intros [= <- <-]. simpl. apply Hstore.
Qed.

Lemma props_stored (o : OleFileIO) (w w' : World) (ps : PropertiesStore.t) :
  props o w = (Ok ps, w') -> cached_props (self w') = Some ps.
Proof. apply cached_property_stored. done. Qed.

Lemma areStringsUnicode_fresh (o : OleFileIO) (w w1 : World) (ps : PropertiesStore.t)
    (u : bool) :
  cached_areStringsUnicode (self w) = None ->
  props o w = (Ok ps, w1) ->
  unicode_bit ps = Ok u ->
  areStringsUnicode o w
  = (Ok u, with_self w1 (set_cached_areStringsUnicode u (self w1))).
Proof.
  intros Hu Hp Hbit. unfold areStringsUnicode, cached_property, bind, get_self at 1. simpl.
  rewrite Hu. unfold getPropertyVal, bind. rewrite Hp. unfold ret at 1.
  unfold unicode_bit in Hbit.
  destruct (PropertiesStore.getValue ps "340D0003") as [[]|]; try done;
    injection Hbit as <-; reflexivity.
Qed.

(** A call of [stringEncoding] that returns leaves the encoding in the
    attribute, so the next call returns it and does nothing else. *)
Lemma stringEncoding_once (o : OleFileIO) (w w' : World) (e : string) :
  stringEncoding o w = (Ok e, w') -> stringEncoding o w' = (Ok e, w').
Proof.
  intros Hrun.
  assert (msg_stringEncoding (self w') = Some e) as Hset.
  { revert Hrun. unfold stringEncoding, bind, get_self at 1, ret, set_self, logger, lift. simpl.
    destruct (msg_stringEncoding (self w)) as [e0|] eqn:Hs.
    - intros [= <- <-]. exact Hs.
    - destruct (areStringsUnicode o w) as [[[]|?] w1]; [ |  |done].
      + intros [= <- <-]. reflexivity.
      + destruct (props o w1) as [[ps|?] w2]; [|done].
        destruct (negb (PropertiesStore.contains ps "3FFD0003")).
        * intros [= <- <-]. reflexivity.
        * destruct (getPropertyVal "3FFD0003" o w2) as [[v|?] w3]; [|done].
          destruct (lookupCodePage (default PyNone v)); [|done].
          intros [= <- <-]. reflexivity. }
  unfold stringEncoding, bind, get_self at 1, ret. simpl. by rewrite Hset.
Qed.

(** The run of [stringEncoding] on an instance whose encoding attribute
    and Unicode flag are not set yet. *)
Lemma stringEncoding_fresh (o : OleFileIO) (w w1 : World) (ps : PropertiesStore.t)
    (u : bool) :
  msg_stringEncoding (self w) = None ->
  cached_areStringsUnicode (self w) = None ->
  props o w = (Ok ps, w1) ->
  unicode_bit ps = Ok u ->
  stringEncoding o w
  = let w2 := with_self w1 (set_cached_areStringsUnicode u (self w1)) in
    if u then (Ok "utf-16-le", with_self w2 (set_stringEncoding "utf-16-le" (self w2)))
    else if PropertiesStore.contains ps "3FFD0003" then
      match lookupCodePage (default PyNone (PropertiesStore.getValue ps "3FFD0003")) with
      | Ok e => (Ok e, with_self w2 (set_stringEncoding e (self w2)))
      | Raise e => (Raise e, w2)
      end
    else (Ok "iso-8859-15",
          with_self (with_log w2 [warning_encoding_default])
            (set_stringEncoding "iso-8859-15" (self w2))).
Proof.
  intros Hs Hu Hp Hbit.
  unfold stringEncoding, bind at 1, get_self at 1. simpl. rewrite Hs.
  unfold bind at 1. rewrite (areStringsUnicode_fresh o w w1 ps u Hu Hp Hbit).
  destruct u; [reflexivity|].
  unfold bind at 1.
  rewrite (props_cached o _ ps) by (simpl; eapply props_stored; exact Hp).
  destruct (PropertiesStore.contains ps "3FFD0003"); simpl.
  - unfold bind at 1.
    rewrite (getPropertyVal_cached o _ ps) by (simpl; eapply props_stored; exact Hp).
    unfold bind, lift, set_self, ret.
    by destruct (lookupCodePage _).
  - done.
Qed.

(** C6: on an instance whose encoding attribute is not set yet (no
    override, no earlier call).  The Unicode flag, when it is first
    computed, is the bit 0x40000 of the store support mask of the property
    store.  When the flag is set the encoding is UTF-16LE.  When it is
    not and the store holds the codepage property [3FFD0003], the encoding
    is what [lookupCodePage] gives for its value.  When it is not and the
    store does not hold that property, the encoding is ISO-8859-15, one
    record, a warning, is sent to the logger, and nothing is raised.  A
    call that returns leaves its result in the attribute: the next call
    returns the same encoding and changes nothing. *)
Theorem stringEncoding_resolution (o : OleFileIO) (w : World) :
  msg_stringEncoding (self w) = None ->
  (forall ps w1 u,
     cached_areStringsUnicode (self w) = None ->
     props o w = (Ok ps, w1) ->
     unicode_bit ps = Ok u ->
     fst (areStringsUnicode o w) = Ok u) /\
  (forall w1,
     areStringsUnicode o w = (Ok true, w1) ->
     stringEncoding o w
     = (Ok "utf-16-le", with_self w1 (set_stringEncoding "utf-16-le" (self w1)))) /\
  (forall w1 ps w2,
     areStringsUnicode o w = (Ok false, w1) ->
     props o w1 = (Ok ps, w2) ->
     if PropertiesStore.contains ps "3FFD0003" then
       fst (stringEncoding o w)
       = lookupCodePage (default PyNone (PropertiesStore.getValue ps "3FFD0003"))
     else
       stringEncoding o w
       = (Ok "iso-8859-15",
          with_self (with_log w2 [warning_encoding_default])
            (set_stringEncoding "iso-8859-15" (self w2)))) /\
  (forall e w', stringEncoding o w = (Ok e, w') -> stringEncoding o w' = (Ok e, w')).
Proof.
  intros Hs. split; [|split; [|split]].
  - intros ps w1 u Hu Hp Hbit. by rewrite (areStringsUnicode_fresh o w w1 ps u Hu Hp Hbit).
  - intros w1 Hu.
    unfold stringEncoding, bind at 1, get_self at 1. simpl. rewrite Hs.
    unfold bind at 1. by rewrite Hu.
  - intros w1 ps w2 Hu Hp.
    assert (stringEncoding o w
            = (if negb (PropertiesStore.contains ps "3FFD0003") then
                 logger warning_encoding_default ;;;
                 set_self (set_stringEncoding "iso-8859-15") ;;; ret "iso-8859-15"
               else
                 enc <- getPropertyVal "3FFD0003" ;;
                 e <- lift (lookupCodePage (default PyNone enc)) ;;
                 set_self (set_stringEncoding e) ;;; ret e) o w2) as ->.
    { unfold stringEncoding, bind at 1, get_self at 1. simpl. rewrite Hs.
      unfold bind at 1. rewrite Hu. unfold bind at 1. by rewrite Hp. }
    destruct (PropertiesStore.contains ps "3FFD0003"); simpl; [|done].
    unfold bind at 1.
    rewrite (getPropertyVal_cached o w2 ps) by (eapply props_stored; exact Hp).
    unfold bind, lift, set_self, ret. by destruct (lookupCodePage _).
  - intros e w'. apply stringEncoding_once.
Qed.

End Encoding_facts.

(** C6 on a message whose store has neither the mask nor the codepage
    property (the default encoding, with a warning), and on a message
    whose store has the Unicode bit set and that has read a string
    before. *)
Lemma stringEncoding_resolution_witness :
  let ext := Fixture.externals in
  let o := Fixture.ole_of_streams [("__properties_version1.0", Fixture.b5);
                                   (Fixture.X +:+ "001F", Fixture.b3)] in
  let w := Fixture.new_world (Fixture.new_msg [] THROW) in
  let wu := snd (getStringStream (PStr Fixture.X) true o
                   (Fixture.new_world
                      (Fixture.with_props Fixture.unicode_store (Fixture.new_msg [] THROW)))) in
  fst (areStringsUnicode o w) = Ok false /\
  fst (stringEncoding o w) = Ok "iso-8859-15" /\
  log (snd (stringEncoding o w)) = [warning_encoding_default] /\
  stringEncoding o (snd (stringEncoding o w)) = (Ok "iso-8859-15", snd (stringEncoding o w)) /\
  fst (stringEncoding o wu) = Ok "utf-16-le".
Proof.
  intros ext o w wu.
  destruct (stringEncoding_resolution o w eq_refl) as (Hflag & _ & Hlegacy & Honce).
  destruct (stringEncoding_resolution o wu eq_refl) as (_ & Hunicode & _ & _).
  split; [exact (Hflag [] _ false eq_refl eq_refl eq_refl)|].
  pose proof (Hlegacy _ [] _ eq_refl eq_refl) as Hrun. simpl in Hrun.
  split; [by rewrite Hrun|]. split; [by rewrite Hrun|].
  split; [apply Honce; by rewrite Hrun|].
  by rewrite (Hunicode _ eq_refl).
Defined.

(** ** The multiple-value getters on explicit containers *)

(** C3: an embedded message, at the prefix
    [__attach_1/__substg1.0_3701000D/], whose property [1234] is a multiple
    binary set with both element streams present.  [getStream] reads the
    container stream of the set below the prefix, but [getMultipleBinary]
    asks the container for the name with the prefix applied twice and
    returns [None]; the same set on a top-level message gives the two
    elements in order. *)
Theorem getMultipleBinary_embedded_prefix_twice :
  let ext := Fixture.externals in
  let o := Fixture.ole_of_streams (Fixture.binary_set Fixture.P) in
  let w := Fixture.new_world (Fixture.new_msg Fixture.embedded THROW) in
  let o0 := Fixture.ole_of_streams (Fixture.binary_set "") in
  let w0 := Fixture.new_world (Fixture.new_msg [] THROW) in
  fst (getStream (PStr (Fixture.X +:+ "1102")) true o w) = Ok (Some (Fixture.zeros 16)) /\
  fst (getMultipleBinary (PStr Fixture.X) true o w) = Ok None /\
  calls (snd (getMultipleBinary (PStr Fixture.X) true o w))
  = [call_exists (Fixture.P +:+ Fixture.P +:+ Fixture.X +:+ "1102")] /\
  fst (getMultipleBinary (PStr Fixture.X) true o0 w0)
  = Ok (Some [Some Fixture.b5; Some Fixture.b3]).
Proof. vm_compute. repeat split. Qed.

(** C4: a multiple binary set of two declared elements whose second
    element stream is missing, on a top-level message.  No exception and an
    error record, but the list that is returned is the whole list of reads,
    with [None] in the place of the missing element, not the one-element
    prefix. *)
Theorem getMultipleBinary_missing_sibling_not_truncated :
  let ext := Fixture.externals in
  let o := Fixture.ole_of_streams (Fixture.binary_set_partial "") in
  let w := Fixture.new_world (Fixture.new_msg [] THROW) in
  fst (getMultipleBinary (PStr Fixture.X) true o w) = Ok (Some [Some Fixture.b5; None]) /\
  fst (getMultipleBinary (PStr Fixture.X) true o w) <> Ok (Some [Some Fixture.b5]) /\
  In error_multiple_binary_incomplete (log (snd (getMultipleBinary (PStr Fixture.X) true o w))).
Proof. vm_compute. repeat split; [discriminate | tauto]. Qed.

(** C5: a top-level message whose strings are not Unicode and whose
    property [1234] has a multiple string container stream,
    [__substg1.0_1234101E], of length 6.  [getMultipleString] asks the
    container for the name [101E] alone and returns the empty list instead
    of raising.  On a Unicode message the unicode-suffixed stream of length
    6 raises StandardViolationError, as does a multiple binary container
    stream of length 6. *)
Theorem getMultipleString_legacy_bad_length_not_raised :
  let ext := Fixture.externals in
  let o := Fixture.ole_of_streams [(Fixture.X +:+ "101E", Fixture.zeros 6)] in
  let w := Fixture.new_world (Fixture.with_props Fixture.legacy_store (Fixture.new_msg [] THROW)) in
  let o1 := Fixture.ole_of_streams [(Fixture.X +:+ "101F", Fixture.zeros 6);
                                     (Fixture.X +:+ "1102", Fixture.zeros 6)] in
  let w1 := Fixture.new_world (Fixture.with_props Fixture.unicode_store (Fixture.new_msg [] THROW)) in
  fst (getStream (PStr (Fixture.X +:+ "101E")) true o w) = Ok (Some (Fixture.zeros 6)) /\
  fst (getMultipleString (PStr Fixture.X) true o w) = Ok [] /\
  calls (snd (getMultipleString (PStr Fixture.X) true o w)) = [call_exists "101E"] /\
  fst (getMultipleString (PStr Fixture.X) true o1 w1) = Raise StandardViolationError /\
  fst (getMultipleBinary (PStr Fixture.X) true o1 w1) = Raise StandardViolationError.
Proof. vm_compute. repeat split. Qed.

Section Multiple_facts.
Context {ext : Externals}.

(** The slice [ret[:index]] of [getMultipleBinary] is the whole list: when
    an item is missing, [index] is that item, [None], and not its
    position. *)
Lemma slice_to_next_None (ret_ : list (option bytes)) :
  ne_minus_one (next_None ret_) = true -> slice_to ret_ (next_None ret_) = Ok ret_.
Proof.
  unfold next_None. destruct (List.find _ ret_) as [x|] eqn:Hfind; [|done].
  apply find_some in Hfind as [_ Hx]. by destruct x.
Qed.

(** The reads of the element streams of a multiple-valued set whose
    elements [k .. k+n-1] are all held by the container. *)
Lemma comprehension_getStream_present (o : OleFileIO) (name : nat -> string)
    (elem : nat -> bytes) (n k : nat) (w : World) :
  (forall i, k <= i < k + n ->
             ole_exists o (msg_prefix (self w) +:+ name i) = true /\
             ole_openstream o (msg_prefix (self w) +:+ name i) = Some (elem i)) ->
  comprehension (fun x => getStream (PStr (name x)) true) (seq k n) o w
  = (Ok (List.map (fun i => Some (elem i)) (seq k n)),
     with_calls w
       (flat_map (fun i => [call_exists (msg_prefix (self w) +:+ name i);
                            call_openstream (msg_prefix (self w) +:+ name i)]) (seq k n))).
Proof.
  revert k w. induction n as [|n IH]; intros k w Hall; simpl.
  - by rewrite with_calls_nil.
  - destruct (Hall k ltac:(lia)) as [He Ho].
    unfold bind at 1. rewrite (getStream_found o w (PStr (name k)) true (elem k)) by done.
    unfold bind at 1. rewrite IH by (intros i Hi; apply Hall; lia).
    unfold ret. simpl. by rewrite with_calls_calls.
Qed.

(** [getMultipleBinary] on a set whose container stream, at the path that
    the method reads, holds [n] records of 8 bytes and whose [n] element
    streams are all held: the [n] elements in order, and no call on the
    container besides the reads of these streams; for [n = 0] the container
    stream alone is read.  On a top-level message, whose prefix is empty,
    the path that the method reads is the name of the container stream. *)
Lemma getMultipleBinary_complete (o : OleFileIO) (w : World) (filename : MsgPath)
    (prefix : bool) (multStream : bytes) (elem : nat -> bytes) (n : nat) :
  let name := fixed (self w) filename prefix +:+ "1102" in
  let sibling i := name +:+ "-" +:+ Py.format_08X i in
  ole_exists o (msg_prefix (self w) +:+ name) = true ->
  ole_openstream o (msg_prefix (self w) +:+ name) = Some multStream ->
  length multStream = 8 * n ->
  (forall i, i < n ->
             ole_exists o (msg_prefix (self w) +:+ sibling i) = true /\
             ole_openstream o (msg_prefix (self w) +:+ sibling i) = Some (elem i)) ->
  getMultipleBinary filename prefix o w
  = (Ok (Some (List.map (fun i => Some (elem i)) (seq 0 n))),
     with_calls w
       ([call_exists (msg_prefix (self w) +:+ name);
         call_openstream (msg_prefix (self w) +:+ name)]
        ++ flat_map (fun i => [call_exists (msg_prefix (self w) +:+ sibling i);
                               call_openstream (msg_prefix (self w) +:+ sibling i)])
             (seq 0 n))).
Proof.
  intros name sibling He Ho Hlen Hall.
  unfold getMultipleBinary, bind at 1, fixPath, bind at 1, get_self, ret at 1. fold name.
  unfold bind at 1. rewrite (getStream_found o w (PStr name) true multStream) by done.
  rewrite Hlen. destruct n as [|n].
  - reflexivity.
  - replace (8 * S n =? 0)%nat with false by (symmetry; apply Nat.eqb_neq; lia).
    replace (Z.land (Z.of_nat (8 * S n)) 7 =? 0)%Z with true.
    2:{ symmetry. apply Z.eqb_eq. change 7%Z with (Z.ones 3). rewrite Z.land_ones by lia.
        rewrite Nat2Z.inj_mul. change (2 ^ 3)%Z with (Z.of_nat 8).
        by rewrite Z.mul_comm, Z.mod_mul. }
    replace (8 * S n / 8) with (S n) by (symmetry; rewrite Nat.mul_comm; by apply Nat.div_mul).
    cbn [negb]. unfold bind at 1, Py.range.
    rewrite (comprehension_getStream_present o sibling elem (S n) 0) by (intros i Hi; apply Hall; lia).
    assert (ne_minus_one
              (next_None (List.map (fun i => Some (elem i)) (seq 0 (S n)))) = false) as ->.
    { unfold next_None. destruct (List.find _ _) as [x|] eqn:Hfind; [|done].
      apply find_some in Hfind as [(i & <- & _)%in_map_iff Hx]. done. }
    unfold ret. by rewrite with_calls_calls.
Qed.

Lemma comprehension_length {A B : Type} (f : A -> M B) (xs : list A) (o : OleFileIO)
    (w w' : World) (bs : list B) :
  comprehension f xs o w = (Ok bs, w') -> length bs = length xs.
Proof.
  revert w bs. induction xs as [|x xs IH]; intros w bs; simpl.
  - by intros [= <- <-].
  - unfold bind at 1. destruct (f x o w) as [[b|e] w1]; [|done].
    unfold bind at 1. destruct (comprehension f xs o w1) as [[bs'|e] w2] eqn:Hrest; [|done].
    intros [= <- <-]. simpl. f_equal. by apply (IH w1).
Qed.

(** Whatever element streams are missing, the list that
    [getMultipleBinary] returns has one item for each record that the
    container stream declares: it is never shortened to a prefix. *)
Lemma getMultipleBinary_not_shortened (o : OleFileIO) (w w1 w' : World) (filename : MsgPath)
    (prefix : bool) (multStream : bytes) (r : list (option bytes)) :
  getStream (PStr (fixed (self w) filename prefix +:+ "1102")) true o w
  = (Ok (Some multStream), w1) ->
  getMultipleBinary filename prefix o w = (Ok (Some r), w') ->
  length r = length multStream / 8.
Proof.
  intros Hread.
  unfold getMultipleBinary, bind at 1, fixPath, bind at 1, get_self, ret at 1.
  unfold bind at 1. rewrite Hread.
  destruct (length multStream =? 0)%nat eqn:Hzero.
  - apply Nat.eqb_eq in Hzero. rewrite Hzero. by intros [= <- <-].
  - destruct (negb _); [done|].
    unfold bind at 1.
    destruct (comprehension _ _ o w1) as [[ret_|e] w2] eqn:Hreads; [|done].
    apply comprehension_length in Hreads. unfold Py.range in Hreads.
    rewrite length_seq in Hreads.
    destruct (ne_minus_one (next_None ret_)) eqn:Hidx.
    + unfold bind, logger, lift, ret. rewrite (slice_to_next_None ret_ Hidx).
      by intros [= <- <-].
    + by intros [= <- <-].
Qed.

(** [len(multStream) & (2^k - 1) != 0] says that the length is not a
    multiple of [2^k]. *)
Lemma land_mask_nonzero (n k : nat) :
  negb (Z.land (Z.of_nat n) (Z.ones (Z.of_nat k)) =? 0)%Z = true <-> n mod 2 ^ k <> 0.
Proof.
  rewrite negb_true_iff, Z.eqb_neq, Z.land_ones by lia.
  change 2%Z with (Z.of_nat 2). rewrite <- Nat2Z.inj_pow, <- Nat2Z.inj_mod. lia.
Qed.

(** What does hold of the length checks: a container stream, at the path
    that the method reads, whose length is not a multiple of 8 makes
    [getMultipleBinary] raise; one whose length is not a multiple of 4
    makes [getMultipleString] raise on a Unicode message. *)
Lemma getMultiple_bad_length (o : OleFileIO) (w w1 w2 : World) (filename : MsgPath)
    (prefix : bool) (multStream : bytes) :
  (getStream (PStr (fixed (self w) filename prefix +:+ "1102")) true o w
   = (Ok (Some multStream), w1) ->
   length multStream mod 8 <> 0 ->
   getMultipleBinary filename prefix o w = (Raise StandardViolationError, w1)) /\
  (areStringsUnicode o w = (Ok true, w1) ->
   getStream (PStr (fixed (self w1) filename prefix +:+ "101F")) true o w1
   = (Ok (Some multStream), w2) ->
   length multStream mod 4 <> 0 ->
   getMultipleString filename prefix o w = (Raise StandardViolationError, w2)).
Proof.
  split.
  - intros Hread Hlen.
    unfold getMultipleBinary, bind at 1, fixPath, bind at 1, get_self, ret at 1.
    unfold bind at 1. rewrite Hread.
    replace (length multStream =? 0)%nat with false
      by (symmetry; apply Nat.eqb_neq; intros Hz; by rewrite Hz in Hlen).
    change 7%Z with (Z.ones (Z.of_nat 3)).
    by rewrite (proj2 (land_mask_nonzero (length multStream) 3) Hlen).
  - intros Hu Hread Hlen.
    unfold getMultipleString, bind at 1. rewrite Hu.
    unfold bind at 1, fixPath, bind at 1, get_self, ret at 1. unfold bind at 1, ret at 1.
    unfold bind at 1. rewrite Hread.
    replace (length multStream =? 0)%nat with false
      by (symmetry; apply Nat.eqb_neq; intros Hz; by rewrite Hz in Hlen).
    change 3%Z with (Z.ones (Z.of_nat 2)).
    by rewrite (proj2 (land_mask_nonzero (length multStream) 2) Hlen).
Qed.

(** With the prefix flag set, [getMultipleBinary] asks the container for
    the name with the prefix of the instance applied twice: when the
    container does not hold that path the result is [None], whatever it
    holds at the name with the prefix applied once. *)
Lemma getMultipleBinary_prefix_twice (o : OleFileIO) (w : World) (filename : MsgPath) :
  let path := msg_prefix (self w)
              +:+ (msg_prefix (self w) +:+ msgPathToString filename) +:+ "1102" in
  ole_exists o path = false ->
  getMultipleBinary filename true o w
  = (Ok None, with_log (with_calls w [call_exists path]) [info_stream_not_found path]).
Proof.
  intros path He.
  unfold getMultipleBinary, bind at 1, fixPath, bind at 1, get_self, ret at 1.
  unfold bind at 1. by rewrite getStream_absent by exact He.
Qed.

(** C10: on an instance whose strings are not Unicode,
    [getMultipleString] does not depend on the requested name or on the
    prefix flag: the stream it reads is the one named [101E] below the
    prefix.  When the container has no such stream the only call on the
    container is that existence test and the result is the empty list,
    whatever other streams the container holds.  For an absent container
    stream [getMultipleBinary] returns [None], not the empty list. *)
Theorem getMultipleString_legacy_reads_101E (o : OleFileIO) (w w1 : World)
    (filename : MsgPath) (prefix : bool) :
  areStringsUnicode o w = (Ok false, w1) ->
  (forall filename' prefix',
     getMultipleString filename prefix o w = getMultipleString filename' prefix' o w) /\
  (ole_exists o (msg_prefix (self w1) +:+ "101E") = false ->
   getMultipleString filename prefix o w
   = (Ok [],
      with_log (with_calls w1 [call_exists (msg_prefix (self w1) +:+ "101E")])
        [info_stream_not_found (msg_prefix (self w1) +:+ "101E")])) /\
  (ole_exists o (msg_prefix (self w) +:+ fixed (self w) filename prefix +:+ "1102") = false ->
   fst (getMultipleBinary filename prefix o w) = Ok None).
Proof.
  intros Hu. repeat split.
  - intros filename' prefix'. unfold getMultipleString, bind at 1. rewrite Hu.
    symmetry. unfold bind at 1. by rewrite Hu.
  - intros He. unfold getMultipleString, bind at 1. rewrite Hu.
    unfold bind at 1, ret at 1. unfold bind at 1.
    by rewrite getStream_absent by exact He.
  - intros He. unfold getMultipleBinary, bind at 1, fixPath, bind at 1, get_self, ret at 1.
    unfold bind at 1.
    by rewrite getStream_absent by exact He.
Qed.

End Multiple_facts.

(** C10 on a legacy message that holds a multiple string property. *)
Lemma getMultipleString_legacy_reads_101E_witness :
  let ext := Fixture.externals in
  let o := Fixture.ole_of_streams [(Fixture.X +:+ "101E", Fixture.zeros 8);
                                   (Fixture.X +:+ "101E-00000000", Fixture.b5);
                                   (Fixture.X +:+ "101E-00000001", Fixture.b3)] in
  let w := Fixture.new_world (Fixture.with_props Fixture.legacy_store (Fixture.new_msg [] THROW)) in
  areStringsUnicode o w = (Ok false, snd (areStringsUnicode o w)) /\
  (forall filename' prefix',
     getMultipleString (PStr Fixture.X) true o w = getMultipleString filename' prefix' o w) /\
  fst (getMultipleString (PStr Fixture.X) true o w) = Ok [] /\
  calls (snd (getMultipleString (PStr Fixture.X) true o w)) = [call_exists "101E"] /\
  fst (getMultipleBinary (PStr Fixture.X) true o w) = Ok None.
Proof.
  intros ext o w.
  destruct (getMultipleString_legacy_reads_101E o w (snd (areStringsUnicode o w))
              (PStr Fixture.X) true eq_refl) as (Hany & Hstr & Hbin).
  split; [reflexivity|]. split; [exact Hany|].
  rewrite (Hstr eq_refl). split; [reflexivity|]. split; [reflexivity|].
  exact (Hbin eq_refl).
Defined.

Section Single_or_multiple_facts.
Context {ext : Externals}.

(** C7: the single-or-multiple getters read the single-valued stream
    first.  When the container holds it, its value is returned and the
    calls made on the container are the two that read it (after the ones
    that settle the Unicode flag and, for a legacy string, the encoding):
    the multiple-valued set is not consulted, whether it exists or not.
    When the single-valued stream is absent the result is the one of the
    multiple-value getter for the same name. *)
Theorem single_valued_stream_wins (o : OleFileIO) (w : World) (filename : MsgPath)
    (prefix : bool) :
  let name := fixed (self w) filename prefix in
  (forall b,
     ole_exists o (name +:+ "0102") = true ->
     ole_openstream o (name +:+ "0102") = Some b ->
     getSingleOrMultipleBinary filename prefix o w
     = (Ok (Single b),
        with_calls w [call_exists (name +:+ "0102"); call_openstream (name +:+ "0102")])) /\
  (ole_exists o (name +:+ "0102") = false ->
   getSingleOrMultipleBinary filename prefix o w
   = map_run Multiple
       (getMultipleBinary (PStr name) false o
          (with_log (with_calls w [call_exists (name +:+ "0102")])
             [info_stream_not_found (name +:+ "0102")]))) /\
  (forall w1 b t,
     areStringsUnicode o w = (Ok true, w1) ->
     ole_exists o (name +:+ "001F") = true ->
     ole_openstream o (name +:+ "001F") = Some b ->
     decode "utf-16-le" b = Ok t ->
     getSingleOrMultipleString filename prefix o w
     = (Ok (Single t),
        with_calls w1 [call_exists (name +:+ "001F"); call_openstream (name +:+ "001F")])) /\
  (forall w1 b enc w3 t,
     areStringsUnicode o w = (Ok false, w1) ->
     ole_exists o (name +:+ "001E") = true ->
     ole_openstream o (name +:+ "001E") = Some b ->
     stringEncoding o
       (with_calls w1 [call_exists (name +:+ "001E"); call_openstream (name +:+ "001E")])
     = (Ok enc, w3) ->
     decode enc b = Ok t ->
     getSingleOrMultipleString filename prefix o w = (Ok (Single t), w3)) /\
  (forall w2,
     getStringStream (PStr name) false o w = (Ok None, w2) ->
     getSingleOrMultipleString filename prefix o w
     = map_run Multiple (getMultipleString (PStr name) false o w2)).
Proof.
  intros name. repeat split.
  - intros b He Ho.
    unfold getSingleOrMultipleBinary, bind at 1, fixPath, bind at 1, get_self, ret at 1.
    fold name. unfold bind at 1.
    by rewrite (getStream_found o w (PStr (name +:+ "0102")) false b).
  - intros He.
    unfold getSingleOrMultipleBinary, bind at 1, fixPath at 1, bind at 1, get_self, ret at 1.
    fold name. unfold bind at 1.
    rewrite (getStream_absent o w (PStr (name +:+ "0102")) false) by exact He.
    unfold bind at 1, map_run, ret. simpl.
    by destruct (getMultipleBinary _ _ _ _) as [[?|?] ?].
  - intros w1 b t Hu He Ho Hd.
    unfold getSingleOrMultipleString, bind at 1, fixPath at 1, bind at 1, get_self, ret at 1.
    fold name. unfold bind at 1.
    unfold getStringStream, bind at 1, fixPath at 1, bind at 1, get_self, ret at 1.
    unfold bind at 1. simpl. rewrite Hu. unfold bind at 1.
    rewrite (getStream_found o w1 (PStr (name +:+ "001F")) false b) by done.
    unfold lift, windowsUnicode. by rewrite Hd.
  - intros w1 b enc w3 t Hu He Ho Hs Hd.
    unfold getSingleOrMultipleString, bind at 1, fixPath at 1, bind at 1, get_self, ret at 1.
    fold name. unfold bind at 1.
    unfold getStringStream, bind at 1, fixPath at 1, bind at 1, get_self, ret at 1.
    unfold bind at 1. simpl. rewrite Hu. unfold bind at 1.
    rewrite (getStream_found o w1 (PStr (name +:+ "001E")) false b) by done.
    unfold bind at 1.
    change (fixed (self w1) (PStr (name +:+ "001E")) false) with (name +:+ "001E").
    rewrite Hs. unfold bind at 1, lift. rewrite Hd. reflexivity.
  - intros w2 Hs.
    unfold getSingleOrMultipleString, bind at 1, fixPath at 1, bind at 1, get_self, ret at 1.
    fold name. unfold bind at 1. rewrite Hs.
    unfold bind at 1, map_run, ret.
    by destruct (getMultipleString _ _ _ _) as [[?|?] ?].
Qed.

End Single_or_multiple_facts.

(** C7 on a message that holds, for the property [1234], a single binary
    stream, single string streams and a multiple binary set; the property
    [9999] has no stream at all. *)
Lemma single_valued_stream_wins_witness :
  let ext := Fixture.externals in
  let o := Fixture.ole_of_streams
             ((Fixture.X +:+ "0102", Fixture.b5) :: (Fixture.X +:+ "001F", Fixture.b3)
              :: (Fixture.X +:+ "001E", Fixture.b3) :: (Fixture.X +:+ "101F", Fixture.zeros 4)
              :: Fixture.binary_set "") in
  let wu := Fixture.new_world (Fixture.with_props Fixture.unicode_store (Fixture.new_msg [] THROW)) in
  let wl := Fixture.new_world (Fixture.with_props Fixture.legacy_store (Fixture.new_msg [] THROW)) in
  fst (getSingleOrMultipleBinary (PStr Fixture.X) true o wu) = Ok (Single Fixture.b5) /\
  fst (getSingleOrMultipleBinary (PStr "__substg1.0_9999") true o wu) = Ok (Multiple None) /\
  fst (getSingleOrMultipleString (PStr Fixture.X) true o wu) = Ok (Single [10; 11; 12]%N) /\
  fst (getSingleOrMultipleString (PStr Fixture.X) true o wl) = Ok (Single [10; 11; 12]%N) /\
  fst (getSingleOrMultipleString (PStr "__substg1.0_9999") true o wu) = Ok (Multiple []).
Proof.
  intros ext o wu wl.
  destruct (single_valued_stream_wins o wu (PStr Fixture.X) true) as (Hb & _ & Hu & _ & _).
  destruct (single_valued_stream_wins o wl (PStr Fixture.X) true) as (_ & _ & _ & Hl & _).
  destruct (single_valued_stream_wins o wu (PStr "__substg1.0_9999") true)
    as (_ & Hbm & _ & _ & Hsm).
  split; [by rewrite (Hb Fixture.b5 eq_refl eq_refl)|].
  split; [by rewrite (Hbm eq_refl)|].
  split; [by rewrite (Hu _ Fixture.b3 _ eq_refl eq_refl eq_refl eq_refl)|].
  split; [by rewrite (Hl _ Fixture.b3 _ _ _ eq_refl eq_refl eq_refl eq_refl eq_refl)|].
  by rewrite (Hsm _ eq_refl).
Defined.

Section Weak_reference_facts.
Context {ext : Externals}.

(** A recipient whose message is alive runs the method of the message on
    the path below its own storage. *)
Lemma Recipient_getStream_live (rcp : Recipient) (o : OleFileIO) (w : World)
    (filename : MsgPath) :
  Recipient_getStream rcp filename o (live w)
  = (fst (getStream (in_dir rcp filename) true o w),
     live (snd (getStream (in_dir rcp filename) true o w))).
Proof.
  unfold Recipient_getStream, through_msg. by destruct (getStream _ _ _ _).
Qed.

(** C9: once the message of a recipient has been released, every method
    of the recipient that goes through the weak reference raises
    ReferenceError, whatever the container holds and whatever is asked;
    so does [named] on an instance whose parent has been released and
    whose named properties were not obtained before, also when the
    released reference is the one of a parent that is itself alive. *)
Theorem released_reference_raises (rcp : Recipient) (o : OleFileIO) (filename : MsgPath)
    (_type : option string) :
  Recipient_getStream rcp filename o dead = (Raise ReferenceError, dead) /\
  Recipient_getStringStream rcp filename o dead = (Raise ReferenceError, dead) /\
  Recipient_exists rcp filename o dead = (Raise ReferenceError, dead) /\
  Recipient_sExists rcp filename o dead = (Raise ReferenceError, dead) /\
  Recipient_getMultipleBinary rcp filename o dead = (Raise ReferenceError, dead) /\
  Recipient_getMultipleString rcp filename o dead = (Raise ReferenceError, dead) /\
  Recipient_getSingleOrMultipleBinary rcp filename o dead = (Raise ReferenceError, dead) /\
  Recipient_getSingleOrMultipleString rcp filename o dead = (Raise ReferenceError, dead) /\
  Recipient_getTypedStream filename _type o dead = (Raise ReferenceError, dead) /\
  (forall (Named : Type) (Named_new : M Named) (w : World),
     named Named Named_new (mkObj Named w None (Some dead)) o
     = (Raise ReferenceError, mkObj Named w None (Some dead))) /\
  (forall (Named : Type) (Named_new : M Named) (w w' : World),
     let parent := mkObj Named w' None (Some dead) in
     named Named Named_new (mkObj Named w None (Some (live parent))) o
     = (Raise ReferenceError, mkObj Named w None (Some (live parent)))).
Proof. repeat split. Qed.

End Weak_reference_facts.

(** ** Prefix isolation *)

Section String_facts.

Lemma startswith_app (p x : string) : Py.startswith (p +:+ x) p = true.
Proof.
  unfold Py.startswith. induction p as [|c p IH]; simpl; [by destruct x|].
  destruct (ascii_dec c c); [exact IH|done].
Qed.

Lemma startswith_trans (x f p : string) :
  Py.startswith x f = true -> Py.startswith f p = true -> Py.startswith x p = true.
Proof.
  unfold Py.startswith. revert x f. induction p as [|c p IH]; intros x f Hxf Hfp; simpl.
  - by destruct x.
  - destruct f as [|d f]; simpl in Hfp; [done|].
    destruct (ascii_dec c d) as [->|]; [|done].
    destruct x as [|e x]; simpl in Hxf; [done|].
    destruct (ascii_dec d e) as [->|]; [|done].
    simpl. destruct (ascii_dec e e); [|done]. by apply (IH x f).
Qed.

Lemma startswith_app_r (x s p : string) :
  Py.startswith x p = true -> Py.startswith (x +:+ s) p = true.
Proof.
  intros Hx. apply (startswith_trans _ x); [apply startswith_app|exact Hx].
Qed.

Lemma append_nil_r (x : string) : x +:+ "" = x.
Proof.
  induction x as [|c x IH]; [done|].
  change (String c (x +:+ "") = String c x). by rewrite IH.
Qed.

Lemma append_assoc (x y z : string) : (x +:+ y) +:+ z = x +:+ (y +:+ z).
Proof.
  induction x as [|c x IH]; [done|].
  change (String c ((x +:+ y) +:+ z) = String c (x +:+ (y +:+ z))). by rewrite IH.
Qed.

(** Splitting at the separator takes off a leading segment that holds no
    separator. *)
Lemma split_aux_segment (sep : ascii) (x cur rest : string) :
  Py.contains_char sep x = false ->
  Py.split_aux sep (x +:+ String sep rest) cur = (cur +:+ x) :: Py.split_aux sep rest "".
Proof.
  revert cur. induction x as [|c x IH]; intros cur Hx.
  - change ("" +:+ String sep rest) with (String sep rest). simpl.
    by rewrite Ascii.eqb_refl, append_nil_r.
  - simpl in Hx. destruct (Ascii.eqb sep c) eqn:Hc; [done|].
    change (String c x +:+ String sep rest) with (String c (x +:+ String sep rest)).
    simpl. rewrite Ascii.eqb_sym, Hc, (IH _ Hx), append_assoc. done.
Qed.

(** Splitting the prefix string that [__init__] builds gives back the
    segments, and one empty segment after the last separator. *)
Lemma split_join (a : string) (l : list string) (cur : string) :
  Forall (fun x => Py.contains_char "/" x = false) (a :: l) ->
  Py.split_aux "/" (Py.join "/" (a :: l) +:+ "/") cur = (cur +:+ a) :: l ++ [""].
Proof.
  revert a cur. induction l as [|b l IH]; intros a cur Hall.
  - apply Forall_cons in Hall as [Ha _]. change (Py.join "/" [a]) with a.
    by rewrite (split_aux_segment "/" a cur "" Ha).
  - apply Forall_cons in Hall as [Ha Hall].
    change (Py.join "/" (a :: b :: l)) with (a +:+ "/" +:+ Py.join "/" (b :: l)).
    rewrite !append_assoc.
    change ("/" +:+ Py.join "/" (b :: l) +:+ "/")
      with (String "/" (Py.join "/" (b :: l) +:+ "/")).
    rewrite (split_aux_segment "/" a cur _ Ha), (IH b "" Hall). done.
Qed.

End String_facts.

Section Isolation.
Context {ext : Externals}.
Variable m0 : MSGFile.
Variables o1 o2 : OleFileIO.
Hypothesis Hagree : agree_below m0 o1 o2.
Hypothesis Hembedded : msg_prefix m0 <> "".

Lemma isolated_ret {A : Type} (a : A) (Q : A -> Prop) :
  Q a -> isolated m0 o1 o2 (ret a) Q.
Proof. intros HQ w Hw. repeat split; try apply Hw. by intros a' [= <-]. Qed.

Lemma isolated_raise {A : Type} (e : exn) (Q : A -> Prop) :
  isolated m0 o1 o2 (raise e) Q.
Proof. intros w Hw. repeat split; try apply Hw. done. Qed.

Lemma isolated_lift {A : Type} (r : result A) (Q : A -> Prop) :
  (forall a, r = Ok a -> Q a) -> isolated m0 o1 o2 (lift r) Q.
Proof. intros HQ w Hw. repeat split; try apply Hw. exact HQ. Qed.

Lemma isolated_bind {A B : Type} (c : M A) (k : A -> M B) (Q : A -> Prop) (R : B -> Prop) :
  isolated m0 o1 o2 c Q ->
  (forall a, Q a -> isolated m0 o1 o2 (k a) R) ->
  isolated m0 o1 o2 (bind c k) R.
Proof.
  intros Hc Hk w Hw. destruct (Hc w Hw) as (Heq & Hs & HQ). unfold bind. rewrite <- Heq.
  destruct (c o1 w) as [[a|e] w']; simpl in *.
  - exact (Hk a (HQ a eq_refl) w' Hs).
  - repeat split; try apply Hs. done.
Qed.

Lemma isolated_weaken {A : Type} (c : M A) (Q R : A -> Prop) :
  isolated m0 o1 o2 c Q -> (forall a, Q a -> R a) -> isolated m0 o1 o2 c R.
Proof.
  intros Hc HQR w Hw. destruct (Hc w Hw) as (Heq & Hs & HQ).
  repeat split; try done; try apply Hs. intros a Ha. by apply HQR, HQ.
Qed.

Lemma isolated_get_self :
  isolated m0 o1 o2 get_self (fun m => msg_prefix m = msg_prefix m0).
Proof. intros w Hw. repeat split; try apply Hw. intros a [= <-]. apply Hw. Qed.

Lemma isolated_set_self (f : MSGFile -> MSGFile) :
  (forall m, msg_prefix (f m) = msg_prefix m /\ msg_prefixLen (f m) = msg_prefixLen m) ->
  isolated m0 o1 o2 (set_self f) (fun _ => True).
Proof.
  intros Hf w [Hp Hn]. repeat split; simpl.
  - by rewrite (proj1 (Hf _)).
  - by rewrite (proj2 (Hf _)).
Qed.

Lemma isolated_logger (r : LogRecord) : isolated m0 o1 o2 (logger r) (fun _ => True).
Proof. intros w Hw. repeat split; apply Hw. Qed.

Lemma isolated_ole_exists (p : string) :
  Py.startswith p (msg_prefix m0) = true ->
  isolated m0 o1 o2 (ole_exists_ p) (fun _ => True).
Proof.
  intros Hp w Hw. unfold ole_exists_, bind, called, ret. simpl.
  rewrite (agree_exists _ _ _ Hagree p Hp). repeat split; apply Hw.
Qed.

Lemma isolated_ole_read (p : string) :
  Py.startswith p (msg_prefix m0) = true ->
  isolated m0 o1 o2 (ole_read p) (fun _ => True).
Proof.
  intros Hp w Hw. unfold ole_read, bind, called, ret, raise. simpl.
  rewrite (agree_openstream _ _ _ Hagree p Hp).
  destruct (ole_openstream o2 p); repeat split; apply Hw.
Qed.

Lemma isolated_try_except {A : Type} (body handler : M A) (Q : A -> Prop) :
  isolated m0 o1 o2 body Q -> isolated m0 o1 o2 handler Q ->
  isolated m0 o1 o2 (try_except body handler) Q.
Proof.
  intros Hb Hh w Hw. destruct (Hb w Hw) as (Heq & Hs & HQ). unfold try_except.
  rewrite <- Heq. destruct (body o1 w) as [[a|e] w']; simpl in *.
  - repeat split; try apply Hs. intros a' [= <-]. by apply HQ.
  - exact (Hh w' Hs).
Qed.

Lemma isolated_cached_property {A : Type} (cell : MSGFile -> option A)
    (store : A -> MSGFile -> MSGFile) (body : M A) :
  (forall a m, msg_prefix (store a m) = msg_prefix m /\
               msg_prefixLen (store a m) = msg_prefixLen m) ->
  isolated m0 o1 o2 body (fun _ => True) ->
  isolated m0 o1 o2 (cached_property cell store body) (fun _ => True).
Proof.
  intros Hstore Hbody. unfold cached_property.
  eapply isolated_bind; [apply isolated_get_self|]. intros m _.
  destruct (cell m); [by apply isolated_ret|].
  eapply isolated_bind; [exact Hbody|]. intros a _.
  eapply isolated_bind; [apply isolated_set_self, Hstore|]. intros _ _.
  by apply isolated_ret.
Qed.

Ltac iso_bind lem := eapply isolated_bind; [lem|]; intros ? ?.

Lemma isolated_fixPath (filename : MsgPath) :
  isolated m0 o1 o2 (fixPath filename true)
    (fun f => Py.startswith f (msg_prefix m0) = true).
Proof.
  unfold fixPath. iso_bind ltac:(apply isolated_get_self).
  apply isolated_ret. unfold fixed. rewrite H. apply startswith_app.
Qed.

Lemma isolated_fixPath_in (p : string) :
  Py.startswith p (msg_prefix m0) = true ->
  isolated m0 o1 o2 (fixPath (PStr p) false)
    (fun f => Py.startswith f (msg_prefix m0) = true).
Proof.
  intros Hp. unfold fixPath. iso_bind ltac:(apply isolated_get_self).
  by apply isolated_ret.
Qed.

Lemma isolated_fixPath_any (filename : MsgPath) (prefix : bool) :
  isolated m0 o1 o2 (fixPath filename prefix) (fun _ => True).
Proof.
  unfold fixPath. iso_bind ltac:(apply isolated_get_self). by apply isolated_ret.
Qed.

Lemma isolated_exists_in (p : string) :
  Py.startswith p (msg_prefix m0) = true ->
  isolated m0 o1 o2 (exists_ (PStr p) false) (fun _ => True).
Proof.
  intros Hp. unfold exists_. iso_bind ltac:(apply isolated_fixPath_in, Hp).
  by apply isolated_ole_exists.
Qed.

Lemma isolated_exists (filename : MsgPath) :
  isolated m0 o1 o2 (exists_ filename true) (fun _ => True).
Proof.
  unfold exists_. iso_bind ltac:(apply isolated_fixPath). by apply isolated_ole_exists.
Qed.

Lemma isolated_getStream_at (filename : MsgPath) (prefix : bool) :
  isolated m0 o1 o2 (fixPath filename prefix)
    (fun f => Py.startswith f (msg_prefix m0) = true) ->
  isolated m0 o1 o2 (getStream filename prefix) (fun _ => True).
Proof.
  intros Hfix. unfold getStream. iso_bind ltac:(exact Hfix).
  iso_bind ltac:(by apply isolated_exists_in).
  destruct a0.
  - iso_bind ltac:(by apply isolated_ole_read). by apply isolated_ret.
  - iso_bind ltac:(apply isolated_logger). by apply isolated_ret.
Qed.

Lemma isolated_getStream (filename : MsgPath) :
  isolated m0 o1 o2 (getStream filename true) (fun _ => True).
Proof. apply isolated_getStream_at, isolated_fixPath. Qed.

Lemma isolated_getStream_in (p : string) :
  Py.startswith p (msg_prefix m0) = true ->
  isolated m0 o1 o2 (getStream (PStr p) false) (fun _ => True).
Proof. intros Hp. by apply isolated_getStream_at, isolated_fixPath_in. Qed.

Lemma isolated_props : isolated m0 o1 o2 props (fun _ => True).
Proof.
  unfold props. apply isolated_cached_property; [done|].
  iso_bind ltac:(apply isolated_getStream).
  iso_bind ltac:(apply isolated_get_self).
  eapply isolated_bind with (Q := fun _ => True).
  - destruct (falsy a); [|by apply isolated_ret].
    destruct (STANDARDS_VIOLATION_in _); [apply isolated_logger|apply isolated_raise].
  - intros _ _. by apply isolated_ret.
Qed.

Lemma isolated_getPropertyVal (name : string) :
  isolated m0 o1 o2 (getPropertyVal name) (fun _ => True).
Proof.
  unfold getPropertyVal. iso_bind ltac:(apply isolated_props). by apply isolated_ret.
Qed.

Lemma isolated_areStringsUnicode : isolated m0 o1 o2 areStringsUnicode (fun _ => True).
Proof.
  unfold areStringsUnicode. apply isolated_cached_property; [done|].
  iso_bind ltac:(apply isolated_getPropertyVal).
  destruct a as [[]|]; first [by apply isolated_ret | apply isolated_raise].
Qed.

Lemma isolated_stringEncoding : isolated m0 o1 o2 stringEncoding (fun _ => True).
Proof.
  unfold stringEncoding. iso_bind ltac:(apply isolated_get_self).
  destruct (msg_stringEncoding a); [by apply isolated_ret|].
  iso_bind ltac:(apply isolated_areStringsUnicode).
  destruct a0.
  - iso_bind ltac:(by apply isolated_set_self). by apply isolated_ret.
  - iso_bind ltac:(apply isolated_props).
    destruct (negb _).
    + iso_bind ltac:(apply isolated_logger).
      iso_bind ltac:(by apply isolated_set_self). by apply isolated_ret.
    + iso_bind ltac:(apply isolated_getPropertyVal).
      iso_bind ltac:(by apply isolated_lift with (Q := fun _ => True)).
      iso_bind ltac:(by apply isolated_set_self). by apply isolated_ret.
Qed.

Lemma isolated_getStringStream_at (filename : MsgPath) (prefix : bool) :
  isolated m0 o1 o2 (fixPath filename prefix)
    (fun f => Py.startswith f (msg_prefix m0) = true) ->
  isolated m0 o1 o2 (getStringStream filename prefix) (fun _ => True).
Proof.
  intros Hfix. unfold getStringStream. iso_bind ltac:(exact Hfix).
  iso_bind ltac:(apply isolated_areStringsUnicode).
  destruct a0.
  - iso_bind ltac:(by apply isolated_getStream_in, startswith_app_r).
    by apply isolated_lift.
  - iso_bind ltac:(by apply isolated_getStream_in, startswith_app_r).
    destruct a0; [|by apply isolated_ret].
    iso_bind ltac:(apply isolated_stringEncoding).
    iso_bind ltac:(by apply isolated_lift with (Q := fun _ => True)).
    by apply isolated_ret.
Qed.

Lemma isolated_comprehension {A B : Type} (f : A -> M B) (xs : list A) :
  (forall x, isolated m0 o1 o2 (f x) (fun _ => True)) ->
  isolated m0 o1 o2 (comprehension f xs) (fun _ => True).
Proof.
  intros Hf. induction xs as [|x xs IH]; simpl; [by apply isolated_ret|].
  iso_bind ltac:(apply Hf). iso_bind ltac:(exact IH). by apply isolated_ret.
Qed.

Lemma isolated_getMultipleBinary (filename : MsgPath) (prefix : bool) :
  isolated m0 o1 o2 (getMultipleBinary filename prefix) (fun _ => True).
Proof.
  unfold getMultipleBinary. iso_bind ltac:(apply isolated_fixPath_any).
  iso_bind ltac:(apply isolated_getStream).
  destruct a0 as [multStream|]; [|by apply isolated_ret].
  destruct (_ =? _)%nat; [by apply isolated_ret|].
  destruct (negb _); [apply isolated_raise|].
  iso_bind ltac:(apply isolated_comprehension; intros; apply isolated_getStream).
  destruct (ne_minus_one _); [|by apply isolated_ret].
  iso_bind ltac:(apply isolated_logger).
  iso_bind ltac:(by apply isolated_lift with (Q := fun _ => True)).
  by apply isolated_ret.
Qed.

Lemma isolated_decode_items (items : list (option bytes)) (done_ : list text) :
  isolated m0 o1 o2 (decode_items items done_) (fun _ => True).
Proof.
  revert done_. induction items as [|[item|] items IH]; intros done_; simpl.
  - by apply isolated_ret.
  - iso_bind ltac:(apply isolated_stringEncoding).
    iso_bind ltac:(by apply isolated_lift with (Q := fun _ => True)).
    apply IH.
  - iso_bind ltac:(apply isolated_logger). by apply isolated_ret.
Qed.

Lemma isolated_getMultipleString (filename : MsgPath) (prefix : bool) :
  isolated m0 o1 o2 (getMultipleString filename prefix) (fun _ => True).
Proof.
  unfold getMultipleString. iso_bind ltac:(apply isolated_areStringsUnicode).
  eapply isolated_bind with (Q := fun _ => True).
  - destruct a; [|by apply isolated_ret].
    iso_bind ltac:(apply isolated_fixPath_any). by apply isolated_ret.
  - intros f _. iso_bind ltac:(apply isolated_getStream).
    destruct a0 as [multStream|]; [|by apply isolated_ret].
    destruct (_ =? _)%nat; [by apply isolated_ret|].
    destruct (negb _); [apply isolated_raise|].
    iso_bind ltac:(apply isolated_comprehension; intros; apply isolated_getStream).
    apply isolated_decode_items.
Qed.

Lemma isolated_getSingleOrMultipleBinary (filename : MsgPath) :
  isolated m0 o1 o2 (getSingleOrMultipleBinary filename true) (fun _ => True).
Proof.
  unfold getSingleOrMultipleBinary. iso_bind ltac:(apply isolated_fixPath).
  iso_bind ltac:(by apply isolated_getStream_in, startswith_app_r).
  destruct a0; [by apply isolated_ret|].
  iso_bind ltac:(apply isolated_getMultipleBinary). by apply isolated_ret.
Qed.

Lemma isolated_getSingleOrMultipleString (filename : MsgPath) :
  isolated m0 o1 o2 (getSingleOrMultipleString filename true) (fun _ => True).
Proof.
  unfold getSingleOrMultipleString. iso_bind ltac:(apply isolated_fixPath).
  iso_bind ltac:(by apply isolated_getStringStream_at, isolated_fixPath_in).
  destruct a0; [by apply isolated_ret|].
  iso_bind ltac:(apply isolated_getMultipleString). by apply isolated_ret.
Qed.

Lemma isolated_listDir (streams storages includePrefix : bool) :
  isolated m0 o1 o2 (listDir streams storages includePrefix) (fun _ => True).
Proof.
  intros w [Hp Hn]. unfold listDir, bind, get_self, ole_listdir_, bind, called, ret, set_self.
  simpl. destruct (msg_listDirRes (self w) !! _); [done|].
  rewrite Hp, Hn. destruct (String.eqb_spec (msg_prefix m0) ""); [done|].
  rewrite (agree_listdir _ _ _ Hagree streams storages). done.
Qed.

Lemma isolated_slistDir (streams storages includePrefix : bool) :
  isolated m0 o1 o2 (slistDir streams storages includePrefix) (fun _ => True).
Proof.
  unfold slistDir. iso_bind ltac:(apply isolated_listDir). by apply isolated_ret.
Qed.

Lemma isolated_getTypedProperty (propertyID : string) (_type : option string) :
  isolated m0 o1 o2 (_getTypedProperty propertyID _type) (fun _ => True).
Proof.
  unfold _getTypedProperty.
  iso_bind ltac:(by apply isolated_lift with (Q := fun _ => True)).
  eapply isolated_bind with (Q := fun _ => True).
  - destruct _type as [[|c t]|]; try by apply isolated_ret.
    iso_bind ltac:(by apply isolated_lift with (Q := fun _ => True)). by apply isolated_ret.
  - intros name _. iso_bind ltac:(apply isolated_getPropertyVal).
    destruct a0; by apply isolated_ret.
Qed.

Lemma isolated_gather_extras (x : string) (ys : list nat) (extras : list (option bytes)) :
  Py.startswith x (msg_prefix m0) = true ->
  isolated m0 o1 o2 (gather_extras x ys extras) (fun _ => True).
Proof.
  intros Hx. revert extras. induction ys as [|y ys IH]; intros extras; simpl.
  - by apply isolated_ret.
  - iso_bind ltac:(by apply isolated_exists_in, startswith_app_r).
    destruct a; [|apply IH].
    iso_bind ltac:(by apply isolated_getStream_in, startswith_app_r). apply IH.
Qed.

Lemma isolated_parse (t : string) (c : bytes + nat) (extras : list (option bytes)) :
  isolated m0 o1 o2
    (t' <- lift (int16 t) ;;
     enc <- stringEncoding ;;
     v <- lift (parseType t' c enc extras) ;;
     ret (true, v)) (fun _ => True).
Proof.
  iso_bind ltac:(by apply isolated_lift with (Q := fun _ => True)).
  iso_bind ltac:(apply isolated_stringEncoding).
  iso_bind ltac:(by apply isolated_lift with (Q := fun _ => True)).
  by apply isolated_ret.
Qed.

Lemma isolated_decode_typed_stream (x : string) (contents : bytes) :
  Py.startswith x (msg_prefix m0) = true ->
  isolated m0 o1 o2 (decode_typed_stream x contents) (fun _ => True).
Proof.
  intros Hx. unfold decode_typed_stream.
  eapply isolated_bind with (Q := fun _ => True).
  { destruct (Py.index_neg 4 x); [by apply isolated_ret|apply isolated_raise]. }
  intros c _. destruct (Ascii.eqb c "1"); [|apply isolated_parse].
  eapply isolated_bind with (Q := fun _ => True).
  { destruct (str_in _ ["101F"; "101E"]); [by apply isolated_ret|].
    destruct (String.eqb _ "1102"); [by apply isolated_ret|].
    destruct (str_in _ packed_types); [|apply isolated_raise].
    apply isolated_try_except.
    - iso_bind ltac:(apply isolated_props).
      destruct (PropertiesStore.getitem _ _) as [[]|];
        first [by apply isolated_ret | apply isolated_raise].
    - iso_bind ltac:(apply isolated_logger). by apply isolated_ret. }
  intros streams _.
  destruct (str_in _ indexed_types).
  - iso_bind ltac:(by apply isolated_exists_in, startswith_app_r).
    eapply isolated_bind with (Q := fun _ => True).
    { destruct a; [by apply isolated_gather_extras|by apply isolated_ret]. }
    intros extras _. apply isolated_parse.
  - destruct (str_in _ packed_types); apply isolated_parse.
Qed.

Lemma isolated_typed_stream_loop (filename : string) (xs : list string) :
  Py.startswith filename (msg_prefix m0) = true ->
  isolated m0 o1 o2 (typed_stream_loop filename xs) (fun _ => True).
Proof.
  intros Hf. induction xs as [|x xs IH]; simpl; [by apply isolated_ret|].
  unfold name_matches.
  destruct (Py.startswith x filename) eqn:Hx; simpl; [|exact IH].
  destruct (negb _); [|exact IH].
  assert (Py.startswith x (msg_prefix m0) = true) as Hxp
    by exact (startswith_trans x filename _ Hx Hf).
  iso_bind ltac:(by apply isolated_getStream_in).
  destruct a as [contents|]; [|exact IH].
  unfold typed_stream_body.
  destruct (_ =? _)%nat; [by apply isolated_ret|].
  by apply isolated_decode_typed_stream.
Qed.

Lemma isolated_getTypedStream (filename : MsgPath) (_type : option string) :
  isolated m0 o1 o2 (_getTypedStream filename true _type) (fun _ => True).
Proof.
  unfold _getTypedStream.
  iso_bind ltac:(by apply isolated_lift with (Q := fun _ => True)).
  iso_bind ltac:(apply isolated_fixPath).
  eapply isolated_bind with (Q := fun _ => True).
  { unfold candidates. destruct _type; [by apply isolated_ret|apply isolated_slistDir]. }
  intros xs _. by apply isolated_typed_stream_loop.
Qed.

Lemma isolated_getTypedData (_id : string) (_type : option string) :
  isolated m0 o1 o2 (_getTypedData _id _type true) (fun _ => True).
Proof.
  unfold _getTypedData.
  iso_bind ltac:(by apply isolated_lift with (Q := fun _ => True)).
  iso_bind ltac:(apply isolated_getTypedStream).
  destruct (fst a0); [by apply isolated_ret|].
  iso_bind ltac:(apply isolated_getTypedProperty). by apply isolated_ret.
Qed.

End Isolation.

Section Prefix_isolation.
Context {ext : Externals}.

Lemma below_prefix_strictly (pl x : list string) :
  below_prefix pl (length pl) x = true -> strictly_below pl x.
Proof.
  unfold below_prefix. intros [Hlen Htake%bool_decide_eq_true]%andb_prop.
  apply Nat.ltb_lt in Hlen. exists (drop (length pl) x). split.
  - intros Hnil. apply (f_equal length) in Hnil. rewrite length_drop in Hnil.
    simpl in Hnil. lia.
  - rewrite <- Htake at 1. by rewrite take_drop.
Qed.

Lemma below_prefix_remainder (pl x : list string) :
  below_prefix pl (length pl) x = true -> drop (length pl) x <> [].
Proof.
  intros (rest & Hrest & ->)%below_prefix_strictly. by rewrite drop_app_length.
Qed.

(** The instance that [__init__] builds for a non-empty prefix whose
    segments hold no separator is an embedded instance in the sense of
    [embedded_ok]. *)
Lemma MSGFile_new_embedded_ok (a : string) (l : list string) (eb : ErrorBehavior)
    (enc : option string) :
  Forall (fun x => Py.contains_char "/" x = false) (a :: l) ->
  embedded_ok (MSGFile_new (Some (a :: l)) eb enc).
Proof.
  intros Hall. constructor.
  - change (Py.join "/" (a :: l) +:+ "/" <> "").
    intros Hnil. apply (f_equal (Py.split_aux "/")) in Hnil.
    apply (f_equal (fun f => length (f ""))) in Hnil.
    rewrite (split_join a l "" Hall) in Hnil. simpl in Hnil.
    rewrite length_app in Hnil. simpl in Hnil. lia.
  - change (split_prefix (Py.join "/" (a :: l) +:+ "/") = a :: l).
    unfold split_prefix, Py.split. rewrite (split_join a l "" Hall).
    change ("" +:+ a) with a. change (a :: l ++ [""]) with ((a :: l) ++ [""]).
    rewrite last_last. simpl String.eqb. cbv iota. by rewrite removelast_last.
  - reflexivity.
  - intros streams storages includePrefix entries.
    change (msg_listDirRes (MSGFile_new (Some (a :: l)) eb enc)) with (∅ : gmap (bool * bool * bool) (list (list string))).
    by rewrite lookup_empty.
Qed.

(** The listing that [listDir] computes and memoizes is a listing for the
    prefix. *)
Lemma listDir_below (o : OleFileIO) (w w' : World) (streams storages includePrefix : bool)
    (entries : list (list string)) :
  embedded_ok (self w) ->
  listDir streams storages includePrefix o w = (Ok entries, w') ->
  listing_ok (msg_prefixList (self w)) includePrefix entries /\ embedded_ok (self w').
Proof.
  intros [Hne Hsplit Hlen Hcache].
  unfold listDir, bind, get_self, ole_listdir_, bind, called, ret, set_self. simpl.
  destruct (msg_listDirRes (self w) !! _) eqn:Hhit.
  - intros [= <- <-]. split; [by eapply Hcache|by constructor].
  - destruct (String.eqb_spec (msg_prefix (self w)) ""); [done|].
    rewrite Hsplit, Hlen. intros [= <- <-].
    assert (listing_ok (msg_prefixList (self w)) includePrefix
              (if includePrefix
               then List.filter (below_prefix (msg_prefixList (self w))
                                   (length (msg_prefixList (self w))))
                      (ole_listdir o streams storages)
               else List.map (drop (length (msg_prefixList (self w))))
                      (List.filter (below_prefix (msg_prefixList (self w))
                                      (length (msg_prefixList (self w))))
                         (ole_listdir o streams storages)))) as Hok.
    { destruct includePrefix; simpl.
      - apply List.Forall_forall. intros x [_ Hx]%filter_In. by apply below_prefix_strictly.
      - apply List.Forall_forall. intros r (x & <- & [_ Hx]%filter_In)%in_map_iff.
        by apply below_prefix_remainder. }
    split; [exact Hok|]. constructor; simpl; try done.
    intros s t i es. destruct (decide ((streams, storages, includePrefix) = (s, t, i))) as [Heq|Hne'].
    + injection Heq as <- <- <-. rewrite lookup_insert_eq. by intros [= <-].
    + rewrite lookup_insert_ne by done. apply Hcache.
Qed.

(** C8: for an embedded instance with the prefix [P].  A prefixed read or
    existence test of a path [x], given as a string or as segments, asks
    the container for [P + x] and for nothing else.  When two containers agree below [P], every prefixed
    method runs alike on both, from the same state: the streams outside
    [P], same-named or not, do not reach the result.  And [listDir] returns
    only entries strictly below the prefix (their remainders when the
    prefix is not included). *)
Theorem prefix_isolation (o1 o2 : OleFileIO) (w : World) :
  embedded_ok (self w) ->
  agree_below (self w) o1 o2 ->
  (forall filename,
     let path := msg_prefix (self w) +:+ msgPathToString filename in
     calls (snd (getStream filename true o1 w))
     = calls w ++ call_exists path
         :: (if ole_exists o1 path then [call_openstream path] else []) /\
     fst (getStream filename true o1 w)
     = (if ole_exists o1 path
        then match ole_openstream o1 path with
             | Some b => Ok (Some b)
             | None => Raise OSError
             end
        else Ok None) /\
     exists_ filename true o1 w = (Ok (ole_exists o1 path), with_calls w [call_exists path])) /\
  (forall filename _id _type streams storages includePrefix,
     getStream filename true o1 w = getStream filename true o2 w /\
     exists_ filename true o1 w = exists_ filename true o2 w /\
     props o1 w = props o2 w /\
     getStringStream filename true o1 w = getStringStream filename true o2 w /\
     getMultipleBinary filename true o1 w = getMultipleBinary filename true o2 w /\
     getMultipleString filename true o1 w = getMultipleString filename true o2 w /\
     getSingleOrMultipleBinary filename true o1 w
     = getSingleOrMultipleBinary filename true o2 w /\
     getSingleOrMultipleString filename true o1 w
     = getSingleOrMultipleString filename true o2 w /\
     _getTypedData _id _type true o1 w = _getTypedData _id _type true o2 w /\
     listDir streams storages includePrefix o1 w = listDir streams storages includePrefix o2 w) /\
  (forall streams storages includePrefix entries w',
     listDir streams storages includePrefix o1 w = (Ok entries, w') ->
     listing_ok (msg_prefixList (self w)) includePrefix entries /\ embedded_ok (self w')).
Proof.
  intros Hok Hagree. pose proof (ok_embedded _ Hok) as Hne.
  assert (same_scope (self w) w) as Hw by done.
  split; [|split].
  - intros filename path. repeat split.
    + unfold getStream, exists_, fixPath, ole_exists_, ole_read, bind, get_self, called, ret,
        logger, raise. simpl.
      destruct (ole_exists o1 _); simpl; [|done].
      destruct (ole_openstream o1 _); simpl; by rewrite <- app_assoc.
    + unfold getStream, exists_, fixPath, ole_exists_, ole_read, bind, get_self, called, ret,
        logger, raise. simpl.
      destruct (ole_exists o1 _); simpl; [|done].
      by destruct (ole_openstream o1 _).
  - intros filename _id _type streams storages includePrefix. repeat split.
    + apply (isolated_getStream (self w) o1 o2 Hagree filename w Hw).
    + apply (isolated_exists (self w) o1 o2 Hagree filename w Hw).
    + apply (isolated_props (self w) o1 o2 Hagree w Hw).
    + apply (isolated_getStringStream_at (self w) o1 o2 Hagree filename true
               (isolated_fixPath (self w) o1 o2 filename) w Hw).
    + apply (isolated_getMultipleBinary (self w) o1 o2 Hagree filename true w Hw).
    + apply (isolated_getMultipleString (self w) o1 o2 Hagree filename true w Hw).
    + apply (isolated_getSingleOrMultipleBinary (self w) o1 o2 Hagree filename w Hw).
    + apply (isolated_getSingleOrMultipleString (self w) o1 o2 Hagree filename w Hw).
    + apply (isolated_getTypedData (self w) o1 o2 Hagree Hne _id _type w Hw).
    + apply (isolated_listDir (self w) o1 o2 Hagree Hne streams storages includePrefix w Hw).
  - intros streams storages includePrefix entries w' Hrun.
    by apply (listDir_below o1 w w' streams storages).
Qed.

End Prefix_isolation.

(** C8 on an embedded message whose property [1234] has a string stream
    below the prefix, in two containers that hold different bytes in the
    stream of the same name at the top level. *)
Lemma prefix_isolation_witness :
  let ext := Fixture.externals in
  let inside := Fixture.P +:+ Fixture.X +:+ "001F" in
  let outside := Fixture.X +:+ "001F" in
  let o1 := Fixture.ole_of_streams [(inside, Fixture.b3); (outside, Fixture.b5)] in
  let o2 := Fixture.ole_of_streams [(inside, Fixture.b3); (outside, Fixture.zeros 2)] in
  let w := Fixture.new_world
             (Fixture.with_props Fixture.unicode_store (Fixture.new_msg Fixture.embedded THROW)) in
  embedded_ok (self w) /\
  agree_below (self w) o1 o2 /\
  ole_openstream o1 outside <> ole_openstream o2 outside /\
  calls (snd (getStream (PStr (Fixture.X +:+ "001F")) true o1 w))
  = [call_exists inside; call_openstream inside] /\
  _getTypedData "1234" None true o1 w = _getTypedData "1234" None true o2 w /\
  fst (_getTypedData "1234" None true o1 w) = Ok (PyBytes Fixture.b3) /\
  fst (listDir true false true o1 w) = Ok [Fixture.embedded ++ [Fixture.X +:+ "001F"]] /\
  listing_ok Fixture.embedded true [Fixture.embedded ++ [Fixture.X +:+ "001F"]].
Proof.
  intros ext inside outside o1 o2 w.
  assert (embedded_ok (self w)) as Hok.
  { by constructor. }
  assert (agree_below (self w) o1 o2) as Hagree.
  { constructor; try done. intros p Hp.
    unfold o1, o2, Fixture.ole_of_streams. cbn [ole_openstream List.find fst snd].
    destruct (String.eqb_spec inside p); [done|].
    destruct (String.eqb_spec outside p) as [<-|]; [|done]. by vm_compute in Hp. }
  destruct (prefix_isolation o1 o2 w Hok Hagree) as (Hread & Hsame & Hlist).
  split; [exact Hok|]. split; [exact Hagree|]. split; [done|].
  split; [exact (proj1 (Hread (PStr (Fixture.X +:+ "001F"))))|].
  split; [apply (Hsame (PStr "") "1234" None true false true)|].
  split; [by vm_compute|]. split; [by vm_compute|].
  exact (proj1 (Hlist true false true _ _ eq_refl)).
Defined.

(** ** Typed resolution *)

Section Typed_resolution.
Context {ext : Externals}.

(** A computation that ends in a computation that reports a find reports
    a find. *)
Lemma bind_reports_found {A : Type} (c : M A) (k : A -> M (bool * PyVal)) :
  (forall a o w fr w', k a o w = (Ok fr, w') -> fst fr = true) ->
  forall o w fr w', bind c k o w = (Ok fr, w') -> fst fr = true.
Proof.
  intros Hk o w fr w'. unfold bind. destruct (c o w) as [[a|e] w1]; [|done]. apply Hk.
Qed.

Ltac reports_found :=
  repeat first
    [ apply bind_reports_found; intros ?
    | match goal with
      | |- forall o w fr w', (if ?b then _ else _) o w = _ -> _ => destruct b
      end
    | by intros o w fr w' [= <- <-] ].

(** Every way out of the body of the loop of [_getTypedStream] other than
    an exception reports that the stream was found. *)
Lemma typed_stream_body_found (x : string) (contents : bytes) :
  forall o w fr w', typed_stream_body x contents o w = (Ok fr, w') -> fst fr = true.
Proof.
  unfold typed_stream_body, decode_typed_stream. reports_found.
Qed.

(** The loop goes past the candidates it passes over, finding nothing;
    the instance is left as it was. *)
Lemma typed_stream_loop_passes (o : OleFileIO) (filename : string) (pre rest : list string)
    (w : World) :
  Forall (passed_over o filename) pre ->
  self (snd (typed_stream_loop filename pre o w)) = self w /\
  typed_stream_loop filename (pre ++ rest) o w
  = typed_stream_loop filename rest o (snd (typed_stream_loop filename pre o w)).
Proof.
  intros Hpre. revert w. induction Hpre as [|x pre Hx _ IH]; intros w; [done|].
  simpl. destruct (name_matches filename x) eqn:Hname.
  - destruct Hx as [Hx|Hx]; [congruence|].
    unfold bind. rewrite (getStream_absent o w (PStr x) false) by exact Hx.
    apply (IH (with_log (with_calls w [call_exists x]) [info_stream_not_found x])).
  - apply IH.
Qed.

(** C2: typed resolution of a property id accepted by [verifyPropertyId],
    with or without a type.  The candidates are the one name
    [__substg1.0_ + id + type] when the type is given, else the listed
    streams in order.  When a candidate whose name matches (it starts with
    [__substg1.0_ + id] and has no [-]) is held by the container, and the
    loop passes over all candidates before it, the result is the decoded
    value of that stream, on the instance as the listing left it: the
    inline record of the property store is not looked up.  When the loop
    passes over all candidates the result is the inline value that the
    property store gives for the id (and type), and none when it gives
    nothing. *)
Theorem getTypedData_resolution (o : OleFileIO) (w w1 : World) (_id : string)
    (_type : option string) (prefix : bool) (xs : list string) :
  let filename := fixed (self w) (PStr ("__substg1.0_" +:+ Py.upper _id)) prefix in
  verifyPropertyId _id = Ok tt ->
  verifyPropertyId (Py.upper _id) = Ok tt ->
  verifyType _type = Ok tt ->
  candidates filename _type o w = (Ok xs, w1) ->
  (forall pre x post contents,
     xs = pre ++ x :: post ->
     Forall (passed_over o filename) pre ->
     name_matches filename x = true ->
     ole_exists o x = true ->
     ole_openstream o x = Some contents ->
     let w2 := with_calls (snd (typed_stream_loop filename pre o w1))
                 [call_exists x; call_openstream x] in
     self w2 = self w1 /\
     _getTypedData _id _type prefix o w
     = map_run snd (typed_stream_body x contents o w2)) /\
  (Forall (passed_over o filename) xs ->
   let w2 := snd (typed_stream_loop filename xs o w1) in
   self w2 = self w1 /\
   _getTypedData _id _type prefix o w
   = map_run (default PyNone) (getPropertyVal (with_type (Py.upper _id) _type) o w2)).
Proof.
  intros filename Hid Hup Hty Hxs.
  assert (_getTypedData _id _type prefix o w
          = (fr <- typed_stream_loop filename xs ;;
             if fst fr then ret (snd fr)
             else fr <- _getTypedProperty (Py.upper _id) _type ;;
                  ret (if fst fr then snd fr else PyNone)) o w1) as Hrun.
  { unfold _getTypedData, _getTypedStream, bind at 1, lift at 1. rewrite Hid.
    unfold bind at 1, bind at 1, lift at 1. rewrite Hty.
    unfold bind at 1, fixPath, bind at 1, get_self, ret at 1. fold filename.
    unfold bind at 1. rewrite Hxs. reflexivity. }
  rewrite Hrun. split.
  - intros pre x post contents -> Hpre Hname Hex Hop w2.
    destruct (typed_stream_loop_passes o filename pre (x :: post) w1 Hpre) as (Hself & Hskip).
    split; [exact Hself|].
    unfold bind at 1. rewrite Hskip. simpl. rewrite Hname.
    unfold bind at 1. rewrite (getStream_found o _ (PStr x) false contents) by done.
    change (fixed _ (PStr x) false) with x. fold w2.
    destruct (typed_stream_body x contents o w2) as [[fr|e] w3] eqn:Hbody; [|done].
    rewrite (typed_stream_body_found x contents _ _ _ _ Hbody). reflexivity.
  - intros Hall w2.
    destruct (typed_stream_loop_passes o filename xs [] w1 Hall) as (Hself & Hskip).
    rewrite app_nil_r in Hskip. split; [exact Hself|].
    unfold bind at 1. rewrite Hskip. simpl. unfold ret at 1. simpl. fold w2.
    unfold _getTypedProperty, bind at 1, bind at 1, lift at 1. rewrite Hup.
    unfold with_type.
    destruct _type as [[|c t]|]; simpl.
    + rewrite append_nil_r. unfold bind, ret, map_run.
      by destruct (getPropertyVal _ o w2) as [[[v|]|e] w3].
    + unfold bind, ret, map_run, lift. rewrite Hty.
      by destruct (getPropertyVal _ o w2) as [[[v|]|e] w3].
    + unfold bind, ret, map_run.
      by destruct (getPropertyVal _ o w2) as [[[v|]|e] w3].
Qed.

End Typed_resolution.

(** C2 on a top-level message: the property [1234] has a binary stream,
    listed after a stream of another property and after an indexed element
    stream, and an inline record; the property [5678] has an inline record
    only; the property [9999] has neither. *)
Lemma getTypedData_resolution_witness :
  let ext := Fixture.externals in
  let o := Fixture.ole_of_streams
             [("__substg1.0_0037001F", Fixture.b3);
              ("__substg1.0_12341102-00000000", Fixture.b3);
              ("__substg1.0_12340102", Fixture.b5)] in
  let store := Fixture.unicode_store
               ++ [("12340102", FixedLengthProp (PyInt 7));
                   ("56780003", FixedLengthProp (PyInt 9))] in
  let w := Fixture.new_world (Fixture.with_props store (Fixture.new_msg [] THROW)) in
  PropertiesStore.getValue store "1234" = Some (PyInt 7) /\
  fst (_getTypedData "1234" None true o w) = Ok (PyBytes Fixture.b5) /\
  fst (_getTypedData "1234" (Some "0102") true o w) = Ok (PyBytes Fixture.b5) /\
  fst (_getTypedData "5678" None true o w) = Ok (PyInt 9) /\
  fst (_getTypedData "9999" None true o w) = Ok PyNone.
Proof.
  intros ext o store w. split; [reflexivity|].
  split.
  { destruct (getTypedData_resolution (ext := ext) o w _ "1234" None true _
                eq_refl eq_refl eq_refl eq_refl) as [Hwin _].
    destruct (Hwin ["__substg1.0_0037001F"; "__substg1.0_12341102-00000000"]
                "__substg1.0_12340102" [] Fixture.b5 eq_refl) as [_ Heq];
      [repeat constructor; by left|reflexivity|reflexivity|reflexivity|].
    rewrite Heq. reflexivity. }
  split.
  { destruct (getTypedData_resolution (ext := ext) o w _ "1234" (Some "0102") true _
                eq_refl eq_refl eq_refl eq_refl) as [Hwin _].
    destruct (Hwin [] "__substg1.0_12340102" [] Fixture.b5 eq_refl) as [_ Heq];
      [constructor|reflexivity|reflexivity|reflexivity|].
    rewrite Heq. reflexivity. }
  split.
  { destruct (getTypedData_resolution (ext := ext) o w _ "5678" None true _
                eq_refl eq_refl eq_refl eq_refl) as [_ Hfall].
    destruct Hfall as [_ Heq]; [repeat constructor; by left|].
    rewrite Heq. reflexivity. }
  destruct (getTypedData_resolution (ext := ext) o w _ "9999" None true _
              eq_refl eq_refl eq_refl eq_refl) as [_ Hfall].
  destruct Hfall as [_ Heq]; [repeat constructor; by left|].
  rewrite Heq. reflexivity.
Defined.

(** * Further properties of the methods of [MSGFile] *)

Section Listing_facts.
Context {ext : Externals}.

(** X1: [listDir] memoizes for an instance with a prefix only.  With a prefix,
    a call that returns is answered from [__listDirRes] ever after:
    the same entries, no call on the container, and this even on a
    container that lists something else.  Without a prefix the result is
    returned before it is stored: every call lists the container again, the
    memo stays as it was and [includePrefix] plays no part. *)
Theorem listDir_memoizes_with_prefix_only (o : OleFileIO) (w : World)
    (streams storages includePrefix : bool) :
  (msg_prefix (self w) <> "" ->
   forall entries w',
     listDir streams storages includePrefix o w = (Ok entries, w') ->
     forall o', listDir streams storages includePrefix o' w' = (Ok entries, w')) /\
  (msg_prefix (self w) = "" ->
   msg_listDirRes (self w) !! (streams, storages, includePrefix) = None ->
   listDir streams storages includePrefix o w
   = (Ok (ole_listdir o streams storages), with_calls w [call_listdir streams storages])).
Proof.
  split.
  - intros Hne entries w' Hrun o'.
    assert (msg_listDirRes (self w') !! (streams, storages, includePrefix) = Some entries)
      as Hmemo.
    { revert Hrun.
      unfold listDir, bind, get_self, ole_listdir_, bind, called, ret, set_self. simpl.
      destruct (msg_listDirRes (self w) !! _) eqn:Hhit.
      - by intros [= <- <-].
      - destruct (String.eqb_spec (msg_prefix (self w)) ""); [done|].
        intros [= <- <-]. simpl. by rewrite lookup_insert_eq. }
    unfold listDir, bind, get_self, ret. simpl. by rewrite Hmemo.
  - intros Hroot Hmiss.
    unfold listDir, bind, get_self, ole_listdir_, bind, called, ret. simpl.
    by rewrite Hmiss, Hroot.
Qed.

(** X2: on an embedded instance that has memoized neither listing, the
    listing without the prefix is the listing with the prefix cut by the
    length of the prefix, and putting the prefix segments back in front of
    each of its entries gives the listing with the prefix. *)
Theorem listDir_without_prefix_is_cut (o : OleFileIO) (w : World) (streams storages : bool)
    (full cut : list (list string)) :
  embedded_ok (self w) ->
  msg_listDirRes (self w) !! (streams, storages, true) = None ->
  msg_listDirRes (self w) !! (streams, storages, false) = None ->
  fst (listDir streams storages true o w) = Ok full ->
  fst (listDir streams storages false o w) = Ok cut ->
  cut = List.map (drop (msg_prefixLen (self w))) full /\
  full = List.map (app (msg_prefixList (self w))) cut.
Proof.
  intros [Hne Hsplit Hlen _] Hfull Hcut.
  unfold listDir, bind, get_self, ole_listdir_, bind, called, ret, set_self. simpl.
  rewrite Hfull, Hcut. destruct (String.eqb_spec (msg_prefix (self w)) ""); [done|]. simpl.
  intros [= <-] [= <-]. split; [done|].
  rewrite Hsplit, Hlen. rewrite List.map_map.
  induction (ole_listdir o streams storages) as [|x l IH]; simpl; [done|].
  destruct (below_prefix _ _ x) eqn:Hx; [|exact IH]. simpl. rewrite <- IH. f_equal.
  apply andb_prop in Hx as [_ Htake%bool_decide_eq_true].
  rewrite <- Htake at 1. symmetry. apply take_drop.
Qed.

End Listing_facts.

(** The two listing facts on an embedded message and on a top-level
    message. *)
Lemma listDir_memoizes_with_prefix_only_witness :
  let ext := Fixture.externals in
  let o := Fixture.ole_of_streams (("__substg1.0_0037001F", Fixture.b3)
                                   :: Fixture.binary_set Fixture.P) in
  let o' := Fixture.ole_of_streams [] in
  let w := Fixture.new_world (Fixture.new_msg Fixture.embedded THROW) in
  let w0 := Fixture.new_world (Fixture.new_msg [] THROW) in
  let w' := snd (listDir true false false o w) in
  fst (listDir true false false o w) = Ok [["__substg1.0_12341102"];
                                           ["__substg1.0_12341102-00000000"];
                                           ["__substg1.0_12341102-00000001"]] /\
  listDir true false false o' w' = (Ok [["__substg1.0_12341102"];
                                        ["__substg1.0_12341102-00000000"];
                                        ["__substg1.0_12341102-00000001"]], w') /\
  listDir true false true o w0
  = (Ok (ole_listdir o true false), with_calls w0 [call_listdir true false]).
Proof.
  intros ext o o' w w0 w'.
  destruct (listDir_memoizes_with_prefix_only o w true false false) as [Hmemo _].
  destruct (listDir_memoizes_with_prefix_only o w0 true false true) as [_ Hroot].
  assert (fst (listDir true false false o w)
          = Ok [["__substg1.0_12341102"]; ["__substg1.0_12341102-00000000"];
                ["__substg1.0_12341102-00000001"]]) as Hrun by by vm_compute.
  split; [exact Hrun|].
  split.
  - apply Hmemo; [by vm_compute|]. unfold w'.
    rewrite (surjective_pairing (listDir true false false o w)) at 1. by rewrite Hrun.
  - apply Hroot; by vm_compute.
Defined.

Lemma listDir_without_prefix_is_cut_witness :
  let ext := Fixture.externals in
  let o := Fixture.ole_of_streams (("__substg1.0_0037001F", Fixture.b3)
                                   :: Fixture.binary_set Fixture.P) in
  let w := Fixture.new_world (Fixture.new_msg Fixture.embedded THROW) in
  let cut := [["__substg1.0_12341102"]; ["__substg1.0_12341102-00000000"];
              ["__substg1.0_12341102-00000001"]] in
  let full := List.map (app Fixture.embedded) cut in
  fst (listDir true false true o w) = Ok full /\
  fst (listDir true false false o w) = Ok cut /\
  cut = List.map (drop (msg_prefixLen (self w))) full /\
  full = List.map (app (msg_prefixList (self w))) cut.
Proof.
  intros ext o w cut full.
  assert (fst (listDir true false true o w) = Ok full) as Hfull by by vm_compute.
  assert (fst (listDir true false false o w) = Ok cut) as Hcut by by vm_compute.
  split; [exact Hfull|]. split; [exact Hcut|].
  apply (listDir_without_prefix_is_cut o w true false full cut); done.
Defined.

(** * Further properties of [MSGFile]: what a read leaves behind *)

Create HintDb grows.

Section Write_once.
Context {ext : Externals}.

Lemma extends_refl (w : World) : extends w w.
Proof. constructor; try done; exists []; by rewrite app_nil_r. Qed.

Lemma extends_trans (w1 w2 w3 : World) : extends w1 w2 -> extends w2 w3 -> extends w1 w3.
Proof.
  intros [Hp1 Hl1 Hn1 He1 Hs1 Hu1 Hc1 Hd1 [r1 Hr1] [c1 Hk1]]
         [Hp2 Hl2 Hn2 He2 Hs2 Hu2 Hc2 Hd2 [r2 Hr2] [c2 Hk2]].
  constructor; try congruence; try (intros; auto).
  - exists (r1 ++ r2). by rewrite Hr2, Hr1, <- app_assoc.
  - exists (c1 ++ c2). by rewrite Hk2, Hk1, <- app_assoc.
Qed.

Lemma extends_with_calls (w : World) (cs : list OleCall) : extends w (with_calls w cs).
Proof. constructor; try done; [exists []; by rewrite app_nil_r | by exists cs]. Qed.

Lemma extends_with_log (w : World) (rs : list LogRecord) : extends w (with_log w rs).
Proof. constructor; try done; [by exists rs | exists []; by rewrite app_nil_r]. Qed.

(** Filling a cell that was empty at the start *)
Lemma extends_store_props (w w1 : World) (ps : PropertiesStore.t) :
  cached_props (self w) = None -> extends w w1 ->
  extends w (with_self w1 (set_cached_props ps (self w1))).
Proof. intros Hc []. constructor; simpl; try done. intros ps'. by rewrite Hc. Qed.

Lemma extends_store_areStringsUnicode (w w1 : World) (u : bool) :
  cached_areStringsUnicode (self w) = None -> extends w w1 ->
  extends w (with_self w1 (set_cached_areStringsUnicode u (self w1))).
Proof. intros Hc []. constructor; simpl; try done. intros u'. by rewrite Hc. Qed.

Lemma extends_store_stringEncoding (w w1 : World) (e : string) :
  msg_stringEncoding (self w) = None -> extends w w1 ->
  extends w (with_self w1 (set_stringEncoding e (self w1))).
Proof. intros Hc []. constructor; simpl; try done. intros e'. by rewrite Hc. Qed.

Lemma extends_store_listDirRes (w w1 : World) (k : bool * bool * bool)
    (entries : list (list string)) :
  msg_listDirRes (self w) !! k = None -> extends w w1 ->
  extends w (with_self w1 (set_listDirRes k entries (self w1))).
Proof.
  intros Hc []. constructor; simpl; try done. intros k' es Hk'.
  destruct (decide (k = k')) as [<-|Hne]; [by rewrite Hc in Hk'|].
  rewrite lookup_insert_ne by done. by apply keeps_listDirRes0.
Qed.

Lemma grows_ret {A : Type} (a : A) : grows (ret a).
Proof. intros o w. apply extends_refl. Qed.

Lemma grows_raise {A : Type} (e : exn) : grows (@raise A e).
Proof. intros o w. apply extends_refl. Qed.

Lemma grows_lift {A : Type} (r : result A) : grows (lift r).
Proof. intros o w. apply extends_refl. Qed.

Lemma grows_get_self : grows get_self.
Proof. intros o w. apply extends_refl. Qed.

Lemma grows_logger (r : LogRecord) : grows (logger r).
Proof. intros o w. apply extends_with_log. Qed.

Lemma grows_bind {A B : Type} (c : M A) (k : A -> M B) :
  grows c -> (forall a, grows (k a)) -> grows (bind c k).
Proof.
  intros Hc Hk o w. specialize (Hc o w). unfold world_after, bind in *.
  destruct (c o w) as [[a|e] w1]; simpl in *; [|done].
  eapply extends_trans; [exact Hc|apply Hk].
Qed.

Lemma grows_try_except {A : Type} (body handler : M A) :
  grows body -> grows handler -> grows (try_except body handler).
Proof.
  intros Hb Hh o w. specialize (Hb o w). unfold world_after, try_except in *.
  destruct (body o w) as [[a|e] w1]; simpl in *; [done|].
  eapply extends_trans; [exact Hb|apply Hh].
Qed.

Lemma grows_ole_exists_ (p : string) : grows (ole_exists_ p).
Proof. intros o w. apply extends_with_calls. Qed.

Lemma grows_ole_read (p : string) : grows (ole_read p).
Proof.
  intros o w. unfold world_after, ole_read, bind, called, ret, raise. simpl.
  destruct (ole_openstream o p); apply extends_with_calls.
Qed.

Lemma grows_ole_listdir_ (streams storages : bool) : grows (ole_listdir_ streams storages).
Proof. intros o w. apply extends_with_calls. Qed.

Lemma grows_comprehension {A B : Type} (f : A -> M B) (xs : list A) :
  (forall x, grows (f x)) -> grows (comprehension f xs).
Proof.
  intros Hf. induction xs as [|x xs IH]; simpl; [apply grows_ret|].
  apply grows_bind; [apply Hf|]. intros b. apply grows_bind; [exact IH|].
  intros bs. apply grows_ret.
Qed.

Ltac grow :=
  repeat match goal with
    | |- grows (ret _) => apply grows_ret
    | |- grows (raise _) => apply grows_raise
    | |- grows (lift _) => apply grows_lift
    | |- grows get_self => apply grows_get_self
    | |- grows (logger _) => apply grows_logger
    | |- grows (ole_exists_ _) => apply grows_ole_exists_
    | |- grows (ole_read _) => apply grows_ole_read
    | |- grows (ole_listdir_ _ _) => apply grows_ole_listdir_
    | |- grows (bind _ _) => apply grows_bind; [|intros ?]
    | |- grows (try_except _ _) => apply grows_try_except
    | |- grows (comprehension _ _) => apply grows_comprehension; intros ?
    | |- grows (if ?b then _ else _) => destruct b
    | |- grows (match ?x with _ => _ end) => destruct x
    | |- _ => solve [auto with grows | exact grows_get_self]
    end.

Lemma grows_fixPath (inp : MsgPath) (prefix : bool) : grows (fixPath inp prefix).
Proof. unfold fixPath. grow. Qed.
#[local] Hint Resolve grows_fixPath : grows.

Lemma grows_exists_ (inp : MsgPath) (prefix : bool) : grows (exists_ inp prefix).
Proof. unfold exists_. grow. Qed.
#[local] Hint Resolve grows_exists_ : grows.

Lemma grows_getStream (filename : MsgPath) (prefix : bool) : grows (getStream filename prefix).
Proof. unfold getStream. grow. Qed.
#[local] Hint Resolve grows_getStream : grows.

Lemma grows_sExists (inp : MsgPath) (prefix : bool) : grows (sExists inp prefix).
Proof. unfold sExists. grow. Qed.
#[local] Hint Resolve grows_sExists : grows.

Lemma grows_props : grows props.
Proof.
  intros o w. unfold world_after, props, cached_property, bind at 1, get_self. simpl.
  destruct (cached_props (self w)) as [ps|] eqn:Hc; [apply extends_refl|].
  match goal with |- context [bind ?c ?k o w] => set (body := c) end.
  assert (grows body) as Hbody by (unfold body; grow).
  specialize (Hbody o w). unfold world_after, bind in *.
  destruct (body o w) as [[ps|e] w1]; simpl in *; [|done].
  by apply extends_store_props.
Qed.
#[local] Hint Resolve grows_props : grows.

Lemma grows_getPropertyVal (name : string) : grows (getPropertyVal name).
Proof. unfold getPropertyVal. grow. Qed.
#[local] Hint Resolve grows_getPropertyVal : grows.

Lemma grows_areStringsUnicode : grows areStringsUnicode.
Proof.
  intros o w. unfold world_after, areStringsUnicode, cached_property, bind at 1, get_self.
  simpl. destruct (cached_areStringsUnicode (self w)) as [u|] eqn:Hc; [apply extends_refl|].
  match goal with |- context [bind ?c ?k o w] => set (body := c) end.
  assert (grows body) as Hbody by (unfold body; grow).
  specialize (Hbody o w). unfold world_after, bind in *.
  destruct (body o w) as [[u|e] w1]; simpl in *; [|done].
  by apply extends_store_areStringsUnicode.
Qed.
#[local] Hint Resolve grows_areStringsUnicode : grows.

Lemma grows_stringEncoding : grows stringEncoding.
Proof.
  intros o w. unfold world_after, stringEncoding, bind at 1, get_self. simpl.
  destruct (msg_stringEncoding (self w)) as [e|] eqn:Hc; [apply extends_refl|].
  unfold bind at 1. pose proof (grows_areStringsUnicode o w) as Hu. unfold world_after in Hu.
  destruct (areStringsUnicode o w) as [[u|e] w1]; simpl in *; [|done].
  destruct u.
  - by apply extends_store_stringEncoding.
  - unfold bind at 1. pose proof (grows_props o w1) as Hp. unfold world_after in Hp.
    destruct (props o w1) as [[ps|e] w2]; simpl in *; [|by eapply extends_trans].
    assert (extends w w2) as Hw2 by by eapply extends_trans.
    destruct (negb (PropertiesStore.contains ps "3FFD0003")).
    + unfold bind, logger, set_self, ret. simpl.
      apply (extends_store_stringEncoding w (with_log w2 [warning_encoding_default])); [done|].
      eapply extends_trans; [exact Hw2|apply extends_with_log].
    + unfold bind at 1. pose proof (grows_getPropertyVal "3FFD0003" o w2) as Hv.
      unfold world_after in Hv.
      destruct (getPropertyVal "3FFD0003" o w2) as [[v|e] w3]; simpl in *;
        [|by eapply extends_trans].
      assert (extends w w3) as Hw3 by by eapply extends_trans.
      unfold bind, lift, set_self, ret.
      destruct (lookupCodePage (default PyNone v)); simpl; [|done].
      by apply extends_store_stringEncoding.
Qed.
#[local] Hint Resolve grows_stringEncoding : grows.

Lemma grows_getStringStream (filename : MsgPath) (prefix : bool) :
  grows (getStringStream filename prefix).
Proof. unfold getStringStream. grow. Qed.
#[local] Hint Resolve grows_getStringStream : grows.

Lemma grows_getMultipleBinary (filename : MsgPath) (prefix : bool) :
  grows (getMultipleBinary filename prefix).
Proof. unfold getMultipleBinary. grow. Qed.
#[local] Hint Resolve grows_getMultipleBinary : grows.

Lemma grows_decode_items (items : list (option bytes)) (done_ : list text) :
  grows (decode_items items done_).
Proof.
  revert done_. induction items as [|[b|] items IH]; intros done_; simpl; grow.
Qed.
#[local] Hint Resolve grows_decode_items : grows.

Lemma grows_getMultipleString (filename : MsgPath) (prefix : bool) :
  grows (getMultipleString filename prefix).
Proof. unfold getMultipleString. grow. Qed.
#[local] Hint Resolve grows_getMultipleString : grows.

Lemma grows_getSingleOrMultipleBinary (filename : MsgPath) (prefix : bool) :
  grows (getSingleOrMultipleBinary filename prefix).
Proof. unfold getSingleOrMultipleBinary. grow. Qed.
#[local] Hint Resolve grows_getSingleOrMultipleBinary : grows.

Lemma grows_getSingleOrMultipleString (filename : MsgPath) (prefix : bool) :
  grows (getSingleOrMultipleString filename prefix).
Proof. unfold getSingleOrMultipleString. grow. Qed.
#[local] Hint Resolve grows_getSingleOrMultipleString : grows.

Lemma grows_listDir (streams storages includePrefix : bool) :
  grows (listDir streams storages includePrefix).
Proof.
  intros o w.
  unfold world_after, listDir, bind, get_self, ole_listdir_, bind, called, ret, set_self.
  simpl. destruct (msg_listDirRes (self w) !! _) eqn:Hc; [apply extends_refl|].
  destruct (String.eqb (msg_prefix (self w)) ""); simpl; [apply extends_with_calls|].
  apply (extends_store_listDirRes w (with_calls w [call_listdir streams storages])); [done|].
  apply extends_with_calls.
Qed.
#[local] Hint Resolve grows_listDir : grows.

Lemma grows_slistDir (streams storages includePrefix : bool) :
  grows (slistDir streams storages includePrefix).
Proof. unfold slistDir. grow. Qed.
#[local] Hint Resolve grows_slistDir : grows.

Lemma grows_getTypedProperty (propertyID : string) (_type : option string) :
  grows (_getTypedProperty propertyID _type).
Proof. unfold _getTypedProperty. grow. Qed.
#[local] Hint Resolve grows_getTypedProperty : grows.

Lemma grows_gather_extras (x : string) (ys : list nat) (extras : list (option bytes)) :
  grows (gather_extras x ys extras).
Proof.
  revert extras. induction ys as [|y ys IH]; intros extras; simpl; grow.
Qed.
#[local] Hint Resolve grows_gather_extras : grows.

Lemma grows_decode_typed_stream (x : string) (contents : bytes) :
  grows (decode_typed_stream x contents).
Proof. unfold decode_typed_stream. grow. Qed.
#[local] Hint Resolve grows_decode_typed_stream : grows.

Lemma grows_typed_stream_loop (filename : string) (xs : list string) :
  grows (typed_stream_loop filename xs).
Proof.
  induction xs as [|x xs IH]; simpl; [apply grows_ret|].
  unfold typed_stream_body. grow.
Qed.
#[local] Hint Resolve grows_typed_stream_loop : grows.

Lemma grows_getTypedStream (filename : MsgPath) (prefix : bool) (_type : option string) :
  grows (_getTypedStream filename prefix _type).
Proof. unfold _getTypedStream, candidates. grow. Qed.
#[local] Hint Resolve grows_getTypedStream : grows.

Lemma grows_getTypedData (_id : string) (_type : option string) (prefix : bool) :
  grows (_getTypedData _id _type prefix).
Proof. unfold _getTypedData. grow. Qed.
#[local] Hint Resolve grows_getTypedData : grows.

Lemma stringEncoding_stored (o : OleFileIO) (w w1 : World) (e : string) :
  stringEncoding o w = (Ok e, w1) -> msg_stringEncoding (self w1) = Some e.
Proof.
  unfold stringEncoding, bind at 1, get_self. simpl.
  destruct (msg_stringEncoding (self w)) as [e0|] eqn:Hc; [by intros [= <- <-]|].
  unfold bind at 1. destruct (areStringsUnicode o w) as [[[]|?] w2]; [| |done].
  - by intros [= <- <-].
  - unfold bind at 1. destruct (props o w2) as [[ps|?] w3]; [|done].
    destruct (negb (PropertiesStore.contains ps "3FFD0003")).
    + by intros [= <- <-].
    + unfold bind at 1. destruct (getPropertyVal "3FFD0003" o w3) as [[v|?] w4]; [|done].
      unfold bind, lift, set_self, ret.
      destruct (lookupCodePage (default PyNone v)); [|done]. by intros [= <- <-].
Qed.

Lemma perform_extends (a : Access) (o : OleFileIO) (w : World) : extends w (perform a o w).
Proof.
  destruct a; simpl; match goal with |- extends _ (world_after ?c _ _) =>
    assert (grows c) as Hc by grow; apply Hc end.
Qed.

Lemma after_extends (accesses : list (OleFileIO * Access)) (w : World) :
  extends w (after accesses w).
Proof.
  revert w. induction accesses as [|[o a] accesses IH]; intros w; [apply extends_refl|].
  eapply extends_trans; [apply (perform_extends a o w)|apply IH].
Qed.

(** X3: whatever read methods are called on an instance, in whatever
    order, with whatever arguments, on whatever container, and whether
    they return or raise: the prefix and the error behaviour of the
    instance stay what [__init__] made them, a cached property, the
    encoding attribute or a memoized listing that was set keeps its value,
    and the log and the calls on the container only get longer. *)
Theorem reads_are_write_once (accesses : list (OleFileIO * Access)) (w : World) :
  extends w (after accesses w).
Proof.
  revert w. induction accesses as [|[o a] accesses IH]; intros w.
  - apply extends_refl.
  - change (after ((o, a) :: accesses) w) with (after accesses (perform a o w)).
    apply (extends_trans w (perform a o w)); [|apply IH].
    destruct a; simpl; match goal with |- extends _ (world_after ?c _ _) =>
      assert (grows c) as Hc by grow; apply Hc end.
Qed.

(** X4: the property store is parsed once and never read again.  Once
    [props] has returned a store, every [getPropertyVal], after any
    sequence of reads and on any container, answers from that store and
    makes no call on the container. *)
Theorem store_is_read_once (o : OleFileIO) (w w1 : World) (ps : PropertiesStore.t) :
  props o w = (Ok ps, w1) ->
  forall (accesses : list (OleFileIO * Access)) (o' : OleFileIO) (name : string),
    props o' (after accesses w1) = (Ok ps, after accesses w1) /\
    getPropertyVal name o' (after accesses w1)
    = (Ok (PropertiesStore.getValue ps name), after accesses w1).
Proof.
  intros Hp accesses o' name.
  assert (cached_props (self (after accesses w1)) = Some ps) as Hc.
  { apply (keeps_props _ _ (after_extends accesses w1)). by eapply props_stored. }
  split; [by apply props_cached|by apply getPropertyVal_cached].
Qed.

(** X5: the Unicode flag and the encoding are decided once.  Once
    [areStringsUnicode] or [stringEncoding] has returned, it returns the
    same value after any sequence of reads and on any container, and
    changes nothing. *)
Theorem encoding_is_decided_once (o : OleFileIO) (w w1 : World) :
  (forall u, areStringsUnicode o w = (Ok u, w1) ->
     forall accesses o',
       areStringsUnicode o' (after accesses w1) = (Ok u, after accesses w1)) /\
  (forall e, stringEncoding o w = (Ok e, w1) ->
     forall accesses o',
       stringEncoding o' (after accesses w1) = (Ok e, after accesses w1)).
Proof.
  split.
  - intros u Hu accesses o'.
    assert (cached_areStringsUnicode (self (after accesses w1)) = Some u) as Hc.
    { apply (keeps_areStringsUnicode _ _ (after_extends accesses w1)).
      by eapply (cached_property_stored cached_areStringsUnicode set_cached_areStringsUnicode). }
    unfold areStringsUnicode, cached_property, bind, get_self. simpl. by rewrite Hc.
  - intros e He accesses o'.
    assert (msg_stringEncoding (self (after accesses w1)) = Some e) as Hc.
    { apply (keeps_stringEncoding _ _ (after_extends accesses w1)).
      by eapply stringEncoding_stored. }
    unfold stringEncoding, bind, get_self. simpl. by rewrite Hc.
Qed.

End Write_once.

Section Stream_probes.
Context {ext : Externals}.

(** X6: a property stream that is there but empty counts as missing.
    Under THROW [props] raises StandardViolationError after the two calls
    that read the stream, and caches nothing; under TOLERANT it sends the
    error record to the logger and builds the store from the empty
    stream. *)
Theorem props_empty_property_stream (o : OleFileIO) (w : World) :
  let name := msg_prefix (self w) +:+ "__properties_version1.0" in
  cached_props (self w) = None ->
  ole_exists o name = true ->
  ole_openstream o name = Some [] ->
  match msg_errorBehavior (self w) with
  | THROW =>
      props o w
      = (Raise StandardViolationError,
         with_calls w [call_exists name; call_openstream name])
  | TOLERANT =>
      fst (props o w)
      = Ok (parseProperties
              (if String.eqb (msg_prefix (self w)) "" then MESSAGE else MESSAGE_EMBED) []) /\
      log (snd (props o w)) = log w ++ [error_no_property_stream]
  end.
Proof.
  intros name Hc He Ho.
  assert (props o w
          = let w2 := with_calls w [call_exists name; call_openstream name] in
            match msg_errorBehavior (self w) with
            | THROW => (Raise StandardViolationError, w2)
            | TOLERANT =>
                let ps := parseProperties
                            (if String.eqb (msg_prefix (self w)) "" then MESSAGE
                             else MESSAGE_EMBED) [] in
                (Ok ps, with_self (with_log w2 [error_no_property_stream])
                          (set_cached_props ps (self w)))
            end) as Hrun.
  { unfold props, cached_property, bind at 1, get_self at 1. simpl. rewrite Hc.
    unfold bind at 1. unfold bind at 1.
    rewrite (getStream_found o w (PStr "__properties_version1.0") true []) by done.
    unfold bind at 1, get_self at 1. simpl.
    by destruct (msg_errorBehavior (self w)). }
  rewrite Hrun. by destruct (msg_errorBehavior (self w)).
Qed.

(** X7: [getStringStream] asks the container for one name only, the one
    with the suffix that the Unicode flag selects.  When the container
    does not hold it the result is [None] after that single existence
    test: the stream with the other suffix is not looked at, and the
    encoding is neither computed nor stored. *)
Theorem getStringStream_absent (o : OleFileIO) (w w1 : World) (filename : MsgPath)
    (prefix u : bool) :
  let name := fixed (self w) filename prefix +:+ (if u then "001F" else "001E") in
  areStringsUnicode o w = (Ok u, w1) ->
  ole_exists o name = false ->
  getStringStream filename prefix o w
  = (Ok None, with_log (with_calls w1 [call_exists name]) [info_stream_not_found name]).
Proof.
  intros name Hu He.
  unfold getStringStream, bind at 1, fixPath, bind at 1, get_self at 1, ret at 1.
  unfold bind at 1. rewrite Hu. destruct u.
  - unfold bind at 1. by rewrite getStream_absent by exact He.
  - unfold bind at 1. by rewrite getStream_absent by exact He.
Qed.

Lemma sExists_value (o : OleFileIO) (w : World) (inp : MsgPath) (prefix : bool) :
  let probe suffix := msg_prefix (self w) +:+ (fixed (self w) inp prefix +:+ suffix) in
  fst (sExists inp prefix o w)
  = Ok (ole_exists o (probe "001F") || ole_exists o (probe "001E")).
Proof.
  intros probe.
  unfold sExists, exists_, fixPath, ole_exists_, bind, get_self, called, ret. simpl.
  fold (probe "001F"). by destruct (ole_exists o (probe "001F")).
Qed.

(** X8: [sExists] puts the prefix of the instance in front of the path
    that [fixPath] has already fixed, and asks the container for that name
    with the suffix [001F] and then, only when this one is not held, with
    the suffix [001E]; the Unicode flag plays no part. *)
Theorem sExists_probes (o : OleFileIO) (w : World) (inp : MsgPath) (prefix : bool) :
  let probe suffix := msg_prefix (self w) +:+ (fixed (self w) inp prefix +:+ suffix) in
  sExists inp prefix o w
  = (Ok (ole_exists o (probe "001F") || ole_exists o (probe "001E")),
     with_calls w
       (call_exists (probe "001F")
        :: if ole_exists o (probe "001F") then [] else [call_exists (probe "001E")])).
Proof.
  intros probe.
  unfold sExists, bind at 1, fixPath, bind at 1, get_self at 1, ret at 1.
  unfold bind at 1, exists_ at 1, bind at 1, fixPath, bind at 1, get_self at 1, ret at 1.
  unfold ole_exists_, bind, called, ret. simpl. fold (probe "001F").
  destruct (ole_exists o (probe "001F")); simpl; [done|].
  unfold exists_, bind, fixPath, bind, get_self, ret, ole_exists_, bind, called, ret. simpl.
  unfold with_calls. simpl. by rewrite <- app_assoc.
Qed.

Lemma getStream_Some (o : OleFileIO) (w w' : World) (p : string) (b : bytes) :
  getStream (PStr p) false o w = (Ok (Some b), w') -> ole_exists o p = true.
Proof.
  unfold getStream, bind at 1, fixPath, bind at 1, get_self at 1, ret at 1.
  unfold bind at 1, exists_, bind at 1, fixPath, bind at 1, get_self at 1, ret at 1.
  unfold ole_exists_, bind at 1, called, ret at 1. simpl.
  destruct (ole_exists o p); [done|]. unfold bind, logger, ret. simpl. done.
Qed.

End Stream_probes.

Section Stream_compositions.
Context {ext : Externals}.

(** X9: on a top-level message, a string that [getStringStream] finds is
    a string that [sExists] reports. *)
Theorem getStringStream_found_then_sExists (o : OleFileIO) (w w' : World) (inp : MsgPath)
    (prefix : bool) (t : text) :
  msg_prefix (self w) = "" ->
  getStringStream inp prefix o w = (Ok (Some t), w') ->
  fst (sExists inp prefix o w') = Ok true.
Proof.
  intros Hroot Hrun.
  pose proof (grows_getStringStream inp prefix o w) as Hext. unfold world_after in Hext.
  rewrite Hrun in Hext. simpl in Hext.
  assert (msg_prefix (self w') = "") as Hroot' by (by rewrite (keeps_prefix _ _ Hext)).
  rewrite sExists_value. f_equal.
  assert (fixed (self w') inp prefix = fixed (self w) inp prefix) as ->
    by (unfold fixed; by rewrite Hroot, Hroot').
  rewrite Hroot'.
  change ("" +:+ (fixed (self w) inp prefix +:+ "001F"))
    with (fixed (self w) inp prefix +:+ "001F").
  change ("" +:+ (fixed (self w) inp prefix +:+ "001E"))
    with (fixed (self w) inp prefix +:+ "001E").
  revert Hrun.
  unfold getStringStream, bind at 1, fixPath, bind at 1, get_self at 1, ret at 1.
  unfold bind at 1. destruct (areStringsUnicode o w) as [[[]|?] w1]; [| |done].
  - unfold bind at 1.
    destruct (getStream _ false o w1) as [[[b|]|?] w2] eqn:Hread; try done.
    apply getStream_Some in Hread. by rewrite Hread.
  - unfold bind at 1.
    destruct (getStream _ false o w1) as [[[b|]|?] w2] eqn:Hread; try done.
    apply getStream_Some in Hread. rewrite Hread. by rewrite orb_true_r.
Qed.

Lemma getStream_readable (o : OleFileIO) (w : World) (filename : MsgPath) (prefix : bool) :
  readable o ->
  exists w', getStream filename prefix o w = (Ok (held o (fixed (self w) filename prefix)), w')
             /\ self w' = self w.
Proof.
  intros Hr. unfold held. destruct (ole_exists o _) eqn:He.
  - destruct (ole_openstream o _) as [b|] eqn:Ho; [|by apply Hr in He].
    eexists. split; [by apply getStream_found|done].
  - eexists. split; [by apply getStream_absent|done].
Qed.

Lemma comprehension_getStream_readable (o : OleFileIO) (name : nat -> string)
    (ys : list nat) (w : World) :
  readable o ->
  exists w',
    comprehension (fun x => getStream (PStr (name x)) true) ys o w
    = (Ok (List.map (fun i => held o (msg_prefix (self w) +:+ name i)) ys), w')
    /\ self w' = self w.
Proof.
  intros Hr. revert w. induction ys as [|y ys IH]; intros w; simpl.
  - by exists w.
  - destruct (getStream_readable o w (PStr (name y)) true Hr) as (w1 & Hy & Hs1).
    destruct (IH w1) as (w2 & Hys & Hs2).
    exists w2. unfold bind at 1. rewrite Hy. unfold bind at 1. rewrite Hys.
    rewrite Hs1. split; [done|congruence].
Qed.

Lemma stringEncoding_set (o : OleFileIO) (w : World) (enc : string) :
  msg_stringEncoding (self w) = Some enc -> stringEncoding o w = (Ok enc, w).
Proof. intros He. unfold stringEncoding, bind, get_self. simpl. by rewrite He. Qed.

Lemma decode_items_run (o : OleFileIO) (w : World) (enc : string) (present : list bytes)
    (texts done_ : list text) :
  msg_stringEncoding (self w) = Some enc ->
  Forall2 (fun b t => decode enc b = Ok t) present texts ->
  decode_items (List.map Some present) done_ o w
  = (Ok (done_ ++ List.map (@removelast N) texts), w) /\
  forall rest,
    decode_items (List.map Some present ++ None :: rest) done_ o w
    = (Ok (done_ ++ List.map (@removelast N) texts),
       with_log w [error_multiple_string_incomplete]).
Proof.
  intros He Hall. revert done_.
  induction Hall as [|b t present texts Hb Hall IH]; intros done_; simpl.
  - rewrite app_nil_r. split; [done|]. intros rest. done.
  - unfold bind at 1. rewrite (stringEncoding_set o w enc He).
    unfold bind at 1, lift at 1. rewrite Hb.
    destruct (IH (done_ ++ [removelast t])) as [IH1 IH2].
    rewrite <- app_assoc in IH1, IH2. simpl in IH1, IH2. split; [exact IH1|].
    intros rest. unfold bind at 1. rewrite (stringEncoding_set o w enc He).
    unfold bind at 1, lift at 1. rewrite Hb. exact (IH2 rest).
Qed.

Lemma areStringsUnicode_cached (o : OleFileIO) (w : World) (u : bool) :
  cached_areStringsUnicode (self w) = Some u -> areStringsUnicode o w = (Ok u, w).
Proof.
  intros Hc. unfold areStringsUnicode, cached_property, bind, get_self. simpl. by rewrite Hc.
Qed.

(** X10: [getMultipleString], on an instance whose strings are Unicode,
    stops at the first element stream that is missing: for a container
    stream that declares [n] elements of which the first [k] are held and
    element [k] is not, the result is the [k] decoded strings, each
    without its last character, one record is sent to the logger and
    nothing is raised, whatever the container holds for the elements after
    [k]. *)
Theorem getMultipleString_stops_at_first_missing (o : OleFileIO) (w : World)
    (filename : MsgPath) (prefix : bool) (enc : string) (multStream : bytes)
    (elem : nat -> bytes) (dec : nat -> text) (n k : nat) :
  let name := fixed (self w) filename prefix +:+ "101F" in
  let path i := msg_prefix (self w) +:+ (name +:+ "-" +:+ Py.format_08X i) in
  cached_areStringsUnicode (self w) = Some true ->
  msg_stringEncoding (self w) = Some enc ->
  readable o ->
  ole_exists o (msg_prefix (self w) +:+ name) = true ->
  ole_openstream o (msg_prefix (self w) +:+ name) = Some multStream ->
  length multStream = 4 * n ->
  k < n ->
  (forall i, i < k ->
     ole_exists o (path i) = true /\ ole_openstream o (path i) = Some (elem i) /\
     decode enc (elem i) = Ok (dec i)) ->
  ole_exists o (path k) = false ->
  fst (getMultipleString filename prefix o w)
  = Ok (List.map (fun i => removelast (dec i)) (seq 0 k)) /\
  In error_multiple_string_incomplete (log (snd (getMultipleString filename prefix o w))).
Proof.
  intros name path Hu Henc Hr He Ho Hlen Hk Hfirst Hmiss.
  set (w2 := with_calls w [call_exists (msg_prefix (self w) +:+ name);
                           call_openstream (msg_prefix (self w) +:+ name)]).
  destruct (comprehension_getStream_readable o
              (fun x => name +:+ "-" +:+ Py.format_08X x) (seq 0 n) w2 Hr)
    as (w3 & Hreads & Hself).
  assert (List.map (fun i => held o (msg_prefix (self w2) +:+ (name +:+ "-" +:+ Py.format_08X i)))
            (seq 0 n)
          = List.map Some (List.map elem (seq 0 k))
            ++ None :: List.map (fun i => held o (path i)) (seq (S k) (n - S k))) as Hitems.
  { replace n with (k + S (n - S k)) at 1 by lia. rewrite seq_app, List.map_app. simpl.
    f_equal.
    - rewrite List.map_map. apply map_ext_in. intros i Hi%in_seq. unfold held.
      destruct (Hfirst i ltac:(lia)) as (Hei & Hoi & _). fold (path i). by rewrite Hei.
    - f_equal. unfold held. fold (path k). by rewrite Hmiss. }
  rewrite Hitems in Hreads.
  destruct (decode_items_run o w3 enc (List.map elem (seq 0 k)) (List.map dec (seq 0 k)) [])
    as [_ Hdec].
  { by rewrite Hself. }
  { apply Forall2_fmap, Forall2_same_length_lookup_2; [done|].
    intros i x y Hx Hy. rewrite Hx in Hy. injection Hy as <-.
    apply lookup_seq in Hx as [-> Hi]. by destruct (Hfirst i Hi) as (_ & _ & Hd). }
  assert (getMultipleString filename prefix o w
          = (Ok (List.map (@removelast N) (List.map dec (seq 0 k))),
             with_log w3 [error_multiple_string_incomplete])) as Hrun.
  { unfold getMultipleString, bind at 1. rewrite (areStringsUnicode_cached o w true Hu).
    unfold bind at 1, bind at 1, fixPath, bind at 1, get_self at 1, ret at 1, ret at 1.
    fold name. unfold bind at 1.
    rewrite (getStream_found o w (PStr name) true multStream) by done.
    change (with_calls w _) with w2.
    rewrite Hlen.
    replace (4 * n =? 0)%nat with false by (symmetry; apply Nat.eqb_neq; lia).
    replace (Z.land (Z.of_nat (4 * n)) 3 =? 0)%Z with true.
    2:{ symmetry. apply Z.eqb_eq. change 3%Z with (Z.ones 2). rewrite Z.land_ones by lia.
        rewrite Nat2Z.inj_mul. change (2 ^ 2)%Z with (Z.of_nat 4).
        by rewrite Z.mul_comm, Z.mod_mul. }
    replace (4 * n / 4) with n by (symmetry; rewrite Nat.mul_comm; by apply Nat.div_mul).
    cbn [negb]. unfold bind at 1, Py.range. rewrite Hreads. exact (Hdec _). }
  rewrite Hrun. simpl. split; [by rewrite List.map_map|].
  apply in_or_app. right. by left.
Qed.

End Stream_compositions.

Section Typed_stream_elements.
Context {ext : Externals}.

Lemma exists_run (o : OleFileIO) (w : World) (p : string) :
  exists_ (PStr p) false o w = (Ok (ole_exists o p), with_calls w [call_exists p]).
Proof. reflexivity. Qed.

Lemma gather_extras_run (o : OleFileIO) (x : string) (ys : list nat)
    (extras : list (option bytes)) (w : World) :
  readable o ->
  exists w',
    gather_extras x ys extras o w
    = (Ok (extras ++ List.map Some
                       (omap (fun y => held o (x +:+ "-" +:+ Py.format_08X y)) ys)), w')
    /\ self w' = self w.
Proof.
  intros Hr. revert extras w. induction ys as [|y ys IH]; intros extras w; simpl.
  - exists w. by rewrite app_nil_r.
  - unfold bind at 1. rewrite exists_run. unfold held at 1.
    destruct (ole_exists o (x +:+ "-" +:+ Py.format_08X y)) eqn:He.
    + destruct (ole_openstream o (x +:+ "-" +:+ Py.format_08X y)) as [b|] eqn:Ho;
        [|by apply Hr in He].
      unfold bind at 1.
      rewrite (getStream_found _ _ (PStr (x +:+ "-" +:+ Py.format_08X y)) false b) by done.
      destruct (IH (extras ++ [Some b]) (with_calls
                  (with_calls w [call_exists (x +:+ "-" +:+ Py.format_08X y)])
                  [call_exists (x +:+ "-" +:+ Py.format_08X y);
                   call_openstream (x +:+ "-" +:+ Py.format_08X y)])) as (w' & Hrun & Hs).
      exists w'. split; [|exact Hs]. simpl. rewrite <- app_assoc in Hrun. exact Hrun.
    + destruct (IH extras (with_calls w [call_exists (x +:+ "-" +:+ Py.format_08X y)]))
        as (w' & Hrun & Hs).
      exists w'. by split.
Qed.

(** X11: how [_getTypedStream] gathers the elements of a stream of one
    of the types [101F], [101E] and [1102].  The element streams
    are looked at only when the one numbered 0 is held; then the numbers
    below the count that the length of the stream gives are tried in
    order, and an element stream that is missing is passed over: what
    [parseType] receives is the list of the element streams that are
    held, with no gap where one is missing. *)
Theorem typed_stream_indexed_elements (o : OleFileIO) (w : World) (x t : string)
    (contents : bytes) (ty : Z) (enc : string) :
  let streams := length contents / (if String.eqb t "1102" then 8 else 4) in
  let extras :=
    if ole_exists o (x +:+ "-00000000") then
      List.map Some (omap (fun y => held o (x +:+ "-" +:+ Py.format_08X y)) (Py.range streams))
    else [] in
  Py.index_neg 4 x = Some "1"%char ->
  Py.last_n 4 x = t ->
  str_in t indexed_types = true ->
  readable o ->
  int16 t = Ok ty ->
  msg_stringEncoding (self w) = Some enc ->
  fst (decode_typed_stream x contents o w)
  = map_result (fun v => (true, v)) (parseType ty (inl contents) enc extras).
Proof.
  intros streams extras Hidx Hlast Hin Hr Hty Henc.
  assert (forall n,
            streams = n ->
            fst ((found <- exists_ (PStr (x +:+ "-00000000")) false ;;
                  extras <- (if found then gather_extras x (Py.range n) [] else ret []) ;;
                  t' <- lift (int16 t) ;;
                  enc <- stringEncoding ;;
                  v <- lift (parseType t' (inl contents) enc extras) ;;
                  ret (true, v)) o w)
            = map_result (fun v => (true, v)) (parseType ty (inl contents) enc extras))
    as Hrest.
  { intros n <-. unfold bind at 1. rewrite exists_run. unfold extras.
    destruct (ole_exists o (x +:+ "-00000000")).
    - destruct (gather_extras_run o x (Py.range streams) []
                  (with_calls w [call_exists (x +:+ "-00000000")]) Hr) as (w' & Hrun & Hs).
      unfold bind at 1. rewrite Hrun. unfold bind at 1, lift at 1. rewrite Hty.
      unfold bind at 1. rewrite (stringEncoding_set o w' enc) by (by rewrite Hs).
      unfold bind, lift, ret. simpl. by destruct (parseType _ _ _ _).
    - unfold bind at 1, ret at 1. unfold bind at 1, lift at 1. rewrite Hty.
      unfold bind at 1. rewrite (stringEncoding_set o _ enc) by done.
      unfold bind, lift, ret. by destruct (parseType _ _ _ _). }
  unfold decode_typed_stream. rewrite Hidx, Hlast. unfold bind at 1, ret at 1.
  change (Ascii.eqb "1" "1") with true. cbv iota. rewrite Hin.
  unfold indexed_types, str_in in Hin. simpl in Hin.
  destruct (String.eqb_spec t "101F") as [->|H1].
  { unfold bind at 1, ret at 1. by apply Hrest. }
  destruct (String.eqb_spec t "101E") as [->|H2].
  { unfold bind at 1, ret at 1. by apply Hrest. }
  destruct (String.eqb_spec t "1102") as [->|H3]; [|done].
  unfold bind at 1, ret at 1. by apply Hrest.
Qed.

(** X12: a stream whose name says that it is multiple-valued, by the
    character 1 four places from its end, but whose type is none of those
    that [_getTypedStream] knows makes it raise NotImplementedError as soon
    as the stream has been read and found not to be empty. *)
Theorem getTypedStream_unknown_multiple_type (o : OleFileIO) (w : World)
    (filename : MsgPath) (prefix : bool) (t : string) (contents : bytes) :
  let x := fixed (self w) filename prefix +:+ t in
  verifyType (Some t) = Ok tt ->
  Py.contains_char "-" x = false ->
  Py.index_neg 4 x = Some "1"%char ->
  str_in (Py.last_n 4 x) (indexed_types ++ packed_types) = false ->
  ole_exists o x = true ->
  ole_openstream o x = Some contents ->
  contents <> [] ->
  _getTypedStream filename prefix (Some t) o w
  = (Raise NotImplementedError, with_calls w [call_exists x; call_openstream x]).
Proof.
  intros x Hv Hdash Hidx Hty He Ho Hne.
  unfold _getTypedStream, bind at 1, lift at 1. rewrite Hv.
  unfold bind at 1, fixPath, bind at 1, get_self at 1, ret at 1.
  unfold bind at 1, candidates, ret at 1. fold x.
  unfold typed_stream_loop, name_matches. unfold x at 1. rewrite startswith_app, Hdash.
  cbn [andb negb].
  unfold bind at 1. rewrite (getStream_found o w (PStr x) false contents) by done.
  unfold typed_stream_body.
  destruct contents as [|c contents]; [done|]. cbn [length Nat.eqb].
  unfold decode_typed_stream. rewrite Hidx. unfold bind at 1, ret at 1.
  change (Ascii.eqb "1" "1") with true. cbv iota.
  unfold indexed_types, packed_types, str_in in *. simpl in Hty.
  repeat (apply orb_false_elim in Hty as [? Hty]).
  simpl.
  repeat match goal with H : String.eqb _ _ = false |- _ => rewrite H; clear H end.
  simpl. reflexivity.
Qed.

End Typed_stream_elements.

(** The further properties on concrete messages. *)

Lemma ole_of_streams_readable (streams : list (string * bytes)) :
  readable (Fixture.ole_of_streams streams).
Proof.
  intros p. simpl. induction streams as [|[k b] streams IH]; simpl; [done|].
  destruct (String.eqb k p); simpl; [done|exact IH].
Qed.

Lemma store_is_read_once_witness :
  let ext := Examples.externals in
  let o := Fixture.ole_of_streams [("__properties_version1.0", Fixture.b5);
                                   (Fixture.X +:+ "001E", Fixture.b3)] in
  let o' := Fixture.ole_of_streams [] in
  let w := Fixture.new_world (Fixture.new_msg [] THROW) in
  let w1 := snd (props o w) in
  let accesses := [(o, acc_getStringStream (PStr Fixture.X) true);
                   (o', acc_getTypedData "1234" None true)] in
  props o w = (Ok Fixture.legacy_store, w1) /\
  calls (after accesses w1) <> calls w1 /\
  getPropertyVal "3FFD0003" o' (after accesses w1)
  = (Ok (Some (PyInt 1252)), after accesses w1).
Proof.
  intros ext o o' w w1 accesses.
  assert (props o w = (Ok Fixture.legacy_store, w1)) as Hp by by vm_compute.
  split; [exact Hp|]. split; [by vm_compute|].
  exact (proj2 (store_is_read_once (ext := ext) o w w1 Fixture.legacy_store Hp
                  accesses o' "3FFD0003")).
Defined.

Lemma encoding_is_decided_once_witness :
  let ext := Examples.externals in
  let o := Fixture.ole_of_streams [("__properties_version1.0", Fixture.b5);
                                   (Fixture.X +:+ "001E", Fixture.b3)] in
  let o' := Fixture.ole_of_streams [] in
  let w := Fixture.new_world (Fixture.new_msg [] THROW) in
  let w1 := snd (stringEncoding o w) in
  let accesses := [(o', acc_props); (o, acc_getStringStream (PStr Fixture.X) true)] in
  stringEncoding o w = (Ok "cp1252", w1) /\
  stringEncoding o' (after accesses w1) = (Ok "cp1252", after accesses w1) /\
  areStringsUnicode o' (after accesses w1) = (Ok false, after accesses w1).
Proof.
  intros ext o o' w w1 accesses.
  assert (stringEncoding o w = (Ok "cp1252", w1)) as He by by vm_compute.
  assert (areStringsUnicode o w1 = (Ok false, w1)) as Hu by by vm_compute.
  split; [exact He|]. split.
  - exact (proj2 (encoding_is_decided_once (ext := ext) o w w1) "cp1252" He accesses o').
  - exact (proj1 (encoding_is_decided_once (ext := ext) o w1 w1) false Hu accesses o').
Defined.

Lemma props_empty_property_stream_witness :
  let ext := Examples.externals in
  let o := Fixture.ole_of_streams [("__properties_version1.0", [])] in
  let w := Fixture.new_world (Fixture.new_msg [] THROW) in
  let w' := Fixture.new_world (Fixture.new_msg [] TOLERANT) in
  props o w
  = (Raise StandardViolationError,
     with_calls w [call_exists "__properties_version1.0";
                   call_openstream "__properties_version1.0"]) /\
  fst (props o w') = Ok [] /\
  log (snd (props o w')) = [error_no_property_stream].
Proof.
  intros ext o w w'. split.
  - exact (props_empty_property_stream (ext := ext) o w eq_refl eq_refl eq_refl).
  - exact (props_empty_property_stream (ext := ext) o w' eq_refl eq_refl eq_refl).
Defined.

Lemma getStringStream_absent_witness :
  let ext := Fixture.externals in
  let o := Fixture.ole_of_streams [(Fixture.X +:+ "001F", Fixture.b3)] in
  let w := Fixture.new_world
             (Fixture.with_props Fixture.legacy_store (Fixture.new_msg [] THROW)) in
  let w1 := snd (areStringsUnicode o w) in
  areStringsUnicode o w = (Ok false, w1) /\
  getStringStream (PStr Fixture.X) true o w
  = (Ok None,
     with_log (with_calls w1 [call_exists (Fixture.X +:+ "001E")])
       [info_stream_not_found (Fixture.X +:+ "001E")]).
Proof.
  intros ext o w w1.
  assert (areStringsUnicode o w = (Ok false, w1)) as Hu by by vm_compute.
  split; [exact Hu|].
  exact (getStringStream_absent (ext := ext) o w w1 (PStr Fixture.X) true false Hu eq_refl).
Defined.

Lemma getStringStream_found_then_sExists_witness :
  let ext := Fixture.externals in
  let o := Fixture.ole_of_streams [(Fixture.X +:+ "001F", Fixture.b3)] in
  let w := Fixture.new_world
             (Fixture.with_props Fixture.unicode_store (Fixture.new_msg [] THROW)) in
  let w' := snd (getStringStream (PStr Fixture.X) true o w) in
  getStringStream (PStr Fixture.X) true o w = (Ok (Some [10; 11; 12]%N), w') /\
  fst (sExists (PStr Fixture.X) true o w') = Ok true.
Proof.
  intros ext o w w'.
  assert (getStringStream (PStr Fixture.X) true o w = (Ok (Some [10; 11; 12]%N), w')) as Hrun
    by by vm_compute.
  split; [exact Hrun|].
  exact (getStringStream_found_then_sExists (ext := ext) o w w' (PStr Fixture.X) true _
           eq_refl Hrun).
Defined.

Lemma getMultipleString_stops_at_first_missing_witness :
  let ext := Fixture.externals in
  let o := Fixture.ole_of_streams [(Fixture.X +:+ "101F", Fixture.zeros 12);
                                   (Fixture.X +:+ "101F-00000000", Fixture.b5);
                                   (Fixture.X +:+ "101F-00000002", Fixture.b3)] in
  let w := Examples.unicode_world in
  fst (getMultipleString (PStr Fixture.X) true o w) = Ok [[1; 2; 3; 4]%N] /\
  In error_multiple_string_incomplete
    (log (snd (getMultipleString (PStr Fixture.X) true o w))).
Proof.
  intros ext o w.
  refine (getMultipleString_stops_at_first_missing (ext := ext) o w (PStr Fixture.X) true
            "utf-16-le" (Fixture.zeros 12) (fun _ => Fixture.b5)
            (fun _ => [1; 2; 3; 4; 5]%N) 3 1 eq_refl eq_refl
            (ole_of_streams_readable _) eq_refl eq_refl eq_refl _ _ eq_refl).
  - lia.
  - intros i Hi. assert (i = 0) as -> by lia. by vm_compute.
Defined.

Lemma typed_stream_indexed_elements_witness :
  let ext := Fixture.externals in
  let x := Fixture.X +:+ "1102" in
  let o := Fixture.ole_of_streams [(x, Fixture.zeros 24);
                                   (x +:+ "-00000000", Fixture.b5);
                                   (x +:+ "-00000002", Fixture.b3)] in
  let w := Examples.overridden "utf-16-le" in
  fst (decode_typed_stream x (Fixture.zeros 24) o w)
  = Ok (true, PyList [PyBytes Fixture.b5; PyBytes Fixture.b3]).
Proof.
  intros ext x o w.
  exact (typed_stream_indexed_elements (ext := ext) o w x "1102" (Fixture.zeros 24) 4354
           "utf-16-le" eq_refl eq_refl eq_refl (ole_of_streams_readable _) eq_refl eq_refl).
Defined.

Lemma getTypedStream_unknown_multiple_type_witness :
  let ext := Fixture.externals in
  let x := Fixture.X +:+ "1006" in
  let o := Fixture.ole_of_streams [(x, Fixture.zeros 16)] in
  let w := Fixture.new_world (Fixture.new_msg [] THROW) in
  _getTypedStream (PStr Fixture.X) true (Some "1006") o w
  = (Raise NotImplementedError, with_calls w [call_exists x; call_openstream x]).
Proof.
  intros ext x o w.
  exact (getTypedStream_unknown_multiple_type (ext := ext) o w (PStr Fixture.X) true "1006"
           (Fixture.zeros 16) eq_refl eq_refl eq_refl eq_refl eq_refl eq_refl
           ltac:(discriminate)).
Defined.

(** * Further properties of [MSGFile]: overriding getters, typed existence,
      attachments and teardown *)

Section Getters_as_facts.

(** X13: [getStringStreamAs] reads the stream with [getStream], not
    with [getStringStream]: the name is taken as it is, with no type suffix
    put after it, the Unicode flag and the encoding are not consulted, and
    what [overrideClass] receives is the bytes of the stream.  When the
    container does not hold the stream the result is [None] and
    [overrideClass] is not called. *)
Theorem getStringStreamAs_hands_over_bytes {T : Type} (o : OleFileIO) (w : World)
    (streamID : MsgPath) (overrideClass : bytes -> M T) :
  let name := fixed (self w) streamID true in
  (ole_exists o name = false ->
   getStringStreamAs streamID overrideClass o w
   = (Ok None, with_log (with_calls w [call_exists name]) [info_stream_not_found name])) /\
  (forall b,
     ole_exists o name = true ->
     ole_openstream o name = Some b ->
     getStringStreamAs streamID overrideClass o w
     = map_run Some (overrideClass b o
                       (with_calls w [call_exists name; call_openstream name]))) /\
  getStringStreamAs streamID overrideClass o w = getStreamAs streamID overrideClass o w.
Proof.
  intros name. split; [|split].
  - intros He. unfold getStringStreamAs, bind at 1.
    by rewrite getStream_absent by exact He.
  - intros b He Ho. unfold getStringStreamAs, bind at 1.
    rewrite (getStream_found o w streamID true b) by done.
    unfold bind, ret, map_run. fold name.
    by destruct (overrideClass b o _) as [[t|e] w'].
  - reflexivity.
Qed.

End Getters_as_facts.

Section Typed_existence_facts.
Context {ext : Externals}.
Variable inputToMsgPath : list MsgPath -> result (list string).
Variable store_iter : PropertiesStore.t -> list string.

(** X14: [existsTypedProperty] does not use the location it is given.
    The path built from the prefix and the location is converted and then
    dropped, and the streams that are counted are those of the listing of
    the instance, at the place right after the prefix: two calls that
    differ in the location alone, and whose paths both convert, run
    alike.  So [Recipient.existsTypedProperty], which passes the directory
    of the recipient as the location, gives the same answer for every
    directory. *)
Theorem existsTypedProperty_ignores_location (o : OleFileIO) (w : World) (_id : string)
    (_type : option string) :
  let path (prefix : bool) (location : option MsgPath) :=
    (if prefix then List.map PStr (msg_prefixList (self w)) else [])
    ++ match location with Some l => [l] | None => [] end in
  let converts l := exists r, inputToMsgPath l = Ok r in
  (forall prefix propertiesInstance location1 location2,
     converts (path prefix location1) ->
     converts (path prefix location2) ->
     existsTypedProperty inputToMsgPath store_iter _id location1 _type prefix
       propertiesInstance o w
     = existsTypedProperty inputToMsgPath store_iter _id location2 _type prefix
         propertiesInstance o w) /\
  (forall rcp1 rcp2 : Recipient,
     rcp_props rcp1 = rcp_props rcp2 ->
     converts (path true (Some (PStr (rcp_dir rcp1)))) ->
     converts (path true (Some (PStr (rcp_dir rcp2)))) ->
     Recipient_existsTypedProperty inputToMsgPath store_iter rcp1 _id _type o (live w)
     = Recipient_existsTypedProperty inputToMsgPath store_iter rcp2 _id _type o (live w)).
Proof.
  intros path converts.
  assert (forall prefix ps location1 location2,
            converts (path prefix location1) ->
            converts (path prefix location2) ->
            existsTypedProperty inputToMsgPath store_iter _id location1 _type prefix ps o w
            = existsTypedProperty inputToMsgPath store_iter _id location2 _type prefix ps o w)
    as Hsame.
  { intros prefix ps location1 location2 [r1 H1] [r2 H2].
    assert (forall location,
              match location with
              | Some l => (if prefix then List.map PStr (msg_prefixList (self w)) else []) ++ [l]
              | None => if prefix then List.map PStr (msg_prefixList (self w)) else []
              end = path prefix location) as Hpath.
    { intros [l|]; unfold path; [done|by rewrite app_nil_r]. }
    unfold existsTypedProperty, bind, lift.
    destruct (verifyPropertyId _id) as [[]|e]; [|done].
    destruct (verifyType _type) as [[]|e]; [|done].
    destruct ps as [ps|].
    - unfold ret, get_self. by rewrite !Hpath, H1, H2.
    - pose proof (keeps_prefixList _ _ (grows_props o w)) as Hkeep.
      unfold world_after in Hkeep.
      destruct (props o w) as [[ps|e] w1]; [|done]. simpl in Hkeep.
      unfold ret, get_self. by rewrite Hkeep, !Hpath, H1, H2. }
  split; [exact Hsame|].
  intros rcp1 rcp2 Hprops H1 H2.
  unfold Recipient_existsTypedProperty, through_msg. rewrite Hprops.
  by rewrite (Hsame true _ _ (Some (PStr (rcp_dir rcp2))) H1 H2).
Qed.

End Typed_existence_facts.

Section Attachment_facts.
Variable Attachment : Type.
Variable initAttachmentFunc : string -> M Attachment.
Variable type_is_msg : Attachment -> bool.
Variable data_close : Attachment -> result unit.

Lemma str_in_elem_of (x : string) (l : list string) : str_in x l = true <-> x ∈ l.
Proof.
  unfold str_in. rewrite existsb_exists. split.
  - intros (y & Hy & ->%String.eqb_eq). by apply list_elem_of_In.
  - intros Hx. exists x. split; [by apply list_elem_of_In|apply String.eqb_refl].
Qed.

(** What the first loop of [attachments] collects, starting from the
    directories [acc] *)
Lemma collect_attachmentDirs_spec (entries : list (list string)) (acc : list string) :
  Forall (fun x => x <> []) entries ->
  NoDup acc ->
  exists dirs,
    collect_attachmentDirs entries acc = Ok (acc ++ dirs) /\
    NoDup (acc ++ dirs) /\
    (forall d, d ∈ dirs <->
               (d ∉ acc) /\ Py.startswith d "__attach" = true /\
               exists rest, (d :: rest) ∈ entries) /\
    sublist dirs (omap head entries).
Proof.
  intros Hne. revert acc. induction Hne as [|x entries Hx Hne IH]; intros acc Hacc.
  - exists []. rewrite app_nil_r. split; [done|]. split; [done|]. split; [|constructor].
    intros d. split; [by intros ?%elem_of_nil|].
    intros (_ & _ & rest & ?%elem_of_nil). done.
  - destruct x as [|d tl]; [done|]. simpl.
    destruct (Py.startswith d "__attach" && negb (str_in d acc)) eqn:Htest.
    + apply andb_prop in Htest as [Hs Hn]. apply negb_true_iff in Hn.
      assert (d ∉ acc) as Hd by (rewrite <- str_in_elem_of; by rewrite Hn).
      destruct (IH (acc ++ [d])) as (dirs & Hrun & Hnd & Hin & Hsub).
      { apply NoDup_app. repeat split; [done| |apply NoDup_singleton].
        intros y Hy ->%list_elem_of_singleton. done. }
      exists (d :: dirs). rewrite <- app_assoc in Hrun, Hnd. simpl in Hrun, Hnd.
      split; [exact Hrun|]. split; [exact Hnd|]. split; [|by apply sublist_skip].
      intros y. rewrite elem_of_cons, Hin. split.
      * intros [->|(Hy1 & Hy2 & rest & Hy3)].
        -- split; [done|]. split; [done|]. exists tl. by left.
        -- split; [|split; [done|]].
           ++ intros Hy. apply Hy1. apply elem_of_app. by left.
           ++ exists rest. by right.
      * intros (Hy1 & Hy2 & rest & Hy3). destruct (decide (y = d)) as [->|Hneq]; [by left|].
        right. split; [|split; [done|]].
        -- intros [?|?%list_elem_of_singleton]%elem_of_app; done.
        -- apply elem_of_cons in Hy3 as [[= -> ->]|Hy3]; [done|]. by exists rest.
    + destruct (IH acc Hacc) as (dirs & Hrun & Hnd & Hin & Hsub).
      exists dirs. split; [exact Hrun|]. split; [exact Hnd|]. split; [|by apply sublist_cons].
      intros y. rewrite Hin. split.
      * intros (Hy1 & Hy2 & rest & Hy3). split; [done|]. split; [done|].
        exists rest. by right.
      * intros (Hy1 & Hy2 & rest & Hy3). split; [done|]. split; [done|].
        apply elem_of_cons in Hy3 as [[= -> ->]|Hy3]; [|by exists rest].
        rewrite Hy2 in Htest. simpl in Htest. apply negb_false_iff in Htest.
        by apply str_in_elem_of in Htest.
Qed.

(** X15: attachment discovery.  [attachments], when it has not run
    before, lists the storages below the prefix of the instance and calls
    the factory once for each distinct first segment that starts with
    [__attach], in the order of the listing: no directory twice, none left
    out, none made up.  When every call of the factory returns, the list of
    what they returned is the result, it is cached and
    [__attachmentsReady] is set; when one raises, the exception is the
    caller's and neither the cell nor the flag is set. *)
Theorem attachments_discovery (o : OleFileIO) (s : Instance Attachment)
    (entries : list (list string)) (w1 : World) :
  cached_attachments _ s = None ->
  listDir false true false o (inst_world _ s) = (Ok entries, w1) ->
  Forall (fun x => x <> []) entries ->
  exists dirs,
    NoDup dirs /\
    (forall d, d ∈ dirs <->
               Py.startswith d "__attach" = true /\ exists rest, (d :: rest) ∈ entries) /\
    sublist dirs (omap head entries) /\
    attachments _ initAttachmentFunc o s
    = match comprehension initAttachmentFunc dirs o w1 with
      | (Ok l, w2) => (Ok l, with_attachments _ s w2 l)
      | (Raise e, w2) => (Raise e, with_world _ s w2)
      end.
Proof.
  intros Hc Hlist Hne.
  destruct (collect_attachmentDirs_spec entries [] Hne (NoDup_nil_2))
    as (dirs & Hrun & Hnd & Hin & Hsub).
  exists dirs. split; [exact Hnd|]. split; [|split; [exact Hsub|]].
  - intros d. rewrite Hin. split; [by intros (_ & ? & ?)|].
    intros (Hs & Hrest). split; [by intros ?%elem_of_nil|done].
  - unfold attachments. rewrite Hc. unfold discover, bind at 1. rewrite Hlist.
    unfold bind at 1, lift at 1. by rewrite Hrun.
Qed.

(** X16: discovery runs once.  After an access of [attachments] that
    returned, the flag [__attachmentsReady] is set (when the cell was
    empty) and every later access returns the same list and changes
    nothing: no listing, no call of the factory, on whatever container.
    After an access that raised, the cell is still empty and the flag is
    what it was. *)
Theorem attachments_memoized (o : OleFileIO) (s s' : Instance Attachment) :
  (forall l,
     attachments _ initAttachmentFunc o s = (Ok l, s') ->
     (cached_attachments _ s = None -> inst_attachmentsReady _ s' = true) /\
     forall o', attachments _ initAttachmentFunc o' s' = (Ok l, s')) /\
  (forall e,
     attachments _ initAttachmentFunc o s = (Raise e, s') ->
     cached_attachments _ s' = None /\
     inst_attachmentsReady _ s' = inst_attachmentsReady _ s).
Proof.
  unfold attachments. split.
  - intros l. destruct (cached_attachments _ s) as [l0|] eqn:Hc.
    + intros [= <- <-]. split; [done|]. intros o'. by rewrite Hc.
    + destruct (discover _ initAttachmentFunc o (inst_world _ s)) as [[l0|e] w1]; [|done].
      intros [= <- <-]. by split.
  - intros e. destruct (cached_attachments _ s) as [l0|] eqn:Hc; [done|].
    destruct (discover _ initAttachmentFunc o (inst_world _ s)) as [[l0|e0] w1]; [done|].
    intros [= <- <-]. by split.
Qed.

Lemma with_teardown_app (s : Instance Attachment) (a b : list (TeardownCall Attachment)) :
  with_teardown _ (with_teardown _ s a) b = with_teardown _ s (a ++ b).
Proof. unfold with_teardown. simpl. by rewrite <- app_assoc. Qed.

Lemma with_teardown_nil (s : Instance Attachment) : with_teardown _ s [] = s.
Proof. destruct s. unfold with_teardown. simpl. by rewrite app_nil_r. Qed.

Lemma close_data_all (l : list Attachment) (s : Instance Attachment) :
  Forall (fun a => type_is_msg a = true -> data_close a = Ok tt) l ->
  close_data _ type_is_msg data_close l s
  = (Ok tt, with_teardown _ s (List.map (call_data_close _) (List.filter type_is_msg l))).
Proof.
  intros Hall. revert s. induction Hall as [|a l Ha Hall IH]; intros s; simpl.
  - by rewrite with_teardown_nil.
  - destruct (type_is_msg a) eqn:Hm; [|apply IH].
    rewrite (Ha eq_refl), IH. simpl. by rewrite with_teardown_app.
Qed.

Lemma close_data_raises (pre post : list Attachment) (a : Attachment) (e : exn)
    (s : Instance Attachment) :
  Forall (fun a => type_is_msg a = true -> data_close a = Ok tt) pre ->
  type_is_msg a = true ->
  data_close a = Raise e ->
  close_data _ type_is_msg data_close (pre ++ a :: post) s
  = (Raise e,
     with_teardown _ s (List.map (call_data_close _) (List.filter type_is_msg pre)
                        ++ [call_data_close _ a])).
Proof.
  intros Hall Hm Hr. revert s. induction Hall as [|b pre Hb Hall IH]; intros s; simpl.
  - by rewrite Hm, Hr.
  - destruct (type_is_msg b) eqn:Hmb; [|apply IH].
    rewrite (Hb eq_refl), IH. simpl. by rewrite with_teardown_app.
Qed.

(** X17: [close] without discovery, and twice.  On an instance whose
    attachments have not been discovered, [close] does not discover them:
    it makes no call on the container besides closing it, which it does
    exactly when the instance is open and owns it.  A [close] that
    returned leaves the instance not open, and a later [close] does
    nothing at all. *)
Theorem close_once_without_discovery (o : OleFileIO) (s : Instance Attachment) :
  (forall is_open,
     inst_open _ s = Some is_open ->
     inst_attachmentsReady _ s = false ->
     close _ initAttachmentFunc type_is_msg data_close o s
     = (Ok tt,
        if is_open then
          closed _ (with_teardown _ s (if inst_oleOwner _ s then [call_ole_close _] else []))
        else s)) /\
  (forall s',
     close _ initAttachmentFunc type_is_msg data_close o s = (Ok tt, s') ->
     inst_open _ s' = Some false /\
     forall o', close _ initAttachmentFunc type_is_msg data_close o' s' = (Ok tt, s')).
Proof.
  split.
  - intros is_open Hopen Hr. unfold close. rewrite Hopen, Hr. destruct is_open; [|done].
    destruct (inst_oleOwner _ s); [done|]. by rewrite with_teardown_nil.
  - intros s'. unfold close at 1. destruct (inst_open _ s) as [[]|] eqn:Hopen; [| |done].
    + destruct (if inst_attachmentsReady _ s then _ else _) as [[[]|e] s1]; [|done].
      intros [= <-]. split; [done|]. intros o'. unfold close. done.
    + intros [= <-]. split; [done|]. intros o'. unfold close. by rewrite Hopen.
Qed.

(** X18: [close] closes the embedded messages first.  On an open
    instance whose attachments are discovered, [close] calls
    [close] on the data of every attachment whose type is [msg], in the
    order of the list, then closes the container when the instance owns
    it, and then marks the instance as not open.  When one of these calls
    raises, the exception is the caller's, the attachments after it are not
    visited, the container is not closed and the instance stays open. *)
Theorem close_children_first (o : OleFileIO) (s : Instance Attachment) (l : list Attachment) :
  let succeeds a := type_is_msg a = true -> data_close a = Ok tt in
  let visited l := List.map (call_data_close _) (List.filter type_is_msg l) in
  inst_open _ s = Some true ->
  inst_attachmentsReady _ s = true ->
  cached_attachments _ s = Some l ->
  (Forall succeeds l ->
   close _ initAttachmentFunc type_is_msg data_close o s
   = (Ok tt,
      closed _ (with_teardown _ s
                  (visited l ++ if inst_oleOwner _ s then [call_ole_close _] else [])))) /\
  (forall pre a post e,
     l = pre ++ a :: post ->
     Forall succeeds pre ->
     type_is_msg a = true ->
     data_close a = Raise e ->
     close _ initAttachmentFunc type_is_msg data_close o s
     = (Raise e, with_teardown _ s (visited pre ++ [call_data_close _ a]))).
Proof.
  intros succeeds visited Hopen Hready Hc. split.
  - intros Hall. unfold close. rewrite Hopen, Hready. unfold attachments. rewrite Hc.
    rewrite (close_data_all l s Hall). simpl.
    destruct (inst_oleOwner _ s); [by rewrite with_teardown_app|].
    by rewrite app_nil_r.
  - intros pre a post e -> Hall Hm Hr. unfold close. rewrite Hopen, Hready.
    unfold attachments. rewrite Hc.
    by rewrite (close_data_raises pre post a e s Hall Hm Hr).
Qed.

End Attachment_facts.

(** The properties of this part on a concrete message. *)

Lemma getStringStreamAs_hands_over_bytes_witness :
  let ext := Fixture.externals in
  let o := Fixture.ole_of_streams [(Fixture.X +:+ "001F", Fixture.b3);
                                   (Fixture.X, Fixture.b5)] in
  let w := Fixture.new_world
             (Fixture.with_props Fixture.unicode_store (Fixture.new_msg [] THROW)) in
  let overrideClass (b : bytes) : M nat := ret (length b) in
  fst (getStringStream (PStr Fixture.X) true o w) = Ok (Some [10; 11; 12]%N) /\
  getStringStreamAs (PStr (Fixture.X +:+ "001E")) overrideClass o w
  = (Ok None,
     with_log (with_calls w [call_exists (Fixture.X +:+ "001E")])
       [info_stream_not_found (Fixture.X +:+ "001E")]) /\
  getStringStreamAs (PStr Fixture.X) overrideClass o w
  = (Ok (Some 5), with_calls w [call_exists Fixture.X; call_openstream Fixture.X]).
Proof.
  intros ext o w overrideClass. split; [by vm_compute|]. split.
  - exact (proj1 (getStringStreamAs_hands_over_bytes o w
                    (PStr (Fixture.X +:+ "001E")) overrideClass) eq_refl).
  - exact (proj1 (proj2 (getStringStreamAs_hands_over_bytes o w
                           (PStr Fixture.X) overrideClass)) Fixture.b5 eq_refl eq_refl).
Defined.

Lemma existsTypedProperty_ignores_location_witness :
  let ext := Fixture.externals in
  let o := Samples.ole_of Samples.streams Samples.storages in
  let w := Fixture.new_world (Fixture.with_props [] (Fixture.new_msg [] THROW)) in
  let rcp1 := {| rcp_dir := "__recip_version1.0_#00000000"; rcp_props := [] |} in
  let rcp2 := {| rcp_dir := "__recip_version1.0_#00000001"; rcp_props := [] |} in
  fst (Recipient_existsTypedProperty Samples.inputToMsgPath Samples.store_iter rcp1 "0FF6" None
         o (live w)) = Ok (true, 2) /\
  Recipient_existsTypedProperty Samples.inputToMsgPath Samples.store_iter rcp1 "0FF6" None
    o (live w)
  = Recipient_existsTypedProperty Samples.inputToMsgPath Samples.store_iter rcp2 "0FF6" None
      o (live w).
Proof.
  intros ext o w rcp1 rcp2. split; [by vm_compute|].
  apply (proj2 (existsTypedProperty_ignores_location (ext := ext) Samples.inputToMsgPath
                  Samples.store_iter o w "0FF6" None) rcp1 rcp2 eq_refl);
    eexists; reflexivity.
Defined.

Lemma attachments_discovery_witness :
  let o := Samples.ole_of Samples.streams Samples.storages in
  let s := Samples.fresh (Fixture.new_world (Fixture.new_msg [] THROW)) in
  fst (attachments _ Samples.initAttachmentFunc o s)
  = Ok [(Samples.att "0", Some Fixture.b5); (Samples.att "1", None); (Samples.att "2", None)]
  /\ exists dirs,
       NoDup dirs /\
       (forall d, d ∈ dirs <->
                  Py.startswith d "__attach" = true /\
                  exists rest, (d :: rest) ∈ Samples.storages) /\
       sublist dirs (omap head Samples.storages) /\
       attachments _ Samples.initAttachmentFunc o s
       = match comprehension Samples.initAttachmentFunc dirs o
                 (with_calls (inst_world _ s) [call_listdir false true]) with
         | (Ok l, w2) => (Ok l, with_attachments _ s w2 l)
         | (Raise e, w2) => (Raise e, with_world _ s w2)
         end.
Proof.
  intros o s. split; [by vm_compute|].
  apply (attachments_discovery _ Samples.initAttachmentFunc o s Samples.storages);
    [reflexivity|reflexivity|].
  repeat constructor; discriminate.
Defined.

Lemma attachments_memoized_witness :
  let o := Samples.ole_of Samples.streams Samples.storages in
  let o' := Samples.ole_of [] [[Samples.att "F"]] in
  let s := Samples.fresh (Fixture.new_world (Fixture.new_msg [] THROW)) in
  let l := [(Samples.att "0", Some Fixture.b5); (Samples.att "1", None);
            (Samples.att "2", None)] in
  let s' := snd (attachments _ Samples.initAttachmentFunc o s) in
  let s'' := snd (attachments _ Samples.initAttachmentFunc o' s) in
  attachments _ Samples.initAttachmentFunc o s = (Ok l, s') /\
  inst_attachmentsReady _ s' = true /\
  attachments _ Samples.initAttachmentFunc o' s' = (Ok l, s') /\
  attachments _ Samples.initAttachmentFunc o' s = (Raise ValueError, s'') /\
  cached_attachments _ s'' = None /\ inst_attachmentsReady _ s'' = false.
Proof.
  intros o o' s l s' s''.
  assert (attachments _ Samples.initAttachmentFunc o s = (Ok l, s')) as Hrun by by vm_compute.
  assert (attachments _ Samples.initAttachmentFunc o' s = (Raise ValueError, s'')) as Hfail
    by by vm_compute.
  destruct (attachments_memoized _ Samples.initAttachmentFunc o s s')
    as [Hok _].
  destruct (attachments_memoized _ Samples.initAttachmentFunc o' s s'')
    as [_ Hraise].
  destruct (Hok l Hrun) as [Hready Hagain]. destruct (Hraise ValueError Hfail) as [Hc Hr].
  split; [exact Hrun|]. split; [exact (Hready eq_refl)|]. split; [exact (Hagain o')|].
  split; [exact Hfail|]. split; [exact Hc|exact Hr].
Defined.

Lemma close_once_without_discovery_witness :
  let o := Samples.ole_of Samples.streams Samples.storages in
  let s := Samples.fresh (Fixture.new_world (Fixture.new_msg [] THROW)) in
  let s' := closed _ (with_teardown _ s [call_ole_close _]) in
  close _ Samples.initAttachmentFunc Samples.type_is_msg Samples.data_close o s = (Ok tt, s') /\
  inst_world _ s' = inst_world _ s /\
  inst_open _ s' = Some false /\
  close _ Samples.initAttachmentFunc Samples.type_is_msg Samples.data_close o s' = (Ok tt, s').
Proof.
  intros o s s'.
  destruct (close_once_without_discovery _ Samples.initAttachmentFunc
              Samples.type_is_msg Samples.data_close o s) as [Hfirst Htwice].
  pose proof (Hfirst true eq_refl eq_refl) as Hrun.
  change (close _ Samples.initAttachmentFunc Samples.type_is_msg Samples.data_close o s
          = (Ok tt, s')) in Hrun.
  destruct (Htwice s' Hrun) as [Hopen Hagain].
  split; [exact Hrun|]. split; [reflexivity|]. split; [exact Hopen|exact (Hagain o)].
Defined.

Lemma close_children_first_witness :
  let o := Samples.ole_of Samples.streams Samples.storages in
  let w := Fixture.new_world (Fixture.new_msg [] THROW) in
  let a0 := (Samples.att "0", Some Fixture.b5) in
  let a1 := (Samples.att "1", None) in
  let a2 := (Samples.att "2", None) in
  let s := Samples.discovered w [a0; a1] in
  let s' := Samples.discovered w [a0; a1; a2; a1] in
  close _ Samples.initAttachmentFunc Samples.type_is_msg Samples.data_close o s
  = (Ok tt, closed _ (with_teardown _ s [call_data_close _ a1; call_ole_close _])) /\
  close _ Samples.initAttachmentFunc Samples.type_is_msg Samples.data_close o s'
  = (Raise OSError, with_teardown _ s' [call_data_close _ a1; call_data_close _ a2]).
Proof.
  intros o w a0 a1 a2 s s'. split.
  - apply (proj1 (close_children_first _ Samples.initAttachmentFunc
                    Samples.type_is_msg Samples.data_close o s [a0; a1]
                    eq_refl eq_refl eq_refl)).
    repeat constructor.
  - apply (proj2 (close_children_first _ Samples.initAttachmentFunc
                    Samples.type_is_msg Samples.data_close o s' [a0; a1; a2; a1]
                    eq_refl eq_refl eq_refl) [a0; a1] a2 [a1] OSError eq_refl);
      [repeat constructor|reflexivity|reflexivity].
Defined.

(** * Properties of [Recipient]: construction and typed getters *)

Section Recipient_constructor_facts.
Context {ext : Externals}.
Variables RT MT : Type.
Variable RecipientType : Z -> result RT.
Variable MeetingRecipientType : Z -> result MT.

(** What the attributes are when the constructor body returns *)
Lemma Recipient_init_attrs_spec (o : OleFileIO) (w w' : World) (_dir : string)
    (is_calendar : bool) (attrs : RecipientAttrs RT MT) :
  Recipient_init_attrs RT MT RecipientType MeetingRecipientType _dir is_calendar o w
  = (Ok attrs, w') ->
  exists stream w1,
    getStream (in_dir_of _dir "__properties_version1.0") true o w = (Ok stream, w1) /\
    attr_dir attrs = _dir /\
    attr_props attrs = PropertiesStore_init stream RECIPIENT /\
    default (PyInt 0) (PropertiesStore.getValue (attr_props attrs) "0C150003")
    = PyInt (attr_typeFlags attrs) /\
    (if is_calendar
     then map_result inr (MeetingRecipientType (Z.land 0xF (attr_typeFlags attrs)))
     else map_result inl (RecipientType (Z.land 0xF (attr_typeFlags attrs))))
    = Ok (attr_type attrs) /\
    attr_formatted attrs
    = format_str (attr_name attrs) ++ text_of " <" ++ format_str (attr_email attrs)
      ++ text_of ">".
Proof.
  unfold Recipient_init_attrs. unfold bind at 1.
  destruct (getStream _ true o w) as [[stream|?] w1]; [|done].
  unfold bind at 1. destruct (getStringStream _ true o w1) as [[email|?] w2]; [|done].
  unfold bind at 1.
  match goal with
  | |- context [(if no_text email then ?a else ?b) o w2] =>
      destruct ((if no_text email then a else b) o w2) as [[email'|?] w3]
  end; [|done].
  unfold bind at 1. destruct (getStringStream _ true o w3) as [[name|?] w4]; [|done].
  unfold bind at 1.
  destruct (default (PyInt 0) (PropertiesStore.getValue _ "0C150003")) as [|z| | | |] eqn:Hflags;
    try done.
  unfold ret at 1. unfold bind at 1. destruct is_calendar.
  - unfold bind at 1, lift. destruct (MeetingRecipientType (Z.land 15 z)) as [t|?] eqn:Ht;
      [|done].
    intros [= <- <-]. exists stream, w1. simpl. by rewrite Ht.
  - unfold bind at 1, lift. destruct (RecipientType (Z.land 15 z)) as [t|?] eqn:Ht; [|done].
    intros [= <- <-]. exists stream, w1. simpl. by rewrite Ht.
Qed.

(** X19: the property stream of a recipient.  When the directory of the
    recipient holds no property stream, the constructor raises
    StandardViolationError under THROW, after one existence test; under an
    error behaviour that tolerates standards violations it sends one
    record to the logger of [recipient.py] and goes on with a store of
    zero records, so the type flags are 0.  When the directory holds the
    stream, whatever its contents, empty or not, nothing is sent to that
    logger and the store is built from these contents. *)
Theorem Recipient_init_property_stream (o : OleFileIO) (w : World) (_dir : string)
    (is_calendar : bool) :
  let name := fixed (self w) (in_dir_of _dir "__properties_version1.0") true in
  let init := Recipient_init RT MT RecipientType MeetingRecipientType _dir is_calendar o w in
  (ole_exists o name = false ->
   match msg_errorBehavior (self w) with
   | THROW => init = (Raise StandardViolationError, with_calls w [call_exists name], [])
   | TOLERANT =>
       snd init = [error_recipient_no_property_stream] /\
       forall attrs, fst (fst init) = Ok attrs ->
                     attr_props attrs = [] /\ attr_typeFlags attrs = 0%Z
   end) /\
  (forall b,
     ole_exists o name = true ->
     ole_openstream o name = Some b ->
     snd init = [] /\
     forall attrs, fst (fst init) = Ok attrs ->
                   attr_props attrs = parseProperties RECIPIENT b).
Proof.
  intros name init. split.
  - intros He. unfold init, Recipient_init.
    change (exists_ (in_dir_of _dir "__properties_version1.0") true o w)
      with (Ok (ole_exists o name), with_calls w [call_exists name]).
    rewrite He. change (self (with_calls w [call_exists name])) with (self w).
    destruct (msg_errorBehavior (self w)); simpl; [done|].
    destruct (Recipient_init_attrs _ _ _ _ _ _ o _) as [[attrs|e] w'] eqn:Hrun;
      (split; [done|]); [|done].
    intros ? [= <-].
    apply Recipient_init_attrs_spec in Hrun
      as (stream & w1 & Hread & _ & Hprops & Hflags & _).
    rewrite getStream_absent in Hread by exact He. injection Hread as <- _.
    rewrite Hprops in Hflags |- *. split; [done|]. simpl in Hflags. by injection Hflags.
  - intros b He Ho. unfold init, Recipient_init.
    change (exists_ (in_dir_of _dir "__properties_version1.0") true o w)
      with (Ok (ole_exists o name), with_calls w [call_exists name]).
    rewrite He.
    destruct (Recipient_init_attrs _ _ _ _ _ _ o _) as [[attrs|e] w'] eqn:Hrun;
      (split; [done|]); [|done].
    intros ? [= <-].
    apply Recipient_init_attrs_spec in Hrun as (stream & w1 & Hread & _ & Hprops & _).
    rewrite (getStream_found _ _ _ true b) in Hread by done. injection Hread as <- _.
    exact Hprops.
Qed.

(** X20: the type of a recipient.  When the constructor returns, the
    type flags are the value of the property [0C150003] of the store of
    the recipient, 0 when it has none, and the type is the member that the
    low four bits of the flags name, in [MeetingRecipientType] when the
    message is a calendar object and in [RecipientType] when it is not:
    the other bits of the flags play no part. *)
Theorem Recipient_type_from_low_bits (o : OleFileIO) (w w' : World) (_dir : string)
    (is_calendar : bool) (attrs : RecipientAttrs RT MT) (rlog : list RecipientLogRecord) :
  Recipient_init RT MT RecipientType MeetingRecipientType _dir is_calendar o w
  = (Ok attrs, w', rlog) ->
  default (PyInt 0) (PropertiesStore.getValue (attr_props attrs) "0C150003")
  = PyInt (attr_typeFlags attrs) /\
  (if is_calendar
   then map_result inr (MeetingRecipientType (attr_typeFlags attrs mod 16))
   else map_result inl (RecipientType (attr_typeFlags attrs mod 16)))
  = Ok (attr_type attrs).
Proof.
  intros Hinit.
  assert (exists w0, Recipient_init_attrs RT MT RecipientType MeetingRecipientType _dir
                       is_calendar o w0 = (Ok attrs, w')) as [w0 Hrun].
  { revert Hinit. unfold Recipient_init.
    destruct (exists_ _ true o w) as [[[]|?] w0]; [| |done].
    - destruct (Recipient_init_attrs _ _ _ _ _ _ o w0) as [r w1] eqn:Hrun.
      intros [= -> -> _]. by exists w0.
    - destruct (STANDARDS_VIOLATION_in _); [|done].
      destruct (Recipient_init_attrs _ _ _ _ _ _ o w0) as [r w1] eqn:Hrun.
      intros [= -> -> _]. by exists w0. }
  apply Recipient_init_attrs_spec in Hrun as (_ & _ & _ & _ & _ & Hflags & Htype & _).
  split; [exact Hflags|].
  replace (attr_typeFlags attrs mod 16)%Z with (Z.land 15 (attr_typeFlags attrs)); [done|].
  rewrite Z.land_comm. change 15%Z with (Z.ones 4). by rewrite Z.land_ones.
Qed.

End Recipient_constructor_facts.

Section Recipient_typed_getter_facts.
Context {ext : Externals}.
Variable verifyPropertyId_of_builtin_id : result unit.
Variable props_get : PropertiesStore.t -> string -> option PropBase.
Variable props_getProperties : PropertiesStore.t -> string -> list PropBase.

(** X21: the typed getters of a recipient never return a value.
    [Recipient._getTypedData], and [Recipient._getTypedAs] which calls it,
    raise on every call: the check of the id is made on the builtin [id],
    and when that check passes the call of [_getTypedStream] raises,
    ReferenceError when the message is gone and TypeError when it is
    there.  The lookup of the inline record is never reached, although
    [Recipient._getTypedProperty] called by itself does return. *)
Theorem Recipient_typed_getters_never_return (rcp : Recipient) (o : OleFileIO)
    (r : weakref World) (_id : string) (_type : option string)
    (overrideClass : option (PyVal -> result PyVal)) (preserveNone : bool) :
  let getTypedData :=
    Recipient_getTypedData rcp verifyPropertyId_of_builtin_id props_get props_getProperties in
  let getTypedAs :=
    Recipient_getTypedAs rcp verifyPropertyId_of_builtin_id props_get props_getProperties in
  (exists e, getTypedData _id _type o r = (Raise e, r)) /\
  (exists e, getTypedAs _id overrideClass preserveNone o r = (Raise e, r)) /\
  (verifyPropertyId_of_builtin_id = Ok tt ->
   getTypedData _id _type o r
   = (Raise (match r with live _ => TypeError | dead => ReferenceError end), r)) /\
  (verifyPropertyId _id = Ok tt ->
   exists found v,
     Recipient_getTypedProperty rcp props_get props_getProperties _id None o r
     = (Ok (found, v), r)).
Proof.
  intros getTypedData getTypedAs.
  assert (exists e, getTypedData _id _type o r = (Raise e, r) /\
                    getTypedData _id None o r = (Raise e, r) /\
                    (verifyPropertyId_of_builtin_id = Ok tt ->
                     e = match r with live _ => TypeError | dead => ReferenceError end))
    as (e & Hdata & Hnone & He).
  { unfold getTypedData, Recipient_getTypedData.
    destruct verifyPropertyId_of_builtin_id as [[]|e]; [|by exists e].
    unfold Recipient_getTypedStream, through_msg, raise. destruct r as [w|].
    - by exists TypeError.
    - by exists ReferenceError. }
  split; [by exists e|]. split; [|split].
  - exists e. unfold getTypedAs, Recipient_getTypedAs. fold getTypedData. by rewrite Hnone.
  - intros Hv. rewrite Hdata. by rewrite (He Hv).
  - intros Hv. unfold Recipient_getTypedProperty. rewrite Hv.
    destruct (first_fixed _) as [found v]. by exists found, v.
Qed.

End Recipient_typed_getter_facts.

(** The properties of the constructor on a concrete recipient. *)

Lemma Recipient_init_property_stream_witness :
  let ext := People.externals in
  let init o eb :=
    Recipient_init _ _ People.RecipientType_new People.MeetingRecipientType_new People.dir false
      o (Fixture.new_world (Fixture.new_msg [] eb)) in
  let o := Fixture.ole_of_streams People.streams in
  let o' := Fixture.ole_of_streams People.streams_bare in
  let name := People.dir +:+ "/__properties_version1.0" in
  init o' THROW
  = (Raise StandardViolationError,
     with_calls (Fixture.new_world (Fixture.new_msg [] THROW)) [call_exists name], []) /\
  (snd (init o' TOLERANT) = [error_recipient_no_property_stream] /\
   forall attrs, fst (fst (init o' TOLERANT)) = Ok attrs ->
                 attr_props attrs = [] /\ attr_typeFlags attrs = 0%Z) /\
  (snd (init o THROW) = [] /\
   forall attrs, fst (fst (init o THROW)) = Ok attrs ->
                 attr_props attrs = [("0C150003", FixedLengthProp (PyInt 0x10000001))]).
Proof.
  intros ext init o o' name. split; [|split].
  - exact (proj1 (Recipient_init_property_stream (ext := ext) _ _ People.RecipientType_new
                    People.MeetingRecipientType_new o'
                    (Fixture.new_world (Fixture.new_msg [] THROW)) People.dir false) eq_refl).
  - exact (proj1 (Recipient_init_property_stream (ext := ext) _ _ People.RecipientType_new
                    People.MeetingRecipientType_new o'
                    (Fixture.new_world (Fixture.new_msg [] TOLERANT)) People.dir false)
             eq_refl).
  - exact (proj2 (Recipient_init_property_stream (ext := ext) _ _ People.RecipientType_new
                    People.MeetingRecipientType_new o
                    (Fixture.new_world (Fixture.new_msg [] THROW)) People.dir false)
             [] eq_refl eq_refl).
Defined.

Lemma Recipient_type_from_low_bits_witness :
  let ext := People.externals in
  let o := Fixture.ole_of_streams People.streams in
  let w := Fixture.new_world (Fixture.new_msg [] THROW) in
  let run := Recipient_init _ _ People.RecipientType_new People.MeetingRecipientType_new
               People.dir false o w in
  let attrs := {|
    attr_dir := People.dir;
    attr_props := [("0C150003", FixedLengthProp (PyInt 0x10000001))];
    attr_email := Some [10; 11; 12]%N;
    attr_name := None;
    attr_typeFlags := 0x10000001;
    attr_type := inl People.TO;
    attr_formatted := text_of "None <" ++ [10; 11; 12]%N ++ text_of ">" |} in
  run = (Ok attrs, snd (fst run), snd run) /\
  (0x10000001 mod 16 = 1)%Z /\
  map_result inl (People.RecipientType_new (attr_typeFlags attrs mod 16))
  = Ok (inl People.TO : People.RecipientType + People.MeetingRecipientType).
Proof.
  intros ext o w run attrs.
  assert (run = (Ok attrs, snd (fst run), snd run)) as Hrun by by vm_compute.
  split; [exact Hrun|]. split; [reflexivity|].
  exact (proj2 (Recipient_type_from_low_bits (ext := ext) _ _ People.RecipientType_new
                  People.MeetingRecipientType_new o w _ People.dir false attrs _ Hrun)).
Defined.

(** * Properties of the handlers and file names of custom attachments *)

Section Handler_facts.
Variable Attachment : Type.
Variable Handler : Type.

Lemma getHandler_declined (a : Attachment) (pre rest : list (HandlerClass Attachment Handler)) :
  Forall (fun h => isCorrectHandler h a = Ok false) pre -> getHandler a (pre ++ rest) = getHandler a rest.
Proof.
  intros Hall. induction Hall as [|h pre Hh Hall IH]; simpl; [done|]. by rewrite Hh.
Qed.

(** X22: the first handler that accepts wins.  [getHandler] asks the
    registered handlers in the order of registration; the first that does
    not decline the attachment decides: when it accepts, the result is what
    its constructor gives, a handler or the exception it raises, and when
    its test raises, that exception is the result.  The handlers after it
    are not asked.  When every handler declines, NotImplementedError is
    raised, as it is when none is registered. *)
Theorem getHandler_first_match (a : Attachment)
    (pre post : list (HandlerClass Attachment Handler)) (h : HandlerClass Attachment Handler) :
  Forall (fun h => isCorrectHandler h a = Ok false) pre ->
  getHandler a pre = Raise NotImplementedError /\
  getHandler a (pre ++ h :: post)
  = match isCorrectHandler h a with
    | Ok true => construct h a
    | Ok false => getHandler a post
    | Raise e => Raise e
    end.
Proof.
  intros Hall. split.
  - rewrite <- (app_nil_r pre). by rewrite getHandler_declined.
  - rewrite getHandler_declined by done. reflexivity.
Qed.

(** X23: registration.  [registerHandler] refuses, with ValueError,
    what is not a class and a class that is no subclass of
    [CustomAttachmentHandler], and leaves the registry as it was.  A
    handler class is put at the end of the registry, also when it is there
    already.  So a handler registered later never takes over an attachment
    that the registry already decides, by a handler that accepts it or by a
    test that raises; it is asked only about the attachments that every
    earlier handler declines. *)
Theorem registerHandler_appends (argument : HandlerArgument Attachment Handler)
    (registry : list (HandlerClass Attachment Handler)) :
  match argument with
  | a_handler_class h =>
      registerHandler argument registry = (Ok tt, registry ++ [h]) /\
      forall a,
        (forall pre g post,
           registry = pre ++ g :: post ->
           Forall (fun h => isCorrectHandler h a = Ok false) pre ->
           isCorrectHandler g a <> Ok false ->
           getHandler a (snd (registerHandler argument registry)) = getHandler a registry) /\
        (Forall (fun h => isCorrectHandler h a = Ok false) registry ->
         getHandler a (snd (registerHandler argument registry)) = getHandler a [h])
  | _ => registerHandler argument registry = (Raise ValueError, registry)
  end.
Proof.
  destruct argument as [| |h]; try done. split; [done|]. intros a. simpl. split.
  - intros pre g post -> Hall Hg. rewrite <- app_assoc. simpl.
    rewrite !getHandler_declined by done. simpl.
    destruct (isCorrectHandler g a) as [[]|e]; done.
  - intros Hall. by rewrite getHandler_declined.
Qed.

End Handler_facts.

Section Filename_facts.
Variable Rng : Type.
Variable randbelow : nat -> Rng -> nat * Rng.
Variable invalid_filename : string -> bool.


Lemma get_contains_char (s : string) (i : nat) (c : ascii) :
  String.get i s = Some c -> Py.contains_char c s = true.
Proof.
  revert i. induction s as [|d s IHs]; intros i Hc; [by destruct i|]. simpl.
  destruct i as [|i]; simpl in Hc.
  - injection Hc as ->. by rewrite Ascii.eqb_refl.
  - destruct (Ascii.eqb c d); [done|]. by apply (IHs i).
Qed.

Lemma choices_shape (n : nat) (g g' : Rng) (r : string) :
  choices Rng randbelow n g = (Ok r, g') ->
  String.length r = n /\
  Forall (fun c => Py.contains_char c name_alphabet = true) (list_ascii_of_string r).
Proof.
  revert g g' r. induction n as [|n IH]; intros g g' r; simpl.
  - intros [= <- <-]. by split.
  - unfold choice. destruct (randbelow _ g) as [i g1].
    destruct (String.get i name_alphabet) as [c|] eqn:Hc; [|done].
    destruct (choices Rng randbelow n g1) as [[r'|?] g2] eqn:Hr; [|done].
    intros [= <- <-]. destruct (IH _ _ _ Hr) as [Hlen Hall]. split; [simpl; by rewrite Hlen|].
    change (list_ascii_of_string (String c r')) with (c :: list_ascii_of_string r').
    constructor; [|done]. by apply (get_contains_char name_alphabet i).
Qed.

Lemma choices_returns (n : nat) (g : Rng) :
  (forall k g, 0 < k -> fst (randbelow k g) < k) ->
  exists r g', choices Rng randbelow n g = (Ok r, g').
Proof.
  intros Hlaw. revert g. induction n as [|n IH]; intros g; simpl; [by eexists _, _|].
  unfold choice. pose proof (Hlaw (String.length name_alphabet) g ltac:(simpl; lia)) as Hi.
  destruct (randbelow _ g) as [i g1]. simpl in Hi.
  destruct (String.get i name_alphabet) as [c|] eqn:Hc.
  - destruct (IH g1) as (r & g2 & ->). by eexists _, _.
  - exfalso. do 36 (destruct i as [|i]; [done|]). simpl in Hi. lia.
Qed.

(** X25: the random name.  The first access of [randomFilename]
    draws five characters and keeps the name in the attribute; every
    later access returns that same name and draws nothing.  The name is
    [UnknownFilename], a space, the five characters, each an upper-case
    letter or a digit, and [.bin].  When the generator keeps to its
    range, the access returns. *)
Theorem randomFilename_stable (a a' : CustomAttachment) (g g' : Rng) (n : string) :
  randomFilename Rng randbelow a g = (Ok n, a', g') ->
  (forall g'', randomFilename Rng randbelow a' g'' = (Ok n, a', g'')) /\
  (randomName a = None ->
   exists r,
     n = "UnknownFilename " +:+ r +:+ ".bin" /\
     String.length r = 5 /\
     Forall (fun c => Py.contains_char c name_alphabet = true) (list_ascii_of_string r)) /\
  ((forall k g, 0 < k -> fst (randbelow k g) < k) ->
   forall b g0, exists n0 b' g1, randomFilename Rng randbelow b g0 = (Ok n0, b', g1)).
Proof.
  intros Hrun. split; [|split].
  - revert Hrun. unfold randomFilename.
    destruct (randomName a) as [n0|] eqn:Hn.
    + intros [= <- <- <-] g''. by rewrite Hn.
    + unfold regenerateRandomName. destruct (choices Rng randbelow 5 g) as [[r|?] g1]; [|done].
      simpl. by intros [= <- <- <-] g''.
  - intros Hnone. revert Hrun. unfold randomFilename. rewrite Hnone.
    unfold regenerateRandomName.
    destruct (choices Rng randbelow 5 g) as [[r|?] g1] eqn:Hr; [|done].
    simpl. intros [= <- <- <-]. exists r. split; [done|]. by eapply choices_shape.
  - intros Hlaw b g0. unfold randomFilename.
    destruct (randomName b) as [n0|]; [by eexists _, _, _|].
    unfold regenerateRandomName.
    destruct (choices_returns 5 g0 Hlaw) as (r & g1 & ->). simpl. by eexists _, _, _.
Qed.

End Filename_facts.

(** The properties of the handlers and file names on concrete inputs. *)

Lemma getHandler_first_match_witness :
  getHandler "dib" [Handlers.picky; Handlers.dib; Handlers.catch_all] = Ok "OutlookImageDIB" /\
  getHandler "msg" [Handlers.picky; Handlers.dib; Handlers.catch_all] = Ok "CatchAll" /\
  getHandler "msg" [Handlers.picky; Handlers.dib] = Raise NotImplementedError.
Proof.
  split; [|split].
  - apply (proj2 (getHandler_first_match string string "dib" [Handlers.picky]
                    [Handlers.catch_all] Handlers.dib ltac:(by repeat constructor))).
  - apply (proj2 (getHandler_first_match string string "msg" [Handlers.picky; Handlers.dib]
                    [] Handlers.catch_all ltac:(by repeat constructor))).
  - apply (proj1 (getHandler_first_match string string "msg" [Handlers.picky; Handlers.dib]
                    [] Handlers.catch_all ltac:(by repeat constructor))).
Defined.

Lemma registerHandler_appends_witness :
  let registry := [Handlers.picky; Handlers.dib] in
  let later := snd (registerHandler (a_handler_class Handlers.catch_all) registry) in
  registerHandler an_instance registry = (Raise ValueError, registry) /\
  later = [Handlers.picky; Handlers.dib; Handlers.catch_all] /\
  getHandler "dib" later = Ok "OutlookImageDIB" /\
  getHandler "odd" later = Raise ValueError /\
  getHandler "msg" later = Ok "CatchAll".
Proof.
  intros registry later.
  destruct (registerHandler_appends string string (a_handler_class Handlers.catch_all) registry)
    as [Hrun Hlater].
  split; [exact (registerHandler_appends string string an_instance registry)|].
  split; [exact (f_equal snd Hrun)|]. split; [|split].
  - exact (proj1 (Hlater "dib") [Handlers.picky] Handlers.dib [] eq_refl
             ltac:(by repeat constructor) ltac:(discriminate)).
  - exact (proj1 (Hlater "odd") [] Handlers.picky [Handlers.dib] eq_refl
             ltac:(by repeat constructor) ltac:(discriminate)).
  - exact (proj2 (Hlater "msg") ltac:(by repeat constructor)).
Defined.


Lemma randomFilename_stable_witness :
  let randomFilename := randomFilename nat Handlers.randbelow in
  let a' := set_randomName Handlers.unnamed "UnknownFilename ABCDE.bin" in
  randomFilename Handlers.unnamed 0 = (Ok "UnknownFilename ABCDE.bin", a', 5) /\
  (forall g, randomFilename a' g = (Ok "UnknownFilename ABCDE.bin", a', g)) /\
  exists r,
    "UnknownFilename ABCDE.bin" = "UnknownFilename " +:+ r +:+ ".bin" /\
    String.length r = 5 /\
    Forall (fun c => Py.contains_char c name_alphabet = true) (list_ascii_of_string r).
Proof.
  intros randomFilename a'.
  assert (randomFilename Handlers.unnamed 0 = (Ok "UnknownFilename ABCDE.bin", a', 5)) as Hrun
    by reflexivity.
  destruct (randomFilename_stable nat Handlers.randbelow Handlers.unnamed a' 0 5 _ Hrun)
    as (Hstable & Hshape & _).
  split; [exact Hrun|]. split; [exact Hstable|exact (Hshape eq_refl)].
Defined.

(** * Properties of the structures of [ole_pres.py] *)

Section Ole_pres_facts.
Context {hlp : Helpers}.

(** X26: what [toBytes] gives for an object that the constructor has
    read is the bytes that the constructor consumed.  With a reader and a
    packer that agree (what [readUnsignedInt] reads, [pack] writes; [read]
    takes its bytes from the front; a clipboard format packs to the number
    it was looked up by), the result of [toBytes] followed by what the
    reader has left is the input. *)
Theorem toBytes_gives_back_what_was_read (reader rest : bytes)
    (self : ClipboardFormatOrAnsiString) :
  (forall bs z rest, readUnsignedInt bs = Ok (z, rest) ->
                     exists p, pack_UI32 z = Ok p /\ p ++ rest = bs) ->
  (forall n bs b rest, read n bs = Ok (b, rest) -> b ++ rest = bs) ->
  (forall z c, ClipboardFormat_new z = Ok c -> pack_ClipboardFormat c = pack_UI32 z) ->
  ClipboardFormatOrAnsiString_init reader = Ok (self, rest) ->
  exists p, toBytes self = Ok p /\ p ++ rest = reader.
Proof.
  intros Hint Hread Hformat. unfold ClipboardFormatOrAnsiString_init.
  destruct (readUnsignedInt reader) as [[marker r1]|?] eqn:Hm; [|done].
  destruct (Hint _ _ _ Hm) as (pm & Hpm & Hr1).
  destruct (0xFFFFFFFD <? marker)%Z eqn:Hbig.
  - destruct (readUnsignedInt r1) as [[n r2]|?] eqn:Hn; [|done].
    destruct (ClipboardFormat_new n) as [c|?] eqn:Hc; [|done].
    intros [= <- <-]. destruct (Hint _ _ _ Hn) as (pn & Hpn & Hr2).
    exists (pm ++ pn). unfold toBytes. simpl. rewrite Hpm, Hbig, (Hformat _ _ Hc), Hpn.
    split; [done|]. by rewrite <- app_assoc, Hr2.
  - destruct (0 <? marker)%Z eqn:Hpos.
    + destruct (read (Z.to_nat marker) r1) as [[b r2]|?] eqn:Hb; [|done].
      intros [= <- <-]. exists (pm ++ b). unfold toBytes. simpl. rewrite Hpm, Hbig, Hpos.
      split; [done|]. by rewrite <- app_assoc, (Hread _ _ _ _ Hb).
    + intros [= <- <-]. exists pm. unfold toBytes. simpl. by rewrite Hpm, Hbig, Hpos.
Qed.

(** X27: the attributes of a [ClipboardFormatOrAnsiString] cannot be
    assigned by their names.  The three setters are all defined under the
    name [setter], so the class binds [ansiString], [clipboardFormat] and
    [markerOrLength] to properties without a setter, and an assignment to
    any of them raises AttributeError.  The name [setter] is left bound to
    the last of them: an assignment to it runs the setter of
    [markerOrLength], which takes 0, 0xFFFFFFFE and 0xFFFFFFFF only, clears
    the string and sets the format to [CF_BITMAP] or to nothing.  So after
    construction no string and no other format can be given to the
    object. *)
Theorem attributes_cannot_be_assigned (self : ClipboardFormatOrAnsiString) (val : Val) :
  setattr self "ansiString" val = Some (Raise AttributeError) /\
  setattr self "clipboardFormat" val = Some (Raise AttributeError) /\
  setattr self "markerOrLength" val = Some (Raise AttributeError) /\
  setattr self "setter" val = Some (markerOrLength_fset self val) /\
  forall self',
    markerOrLength_fset self val = Ok self' ->
    val = VInt (markerOrLength self') /\
    ansiString self' = VNone /\
    (markerOrLength self' = 0%Z /\ clipboardFormat self' = VNone \/
     (markerOrLength self' = 0xFFFFFFFE%Z \/ markerOrLength self' = 0xFFFFFFFF%Z) /\
     clipboardFormat self' = VFormat CF_BITMAP).
Proof.
  split; [done|]. split; [done|]. split; [done|]. split; [done|].
  intros self'. unfold markerOrLength_fset. destruct val as [|z| |]; try done.
  destruct (z <? 0)%Z eqn:Hneg; [done|]. destruct (0xFFFFFFFF <? z)%Z eqn:Hbig; [done|].
  destruct (z =? 0)%Z eqn:Hzero.
  - intros [= <-]. simpl. apply Z.eqb_eq in Hzero. split; [done|]. split; [done|]. by left.
  - destruct (0xFFFFFFFD <? z)%Z eqn:Hmark; [|done].
    intros [= <-]. simpl. split; [done|]. split; [done|]. right. split; [|done]. lia.
Qed.

(** X28: an [OLEPresentationStream] cannot be constructed.  The
    constructor raises on every input: when the header is read and passes
    the three checks and the size of the target device is read, the next
    statement reads the attribute [targetDevice], which nothing has set,
    and raises AttributeError; before that, a read or a check raises. *)
Theorem OLEPresentationStream_init_always_raises (data_ : bytes) :
  (exists e, OLEPresentationStream_init data_ = Raise e) /\
  forall header reader size reader',
    ClipboardFormatOrAnsiString_init data_ = Ok (header, reader) ->
    markerOrLength header <> 0%Z ->
    format_is (clipboardFormat header) CF_BITMAP = false ->
    (markerOrLength header <= 0x201 \/ 0xFFFFFFFE <= markerOrLength header)%Z ->
    readUnsignedInt reader = Ok (size, reader') ->
    OLEPresentationStream_init data_ = Raise AttributeError.
Proof.
  split.
  - unfold OLEPresentationStream_init.
    destruct (ClipboardFormatOrAnsiString_init data_) as [[header reader]|e]; [|by exists e].
    destruct (markerOrLength header =? 0)%Z; [by exists ValueError|].
    destruct (format_is _ _); [by exists ValueError|].
    destruct (_ && _); [by exists ValueError|].
    destruct (readUnsignedInt reader) as [[size reader']|e]; [|by exists e].
    by exists AttributeError.
  - intros header reader size reader' Hheader Hmarker Hformat Hlen Hsize.
    unfold OLEPresentationStream_init. rewrite Hheader.
    replace (markerOrLength header =? 0)%Z with false by (symmetry; by apply Z.eqb_neq).
    rewrite Hformat.
    replace ((513 <? markerOrLength header)%Z && (markerOrLength header <? 4294967294)%Z)
      with false by (symmetry; apply andb_false_iff; lia).
    by rewrite Hsize.
Qed.

End Ole_pres_facts.

(** The little-endian reader and packer agree. *)

Lemma to_Z_bounded (b : Byte.byte) : (0 <= LittleEndian.to_Z b < 256)%Z.
Proof.
  unfold LittleEndian.to_Z. pose proof (Byte.to_N_bounded b) as Hb. lia.
Qed.

Lemma byte_of_low (b : Byte.byte) (k : Z) :
  LittleEndian.byte_of (LittleEndian.to_Z b + 256 * k) = b /\
  ((LittleEndian.to_Z b + 256 * k) / 256 = k)%Z.
Proof.
  pose proof (to_Z_bounded b) as Hb. split.
  - unfold LittleEndian.byte_of.
    replace ((LittleEndian.to_Z b + 256 * k) mod 256)%Z with (LittleEndian.to_Z b).
    + unfold LittleEndian.to_Z. by rewrite N2Z.id, Byte.of_to_N.
    + rewrite Z.mul_comm, Z.mod_add by lia. symmetry. by apply Z.mod_small.
  - rewrite Z.add_comm, Z.mul_comm, Z.div_add_l by lia.
    rewrite Z.div_small by lia. lia.
Qed.

Lemma pack_readUnsignedInt (bs : bytes) (z : Z) (rest : bytes) :
  LittleEndian.read_UI32 bs = Ok (z, rest) ->
  exists p, LittleEndian.pack z = Ok p /\ p ++ rest = bs.
Proof.
  destruct bs as [|b0 [|b1 [|b2 [|b3 bs]]]]; try done. intros [= <- <-].
  pose proof (to_Z_bounded b0). pose proof (to_Z_bounded b1).
  pose proof (to_Z_bounded b2). pose proof (to_Z_bounded b3).
  exists [b0; b1; b2; b3]. split; [|reflexivity]. unfold LittleEndian.pack.
  replace (_ && _) with true by (symmetry; apply andb_true_iff; lia).
  destruct (byte_of_low b0 (LittleEndian.to_Z b1
                            + 256 * (LittleEndian.to_Z b2 + 256 * LittleEndian.to_Z b3)))
    as [-> ->].
  destruct (byte_of_low b1 (LittleEndian.to_Z b2 + 256 * LittleEndian.to_Z b3)) as [-> ->].
  destruct (byte_of_low b2 (LittleEndian.to_Z b3)) as [-> ->].
  replace (LittleEndian.to_Z b3) with (LittleEndian.to_Z b3 + 256 * 0)%Z at 1 by lia.
  by rewrite (proj1 (byte_of_low b3 0)).
Qed.

(** The properties of the structures on concrete bytes. *)

Lemma toBytes_gives_back_what_was_read_witness :
  let hlp := LittleEndian.helpers in
  (exists self,
     ClipboardFormatOrAnsiString_init LittleEndian.named_header
     = Ok (self, drop 7 LittleEndian.named_header) /\
     ansiString self = VBytes [Byte.x61; Byte.x62; Byte.x63] /\
     exists p, toBytes self = Ok p /\
               p ++ drop 7 LittleEndian.named_header = LittleEndian.named_header) /\
  (exists self,
     ClipboardFormatOrAnsiString_init LittleEndian.format_header = Ok (self, [Byte.xff]) /\
     clipboardFormat self = VFormat LittleEndian.DIB /\
     exists p, toBytes self = Ok p /\ p ++ [Byte.xff] = LittleEndian.format_header).
Proof.
  intros hlp.
  assert (forall n bs b rest, LittleEndian.read_bytes n bs = Ok (b, rest) -> b ++ rest = bs)
    as Hread by (intros n bs b rest [= <- <-]; apply take_drop).
  assert (forall z c, LittleEndian.Format_new z = Ok c
                      -> LittleEndian.pack (LittleEndian.Format_value c) = LittleEndian.pack z)
    as Hformat.
  { intros z c. unfold LittleEndian.Format_new.
    destruct z as [|[[[[]|[]|]|[[]|[]|]|]|[[[]|[]|]|[[]|[]|]|]|]|]; try done; by intros [= <-]. }
  split.
  - eexists. split; [reflexivity|]. split; [reflexivity|].
    exact (toBytes_gives_back_what_was_read (hlp := hlp) LittleEndian.named_header _ _
             pack_readUnsignedInt Hread Hformat eq_refl).
  - eexists. split; [reflexivity|]. split; [reflexivity|].
    exact (toBytes_gives_back_what_was_read (hlp := hlp) LittleEndian.format_header _ _
             pack_readUnsignedInt Hread Hformat eq_refl).
Defined.

Lemma OLEPresentationStream_init_always_raises_witness :
  let hlp := LittleEndian.helpers in
  OLEPresentationStream_init LittleEndian.named_header = Raise AttributeError /\
  OLEPresentationStream_init LittleEndian.format_header = Raise (OtherError "struct.error") /\
  OLEPresentationStream_init [] = Raise (OtherError "struct.error").
Proof.
  intros hlp. split; [|split; reflexivity].
  apply (proj2 (OLEPresentationStream_init_always_raises (hlp := hlp)
                  LittleEndian.named_header)
           {| markerOrLength := 3; ansiString := VBytes [Byte.x61; Byte.x62; Byte.x63];
              clipboardFormat := VNone |}
           (drop 7 LittleEndian.named_header) 4%Z [Byte.xff]).
  - reflexivity.
  - discriminate.
  - reflexivity.
  - left. simpl. lia.
  - reflexivity.
Defined.

(** * Properties of the end of [MSGFile.__init__] *)

Section Constructor_facts.
Context {ext : Externals}.
Variable Attachment : Type.
Variable initAttachmentFunc : string -> M Attachment.
Variable type_is_msg : Attachment -> bool.
Variable data_close : Attachment -> result unit.
Variable Prefix : Type.
Variable inputToMsgPath : Prefix -> result (list string).

(** X29: what a failed construction does to the container.  An
    exception in the last block of [__init__] is raised again after an
    attempt to close the instance.  When it comes from the discovery of
    the attachments, the instance is already marked open: the container is
    closed, when the instance owns it, and the instance is left not open.
    When it comes from the conversion of the prefix (raised as PrefixError)
    or from the read of the file name of an embedded message, [__open] is
    not set yet: [close] raises AttributeError, which is swallowed, and the
    container is left open even when the instance owns it. *)
Theorem init_failure_and_the_container (args : InitArgs Prefix) (oleOwner : bool)
    (log0 : list LogRecord) (o : OleFileIO) :
  let init := init_guarded Attachment initAttachmentFunc type_is_msg data_close Prefix
                inputToMsgPath args oleOwner log0 o in
  let body := init_body Attachment initAttachmentFunc Prefix inputToMsgPath args oleOwner
                log0 o in
  (forall e, fst body = Raise e -> fst init = Raise e) /\
  (forall e,
     fst body = Raise e ->
     inst_open _ (snd body) = Some true ->
     inst_open _ (snd init) = Some false /\
     teardown _ (snd init) = if oleOwner then [call_ole_close _] else []) /\
  (forall e,
     fst body = Raise e ->
     inst_open _ (snd body) = None ->
     snd init = snd body /\ teardown _ (snd init) = []) /\
  (forall prefix,
     arg_prefix _ args = Some prefix ->
     inputToMsgPath prefix = Raise ConversionError ->
     fst init = Raise PrefixError /\ inst_open _ (snd init) = None /\
     teardown _ (snd init) = []).
Proof.
  intros init body.
  assert (forall s, teardown Attachment s = [] -> inst_oleOwner _ s = oleOwner ->
                    inst_attachmentsReady _ s = false -> inst_open _ s = Some true ->
                    let s' := snd (close _ initAttachmentFunc type_is_msg data_close o s) in
                    inst_open _ s' = Some false /\
                    teardown _ s' = if oleOwner then [call_ole_close _] else []) as Hclose.
  { intros s Ht Ho Hr Hop. unfold close. rewrite Hop, Hr. simpl. rewrite Ho.
    destruct oleOwner; simpl; by rewrite Ht. }
  assert (teardown _ (snd body) = [] /\ inst_oleOwner _ (snd body) = oleOwner /\
          (forall e, fst body = Raise e -> inst_attachmentsReady _ (snd body) = false))
    as (Hbt & Hbo & Hbr).
  { unfold body, init_body.
    destruct (convert_prefix _ _ args) as [prefixl|e0]; [|done]. simpl.
    destruct (read_filename _ args prefixl o _) as [[filename|e0] w]; [|done].
    destruct (arg_delayAttachments _ args); [done|].
    unfold attachments. simpl.
    destruct (discover _ initAttachmentFunc o w) as [[l|e0] w1]; done. }
  split; [|split; [|split]].
  - intros e He. unfold init, init_guarded. fold body.
    destruct body as [[f|e0] s]; simpl in *; congruence.
  - intros e He Hopen. unfold init, init_guarded. fold body.
    destruct body as [[f|e0] s] eqn:Hb; simpl in *; [done|].
    by apply Hclose; [| |apply (Hbr e0)|].
  - intros e He Hopen. unfold init, init_guarded. fold body.
    destruct body as [[f|e0] s] eqn:Hb; simpl in *; [done|].
    unfold close. rewrite Hopen. by split.
  - intros prefix Hp Hconv.
    assert (body = (Raise PrefixError,
                    entering Attachment Prefix args oleOwner log0 None)) as Hb.
    { unfold body, init_body, convert_prefix. by rewrite Hp, Hconv. }
    unfold init, init_guarded. fold body. rewrite Hb. by split.
Qed.

(** X30: delayed attachments.  With [delayAttachments] set, the block
    does not discover the attachments: when the prefix converts and the
    file name is read, it returns, whatever the factory would do, with the
    instance open and the flag [__attachmentsReady] not set; for a
    message without a prefix no call at all has been made on the
    container.  Without it the factory decides: the block returns when the
    discovery returns, with the same file name, and raises what the
    discovery raises. *)
Theorem init_delayed_attachments (args : InitArgs Prefix) (oleOwner : bool)
    (log0 : list LogRecord) (o : OleFileIO) (filename : option text)
    (s : Instance Attachment) :
  let init delay factory :=
    init_guarded Attachment factory type_is_msg data_close Prefix inputToMsgPath
      {| arg_prefix := arg_prefix _ args; arg_filename := arg_filename _ args;
         arg_delayAttachments := delay; arg_errorBehavior := arg_errorBehavior _ args;
         arg_overrideEncoding := arg_overrideEncoding _ args;
         arg_path_filename := arg_path_filename _ args |} oleOwner log0 o in
  init true initAttachmentFunc = (Ok filename, s) ->
  (forall factory, init true factory = (Ok filename, s)) /\
  inst_open _ s = Some true /\
  inst_attachmentsReady _ s = false /\
  cached_attachments _ s = None /\
  (arg_prefix _ args = None -> calls (inst_world _ s) = []) /\
  match attachments _ initAttachmentFunc o s with
  | (Ok l, s') => init false initAttachmentFunc = (Ok filename, s')
  | (Raise e, s') => fst (init false initAttachmentFunc) = Raise e
  end.
Proof.
  intros init. unfold init, init_guarded, init_body. simpl.
  change (convert_prefix Prefix inputToMsgPath _) with (convert_prefix Prefix inputToMsgPath args).
  destruct (convert_prefix _ _ args) as [prefixl|e0] eqn:Hprefix; [|done]. simpl.
  change (read_filename Prefix _ prefixl) with (read_filename Prefix args prefixl).
  destruct (read_filename _ args prefixl o _) as [[f|e0] w] eqn:Hname; [|done].
  intros [= <- <-]. split; [done|]. split; [done|]. split; [done|]. split; [done|].
  split.
  - intros Hnone. unfold convert_prefix in Hprefix. rewrite Hnone in Hprefix.
    injection Hprefix as <-. simpl in Hname. by injection Hname as _ <-.
  - destruct (attachments _ initAttachmentFunc o _) as [[l|e] s']; done.
Qed.

End Constructor_facts.

(** The end of the constructor on a concrete message, with a factory that
    fails. *)

Lemma init_failure_and_the_container_witness :
  let ext := Fixture.externals in
  let o := Samples.ole_of Samples.streams [[Samples.att "F"]] in
  let args prefix : InitArgs string := {|
    arg_prefix := prefix; arg_filename := None; arg_delayAttachments := false;
    arg_errorBehavior := THROW; arg_overrideEncoding := None;
    arg_path_filename := Some (text_of "mail.msg") |} in
  let inputToMsgPath (p : string) :=
    if String.eqb p "" then Raise ConversionError else Ok [p] in
  let init prefix :=
    init_guarded _ Samples.initAttachmentFunc Samples.type_is_msg Samples.data_close _
      inputToMsgPath (args prefix) true [] o in
  (fst (init None) = Raise ValueError /\
   inst_open _ (snd (init None)) = Some false /\
   teardown _ (snd (init None)) = [call_ole_close _]) /\
  (fst (init (Some "")) = Raise PrefixError /\
   inst_open _ (snd (init (Some ""))) = None /\
   teardown _ (snd (init (Some ""))) = []).
Proof.
  intros ext o args inputToMsgPath init. split.
  - split; [reflexivity|].
    exact (proj1 (proj2 (init_failure_and_the_container _ Samples.initAttachmentFunc
                           Samples.type_is_msg Samples.data_close _ inputToMsgPath
                           (args None) true [] o)) ValueError eq_refl eq_refl).
  - exact (proj2 (proj2 (proj2 (init_failure_and_the_container _ Samples.initAttachmentFunc
                                  Samples.type_is_msg Samples.data_close _ inputToMsgPath
                                  (args (Some "")) true [] o))) "" eq_refl eq_refl).
Defined.

Lemma init_delayed_attachments_witness :
  let ext := Fixture.externals in
  let o := Samples.ole_of Samples.streams [[Samples.att "F"]] in
  let args : InitArgs string := {|
    arg_prefix := None; arg_filename := None; arg_delayAttachments := false;
    arg_errorBehavior := THROW; arg_overrideEncoding := None;
    arg_path_filename := Some (text_of "mail.msg") |} in
  let inputToMsgPath (p : string) : result (list string) := Ok [p] in
  let init delay :=
    init_guarded _ Samples.initAttachmentFunc Samples.type_is_msg Samples.data_close _
      inputToMsgPath
      {| arg_prefix := arg_prefix _ args; arg_filename := arg_filename _ args;
         arg_delayAttachments := delay; arg_errorBehavior := arg_errorBehavior _ args;
         arg_overrideEncoding := arg_overrideEncoding _ args;
         arg_path_filename := arg_path_filename _ args |} true [] o in
  fst (init true) = Ok (Some (text_of "mail.msg")) /\
  inst_open _ (snd (init true)) = Some true /\
  inst_attachmentsReady _ (snd (init true)) = false /\
  calls (inst_world _ (snd (init true))) = [] /\
  fst (init false) = Raise ValueError.
Proof.
  intros ext o args inputToMsgPath init.
  destruct (init_delayed_attachments _ Samples.initAttachmentFunc Samples.type_is_msg
              Samples.data_close _ inputToMsgPath args true [] o
              (Some (text_of "mail.msg")) (snd (init true)) eq_refl)
    as (_ & Hopen & Hready & _ & Hcalls & Hfalse).
  split; [reflexivity|]. split; [exact Hopen|]. split; [exact Hready|].
  split; [exact (Hcalls eq_refl)|exact Hfalse].
Defined.
